(** * Aftermath market maker: orchestrator, exchange adapter and quoting policy

    A shallow embedding of the TypeScript market-maker bot.

    - A finite JavaScript number is the rational it denotes ([Q]);
      comparisons are exact, and the two arithmetic operations of the
      orchestrator on fractions, the quotient and the product of the margin
      check, round to the nearest double as IEEE 754 binary64 does
      ([Float64]). NaN and the infinities are not part of the model.
      Wall-clock milliseconds are integers ([Z]). The components taken from
      the specification compute over exact rationals, and the EMA of the
      fair-price estimator, which needs [exp], over the reals ([R]).
    - An [async] method is one atomic step of a state-and-exception monad:
      what other timers do while a method is suspended at an [await] is not
      part of the model.
    - A rejected promise or a thrown exception is the [Throw] result; state
      written before the throw is kept, as in JavaScript.
    - Logging is left out. *)

From Stdlib Require Import ZArith QArith Qabs Qminmax Qround Qreduction.
From Stdlib Require Import Reals Lra.
From Stdlib Require Import List String Ascii Bool Lia.
Import ListNotations.

Local Open Scope string_scope.
Local Open Scope list_scope.

(* ------------------------------------------------------------------ *)
(** ** Results, and a state monad with exceptions                      *)
(* ------------------------------------------------------------------ *)

Inductive Result (A : Type) : Type :=
| Ok (a : A)
| Throw (msg : string).
Arguments Ok {A} a.
Arguments Throw {A} msg.

Definition is_ok {A} (r : Result A) : bool :=
  match r with Ok _ => true | Throw _ => false end.

Definition M (S A : Type) : Type := S -> Result A * S.

Definition ret {S A} (a : A) : M S A := fun s => (Ok a, s).

Definition bind {S A B} (m : M S A) (k : A -> M S B) : M S B :=
  fun s =>
    match m s with
    | (Ok a, s') => k a s'
    | (Throw e, s') => (Throw e, s')
    end.

Definition throw {S A} (msg : string) : M S A := fun s => (Throw msg, s).

(** [try { m } catch (error) { h error }] *)
Definition try_catch {S A} (m : M S A) (h : string -> M S A) : M S A :=
  fun s =>
    match m s with
    | (Ok a, s') => (Ok a, s')
    | (Throw e, s') => h e s'
    end.

Declare Scope monad_scope.
Delimit Scope monad_scope with monad.
Notation "x <- m ;; k" := (bind m (fun x => k))
  (at level 61, m at next level, right associativity) : monad_scope.
Notation "m ;; k" := (bind m (fun _ => k))
  (at level 61, right associativity) : monad_scope.
Local Open Scope monad_scope.

(** [for (const x of xs) { body x }] *)
Fixpoint for_of {S A} (xs : list A) (body : A -> M S unit) : M S unit :=
  match xs with
  | [] => ret tt
  | x :: rest => body x ;; for_of rest body
  end.

(* ------------------------------------------------------------------ *)
(** ** Numbers                                                         *)
(* ------------------------------------------------------------------ *)

(** [a < b] on numbers *)
Definition Qltb (a b : Q) : bool := negb (Qle_bool b a).
(** [a >= b] on numbers *)
Definition Qgeb (a b : Q) : bool := Qle_bool b a.

(** IEEE 754 binary64, round to nearest, ties to even, on the rationals.
    A double is [m * 2^e] with [|m| < 2^53] and [e >= -1074]. A result of
    magnitude [2^1024] or more, which JavaScript turns into an infinity, is
    kept as the rational it is: it lies beyond every double and compares
    with every double as the infinity does. *)
Module Float64.

(** [floor (log2 (a / d))] for positive [a] and [d] *)
Definition ilog2 (a d : Z) : Z :=
  let k := (Z.log2 a - Z.log2 d)%Z in
  if (0 <=? k)%Z
  then (if (d * 2 ^ k <=? a)%Z then k else k - 1)%Z
  else (if (d <=? a * 2 ^ (- k))%Z then k else k - 1)%Z.

(** The integer nearest to [n / d], the even one of two at equal distance,
    for [n >= 0] and [d > 0]. *)
Definition nearest_even (n d : Z) : Z :=
  match (2 * (n mod d) ?= d)%Z with
  | Lt => (n / d)%Z
  | Gt => (n / d + 1)%Z
  | Eq => if Z.even (n / d) then (n / d)%Z else (n / d + 1)%Z
  end.

(** The double nearest to [a / d] for positive [a] and [d]: 53 significant
    bits, or fewer below [2^-1022]. *)
Definition round_pos (a d : Z) : Q :=
  let e := Z.max (ilog2 a d - 52) (-1074) in
  if (0 <=? e)%Z
  then inject_Z (nearest_even a (d * 2 ^ e) * 2 ^ e)
  else Qred (Qmake (nearest_even (a * 2 ^ (- e)) d) (Z.to_pos (2 ^ (- e)))).

(** The double nearest to [q]. *)
Definition round (q : Q) : Q :=
  match Qnum q with
  | Z0 => 0
  | Zpos a => round_pos (Zpos a) (Zpos (Qden q))
  | Zneg a => - round_pos (Zpos a) (Zpos (Qden q))
  end.

(** [x / y] and [x * y] on numbers *)
Definition div (x y : Q) : Q := round (x / y).
Definition mul (x y : Q) : Q := round (x * y).

(** A decimal literal of the source: the double nearest to it. *)
Definition literal (q : Q) : Q := round q.

End Float64.

(** [!x] for [x : number | null]: null and 0 are falsy *)
Definition falsy (x : option Q) : bool :=
  match x with
  | None => true
  | Some p => Qeq_bool p 0
  end.

(** [x || undefined] *)
Definition or_undefined (x : option Q) : option Q :=
  if falsy x then None else x.

(* ------------------------------------------------------------------ *)
(** ** Shared data types ([types.ts], as the sources use them)         *)
(* ------------------------------------------------------------------ *)

Inductive OrderSide : Type := buy | sell.

Record Market : Type := {
  market_id : string;
  market_symbol : string;
  market_base : string;
  tickSize : Q;
  lotSize : Q
}.

Record Order : Type := {
  order_id : string;
  order_side : OrderSide;
  order_price : Q;
  order_size : Q
}.

Record OrderRequest : Type := {
  req_symbol : string;
  req_side : OrderSide;
  req_price : Q;
  req_size : Q;
  req_reduceOnly : bool
}.

Record OrderResult : Type := { orderId : string }.

Record Account : Type := {
  equity : Q;
  availableMargin : Q
}.

Record Position : Type := {
  pos_symbol : string;
  pos_side : OrderSide;
  pos_size : Q;
  pos_entryPrice : Q;
  pos_unrealizedPnl : Q
}.

(** [Quote]: a side that is not quoted has [None] for price and size. *)
Record Quote : Type := {
  bidPrice : option Q;
  bidSize : option Q;
  askPrice : option Q;
  askSize : option Q;
  bidReduceOnly : bool;
  askReduceOnly : bool
}.

(** [a.includes(b)] on strings *)
Fixpoint includes (hay needle : string) : bool :=
  String.prefix needle hay ||
  match hay with
  | EmptyString => false
  | String _ rest => includes rest needle
  end.

(* ------------------------------------------------------------------ *)
(** ** The collaborators of the orchestrator                           *)
(* ------------------------------------------------------------------ *)

(** The collaborators are objects whose state lives outside the
    [MarketMaker] fields; [W] is that state taken together. A method that
    only reads has type [W -> Result A]; a request has type
    [W -> Result A * W]. *)

Module Exchange.

(** [IExchange], the methods the orchestrator calls. *)
Class IExchange (W : Type) : Type := {
  disconnect : W -> Result unit * W;
  unsubscribeOrderbook : string -> W -> Result unit * W;
  getAccount : W -> Result Account * W;
  getPositions : W -> Result (list Position) * W;
  getOpenOrders : option string -> W -> Result (list Order) * W;
  placeOrder : OrderRequest -> W -> Result OrderResult * W;
  cancelAllOrders : option string -> W -> Result unit * W
}.

End Exchange.

Module FairPriceCalc.

Class FairPriceCalculator (W : Type) : Type := {
  getFairPrice : W -> Result (option Q);
  disconnect : W -> Result unit * W
}.

End FairPriceCalc.

Module PositionMgr.

Class PositionManager (W : Type) : Type := {
  isAtMax : W -> Result bool;
  getSignedNotional : W -> Result Q;
  updatePosition : option Position -> option Q -> W -> Result unit * W
}.

End PositionMgr.

Module QuoterObj.

Class Quoter (W : Type) : Type := {
  generateQuotes : Q -> Q -> W -> Result Quote;
  isOrderStale : Q -> OrderSide -> Q -> W -> Result bool;
  quoteToOrders : Quote -> W -> Result (list OrderRequest)
}.

End QuoterObj.

(** [Date.now()] *)
Class Clock (W : Type) : Type := { date_now : W -> Z }.

(* ------------------------------------------------------------------ *)
(** ** The orchestrator ([class MarketMaker])                          *)
(* ------------------------------------------------------------------ *)

Inductive MarketMakerState : Type :=
| stopped
| connecting
| warming_up
| running
| paused
| error.

Definition MarketMakerState_eqb (a b : MarketMakerState) : bool :=
  match a, b with
  | stopped, stopped | connecting, connecting | warming_up, warming_up
  | running, running | paused, paused | error, error => true
  | _, _ => false
  end.

(** The fields of [MarketMakerConfig] that the sources and the
    specification name. *)
Record MarketMakerConfig : Type := {
  cfg_exchange : string;
  symbol : string;
  spreadBps : Q;
  takeProfitBps : Q;
  orderSizeUsd : Q;
  closeThresholdUsd : Q;
  maxPositionUsd : Q;
  updateThrottleMs : Z;
  orderSyncIntervalMs : Z;
  minMarginRatio : Q
}.

(** A request that leaves the orchestrator, as recorded in the trace. *)
Inductive Call : Type :=
| CancelAllOrdersReq (sym : option string)
| PlaceOrderReq (order : OrderRequest)
| GetAccountReq
| GetPositionsReq
| GetOpenOrdersReq (sym : option string)
| UnsubscribeOrderbookReq (sym : string)
| ExchangeDisconnectReq
| FeedDisconnectReq.

Definition is_cancel (c : Call) : bool :=
  match c with CancelAllOrdersReq _ => true | _ => false end.

Definition is_place (c : Call) : bool :=
  match c with PlaceOrderReq _ => true | _ => false end.

Module MarketMaker.

(** The private fields. A timer handle is [Some tt] while the interval is
    scheduled and [None] (null) otherwise. *)
Record Fields : Type := {
  config : MarketMakerConfig;
  state : MarketMakerState;
  market : option Market;
  currentOrders : list Order;
  mainLoopInterval : option unit;
  orderSyncInterval : option unit;
  startTime : Z;
  lastUpdateTime : Z;
  errorCount : nat;
  lastMarginRatio : Q;
  marginCheckInterval : option unit
}.

(** [private maxErrors = 10], never assigned again *)
Definition maxErrors : nat := 10.

(** The field initialisers of the class. *)
Definition initial (c : MarketMakerConfig) : Fields :=
  {| config := c; state := stopped; market := None; currentOrders := [];
     mainLoopInterval := None; orderSyncInterval := None; startTime := 0;
     lastUpdateTime := 0; errorCount := 0; lastMarginRatio := 1;
     marginCheckInterval := None |}.

Definition set_state (v : MarketMakerState) (f : Fields) : Fields :=
  {| config := config f; state := v; market := market f;
     currentOrders := currentOrders f;
     mainLoopInterval := mainLoopInterval f;
     orderSyncInterval := orderSyncInterval f; startTime := startTime f;
     lastUpdateTime := lastUpdateTime f; errorCount := errorCount f;
     lastMarginRatio := lastMarginRatio f;
     marginCheckInterval := marginCheckInterval f |}.

Definition set_currentOrders (v : list Order) (f : Fields) : Fields :=
  {| config := config f; state := state f; market := market f;
     currentOrders := v;
     mainLoopInterval := mainLoopInterval f;
     orderSyncInterval := orderSyncInterval f; startTime := startTime f;
     lastUpdateTime := lastUpdateTime f; errorCount := errorCount f;
     lastMarginRatio := lastMarginRatio f;
     marginCheckInterval := marginCheckInterval f |}.

Definition set_lastUpdateTime (v : Z) (f : Fields) : Fields :=
  {| config := config f; state := state f; market := market f;
     currentOrders := currentOrders f;
     mainLoopInterval := mainLoopInterval f;
     orderSyncInterval := orderSyncInterval f; startTime := startTime f;
     lastUpdateTime := v; errorCount := errorCount f;
     lastMarginRatio := lastMarginRatio f;
     marginCheckInterval := marginCheckInterval f |}.

Definition set_errorCount (v : nat) (f : Fields) : Fields :=
  {| config := config f; state := state f; market := market f;
     currentOrders := currentOrders f;
     mainLoopInterval := mainLoopInterval f;
     orderSyncInterval := orderSyncInterval f; startTime := startTime f;
     lastUpdateTime := lastUpdateTime f; errorCount := v;
     lastMarginRatio := lastMarginRatio f;
     marginCheckInterval := marginCheckInterval f |}.

Definition set_lastMarginRatio (v : Q) (f : Fields) : Fields :=
  {| config := config f; state := state f; market := market f;
     currentOrders := currentOrders f;
     mainLoopInterval := mainLoopInterval f;
     orderSyncInterval := orderSyncInterval f; startTime := startTime f;
     lastUpdateTime := lastUpdateTime f; errorCount := errorCount f;
     lastMarginRatio := v;
     marginCheckInterval := marginCheckInterval f |}.

(** [clearInterval] on the three timers, each handle set to null *)
Definition clear_intervals (f : Fields) : Fields :=
  {| config := config f; state := state f; market := market f;
     currentOrders := currentOrders f;
     mainLoopInterval := None;
     orderSyncInterval := None; startTime := startTime f;
     lastUpdateTime := lastUpdateTime f; errorCount := errorCount f;
     lastMarginRatio := lastMarginRatio f;
     marginCheckInterval := None |}.

(** The orchestrator's fields, its collaborators' state, and the requests
    issued so far (oldest first). *)
Record Sys (W : Type) : Type := {
  this : Fields;
  world : W;
  calls : list Call
}.
Arguments this {W} _.
Arguments world {W} _.
Arguments calls {W} _.

Section Orchestrator.

Context {W : Type}.
Context {exchange : Exchange.IExchange W}.
Context {fairPriceCalc : FairPriceCalc.FairPriceCalculator W}.
Context {positionManager : PositionMgr.PositionManager W}.
Context {quoter : QuoterObj.Quoter W}.
Context {clock : Clock W}.

Definition read : M (Sys W) Fields := fun s => (Ok (this s), s).

Definition write (f : Fields -> Fields) : M (Sys W) unit :=
  fun s => (Ok tt, {| this := f (this s); world := world s; calls := calls s |}).

(** A request to a collaborator: recorded, then performed. *)
Definition request {A} (c : Call) (op : W -> Result A * W) : M (Sys W) A :=
  fun s =>
    let (r, w') := op (world s) in
    (r, {| this := this s; world := w'; calls := calls s ++ [c] |}).

(** A synchronous call that changes its object's state. *)
Definition invoke {A} (op : W -> Result A * W) : M (Sys W) A :=
  fun s =>
    let (r, w') := op (world s) in
    (r, {| this := this s; world := w'; calls := calls s |}).

(** A synchronous call that only reads. *)
Definition query {A} (op : W -> Result A) : M (Sys W) A :=
  fun s => (op (world s), s).

Definition now : M (Sys W) Z := fun s => (Ok (date_now (world s)), s).

(** [private async cancelAllOrders()] *)
Definition cancelAllOrders : M (Sys W) unit :=
  try_catch
    (f <- read ;;
     request (CancelAllOrdersReq (Some (symbol (config f))))
             (Exchange.cancelAllOrders (Some (symbol (config f)))) ;;
     write (set_currentOrders []))
    (fun _ => ret tt).

(** [private handleError()] *)
Definition handleError : M (Sys W) unit :=
  write (fun f => set_errorCount (S (errorCount f)) f) ;;
  f <- read ;;
  if (maxErrors <=? errorCount f)%nat
  then write (set_state paused)
  else ret tt.

(** [private async checkMarginRatio()] *)
Definition checkMarginRatio : M (Sys W) unit :=
  try_catch
    (account <- request GetAccountReq Exchange.getAccount ;;
     (if Qltb 0 (equity account)
      then write (set_lastMarginRatio
                    (Float64.div (availableMargin account) (equity account)))
      else ret tt) ;;
     f <- read ;;
     if Qltb (lastMarginRatio f) (minMarginRatio (config f))
     then
       if MarketMakerState_eqb (state f) running
       then write (set_state paused) ;; cancelAllOrders
       else ret tt
     else
       if MarketMakerState_eqb (state f) paused
          && Qgeb (lastMarginRatio f)
                  (Float64.mul (minMarginRatio (config f))
                               (Float64.literal (12 # 10)))
       then write (set_state running)
       else ret tt)
    (fun _ => ret tt).

(** The loop of [shouldUpdateOrders]: the first stale order answers true. *)
Fixpoint anyOrderStale (orders : list Order) (fairPrice : Q) : M (Sys W) bool :=
  match orders with
  | [] => ret false
  | order :: rest =>
      stale <- query (QuoterObj.isOrderStale (order_price order)
                                             (order_side order) fairPrice) ;;
      if stale then ret true else anyOrderStale rest fairPrice
  end.

(** [private shouldUpdateOrders(_quote)] *)
Definition shouldUpdateOrders (_quote : Quote) : M (Sys W) bool :=
  f <- read ;;
  match currentOrders f with
  | [] => ret true
  | _ :: _ =>
      fairPrice <- query FairPriceCalc.getFairPrice ;;
      match fairPrice with
      | None => ret false
      | Some p =>
          if Qeq_bool p 0 then ret false
          else anyOrderStale (currentOrders f) p
      end
  end.

(** [private async runMainLoop()] *)
Definition runMainLoop : M (Sys W) unit :=
  f <- read ;;
  if negb (MarketMakerState_eqb (state f) running) then ret tt else
  t <- now ;;
  if (t - lastUpdateTime f <? updateThrottleMs (config f))%Z then ret tt else
  write (set_lastUpdateTime t) ;;
  fairPrice <- query FairPriceCalc.getFairPrice ;;
  match fairPrice with
  | None => ret tt
  | Some p =>
      if Qeq_bool p 0 then ret tt else
      atMax <- query PositionMgr.isAtMax ;;
      if atMax then ret tt else
      signedNotional <- query PositionMgr.getSignedNotional ;;
      quote <- query (QuoterObj.generateQuotes p signedNotional) ;;
      needsUpdate <- shouldUpdateOrders quote ;;
      if negb needsUpdate then ret tt else
      cancelAllOrders ;;
      orders <- query (QuoterObj.quoteToOrders quote) ;;
      for_of orders
        (fun order =>
           try_catch
             (request (PlaceOrderReq order) (Exchange.placeOrder order) ;; ret tt)
             (fun _ => ret tt)) ;;
      write (set_errorCount 0)
  end.

(** [private async syncPosition()] *)
Definition syncPosition : M (Sys W) unit :=
  try_catch
    (positions <- request GetPositionsReq Exchange.getPositions ;;
     f <- read ;;
     let position :=
       find (fun p =>
               includes (pos_symbol p) (symbol (config f))
               || match market f with
                  | Some m => String.eqb (pos_symbol p) (market_symbol m)
                  | None => false
                  end)
            positions in
     fairPrice <- query FairPriceCalc.getFairPrice ;;
     invoke (PositionMgr.updatePosition position (or_undefined fairPrice)))
    (fun _ => ret tt).

(** [private async syncOrders()] *)
Definition syncOrders : M (Sys W) unit :=
  try_catch
    (f <- read ;;
     orders <- request (GetOpenOrdersReq (Some (symbol (config f))))
                       (Exchange.getOpenOrders (Some (symbol (config f)))) ;;
     write (set_currentOrders orders) ;;
     syncPosition)
    (fun _ => ret tt).

(** [async stop()] *)
Definition stop : M (Sys W) unit :=
  write clear_intervals ;;
  try_catch cancelAllOrders (fun _ => ret tt) ;;
  try_catch
    (f <- read ;;
     request (UnsubscribeOrderbookReq (symbol (config f)))
             (Exchange.unsubscribeOrderbook (symbol (config f))) ;;
     request ExchangeDisconnectReq Exchange.disconnect)
    (fun _ => ret tt) ;;
  try_catch
    (request FeedDisconnectReq FairPriceCalc.disconnect)
    (fun _ => ret tt) ;;
  write (set_state stopped).

(** The three timer callbacks of [startMainLoop], [startOrderSync] and
    [startMarginCheck]: the promise's [catch] handler follows the method. *)
Definition mainLoopTick : M (Sys W) unit :=
  try_catch runMainLoop (fun _ => handleError).

Definition orderSyncTick : M (Sys W) unit :=
  try_catch syncOrders (fun _ => ret tt).

Definition marginCheckTick : M (Sys W) unit :=
  try_catch checkMarginRatio (fun _ => ret tt).

(** *** Reading a run of the quoting tick *)

(** The state in which the quoting tick continues once the throttle lets
    it through. *)
Definition stamped (s : Sys W) : Sys W :=
  {| this := set_lastUpdateTime (date_now (world s)) (this s);
     world := world s; calls := calls s |}.

(** A tick that stops before the cancel leaves everything but the time of
    the last update as it was. *)
Definition quiet (s s' : Sys W) : Prop := s' = s \/ s' = stamped s.

(** The tick has passed its guards and holds a quote: the state is
    [running], the throttle lets it through, the fair price [p] is there and
    not 0, the position is not at max, and the quoter answered [q]. *)
Definition quoting (s : Sys W) (p n : Q) (q : Quote) : Prop :=
  state (this s) = running
  /\ (updateThrottleMs (config (this s))
      <= date_now (world s) - lastUpdateTime (this s))%Z
  /\ FairPriceCalc.getFairPrice (world s) = Ok (Some p)
  /\ Qeq_bool p 0 = false
  /\ PositionMgr.isAtMax (world s) = Ok false
  /\ PositionMgr.getSignedNotional (world s) = Ok n
  /\ QuoterObj.generateQuotes p n (world s) = Ok q.

(** The rest of [runMainLoop] from the staleness check on. *)
Definition updateOrders (quote : Quote) : M (Sys W) unit :=
  needsUpdate <- shouldUpdateOrders quote ;;
  if negb needsUpdate then ret tt else
  cancelAllOrders ;;
  orders <- query (QuoterObj.quoteToOrders quote) ;;
  for_of orders
    (fun order =>
       try_catch
         (request (PlaceOrderReq order) (Exchange.placeOrder order) ;; ret tt)
         (fun _ => ret tt)) ;;
  write (set_errorCount 0).

(** The ratio that the pause and resume decision of [checkMarginRatio]
    reads, after an account with the given figures has been fetched. *)
Definition ratioAfter (account : Account) (f : Fields) : Q :=
  if Qltb 0 (equity account)
  then Float64.div (availableMargin account) (equity account)
  else lastMarginRatio f.

(** The lifecycle state that the decision of [checkMarginRatio] leaves
    when it reads the ratio [ratio]. *)
Definition marginDecision (ratio : Q) (f : Fields) : MarketMakerState :=
  if Qltb ratio (minMarginRatio (config f))
  then
    if MarketMakerState_eqb (state f) running then paused else state f
  else
    if MarketMakerState_eqb (state f) paused
       && Qgeb ratio (Float64.mul (minMarginRatio (config f))
                                  (Float64.literal (12 # 10)))
    then running else state f.

(** The state after [n] quoting ticks in a row. *)
Fixpoint ticks (n : nat) (s : Sys W) : Sys W :=
  match n with
  | O => s
  | S k => snd (mainLoopTick (ticks k s))
  end.

(** What happens to the collaborators between two ticks: the clock moves
    on, prices and the venue change. The fields of the orchestrator and
    the record of requests stay. *)
Definition elapse (g : W -> W) (s : Sys W) : Sys W :=
  {| this := this s; world := g (world s); calls := calls s |}.




(** The periodic activities. *)
Inductive Activity : Type := QuotingTick | OrderSyncTick | MarginCheckTick.

Definition perform (a : Activity) : M (Sys W) unit :=
  match a with
  | QuotingTick => mainLoopTick
  | OrderSyncTick => orderSyncTick
  | MarginCheckTick => marginCheckTick
  end.

End Orchestrator.

End MarketMaker.

(* ------------------------------------------------------------------ *)
(** ** The quote generator ([bots/mm/quoter.ts], not among the sources) *)
(* ------------------------------------------------------------------ *)

Module QuoterSpec.

Section Quoter.

(** Modelled from the spec: the rounding of a size "to the market's lot
    size" of [quoter.ts]; the specification gives no direction for it, so it
    is a parameter ([roundToLot lot x]). *)
Variable roundToLot : Q -> Q -> Q.

Variable cfg : MarketMakerConfig.
Variable mkt : Market.

(** Modelled from the spec: the tick rounding of [quoter.ts], "round down
    for bid". *)
Definition roundDownToTick (x : Q) : Q :=
  inject_Z (Qfloor (x / tickSize mkt)) * tickSize mkt.

(** Modelled from the spec: the tick rounding of [quoter.ts], "round up for
    ask". *)
Definition roundUpToTick (x : Q) : Q :=
  inject_Z (Qceiling (x / tickSize mkt)) * tickSize mkt.

(** Modelled from the spec: step 1 of [generateQuotes] in [quoter.ts],
    "close if abs(signedExposureNotional) >= closeThresholdUsd". *)
Definition isCloseMode (signedExposureNotional : Q) : bool :=
  Qgeb (Qabs signedExposureNotional) (closeThresholdUsd cfg).

(** Modelled from the spec: the at-max test of step 3 of [generateQuotes]. *)
Definition atMax (signedExposureNotional : Q) : bool :=
  Qgeb (Qabs signedExposureNotional) (maxPositionUsd cfg).

(** Modelled from the spec: the direction of the exposure in step 3 of
    [generateQuotes]; by the glossary the signed notional is "positive for
    long, negative for short". *)
Definition isLong (signedExposureNotional : Q) : bool :=
  Qltb 0 signedExposureNotional.

(** Modelled from the spec: the direction of the exposure in step 3 of
    [generateQuotes], negative for short. *)
Definition isShort (signedExposureNotional : Q) : bool :=
  Qltb signedExposureNotional 0.

(** Modelled from the spec: step 2 of [generateQuotes], the half-spread. *)
Definition halfSpread (signedExposureNotional : Q) : Q :=
  if isCloseMode signedExposureNotional
  then takeProfitBps cfg else spreadBps cfg.

(** Modelled from the spec: step 4 of [generateQuotes], the notional to
    convert to base units: [orderSizeUsd], capped in close mode. *)
Definition sizeUsd (signedExposureNotional : Q) : Q :=
  if isCloseMode signedExposureNotional
  then Qmin (orderSizeUsd cfg) (Qabs signedExposureNotional)
  else orderSizeUsd cfg.

(** Modelled from the spec: [Quoter.generateQuotes] of [quoter.ts], steps 1
    to 5 of section 4.2. *)
Definition generateQuotes (fairPrice signedExposureNotional : Q) : Quote :=
  let n := signedExposureNotional in
  let bid := roundDownToTick (fairPrice * (1 - halfSpread n / 10000)) in
  let ask := roundUpToTick (fairPrice * (1 + halfSpread n / 10000)) in
  let bidOn :=
    if isCloseMode n then isShort n else negb (isLong n && atMax n) in
  let askOn :=
    if isCloseMode n then isLong n else negb (isShort n && atMax n) in
  {| bidPrice := if bidOn then Some bid else None;
     bidSize := if bidOn then Some (roundToLot (lotSize mkt) (sizeUsd n / bid))
                else None;
     askPrice := if askOn then Some ask else None;
     askSize := if askOn then Some (roundToLot (lotSize mkt) (sizeUsd n / ask))
                else None;
     bidReduceOnly := (isCloseMode n && bidOn) || (isLong n && atMax n);
     askReduceOnly := (isCloseMode n && askOn) || (isShort n && atMax n) |}.

(** Modelled from the spec: [Quoter.quoteToOrders] of [quoter.ts], "emits
    0-2 intents, skipping null sides". *)
Definition quoteToOrders (quote : Quote) : list OrderRequest :=
  match bidPrice quote, bidSize quote with
  | Some p, Some sz =>
      [{| req_symbol := symbol cfg; req_side := buy; req_price := p;
          req_size := sz; req_reduceOnly := bidReduceOnly quote |}]
  | _, _ => []
  end ++
  match askPrice quote, askSize quote with
  | Some p, Some sz =>
      [{| req_symbol := symbol cfg; req_side := sell; req_price := p;
          req_size := sz; req_reduceOnly := askReduceOnly quote |}]
  | _, _ => []
  end.

End Quoter.

End QuoterSpec.

(* ------------------------------------------------------------------ *)
(** ** The exposure tracker ([bots/mm/position.ts], not among the sources) *)
(* ------------------------------------------------------------------ *)

Module PositionSpec.

(** Modelled from the spec: [PositionManager.isAtMax] of [position.ts],
    "true when abs(notionalUsd) >= maxPositionUsd". *)
Definition isAtMax (cfg : MarketMakerConfig) (notionalUsd : Q) : bool :=
  Qgeb (Qabs notionalUsd) (maxPositionUsd cfg).

(** Modelled from the spec: [PositionManager.isCloseMode] of [position.ts],
    the same test as the quote generator's. *)
Definition isCloseMode (cfg : MarketMakerConfig) (notionalUsd : Q) : bool :=
  Qgeb (Qabs notionalUsd) (closeThresholdUsd cfg).

End PositionSpec.

(* ------------------------------------------------------------------ *)
(** ** The fair-price estimator ([pricing/fair-price.ts], not among the
       sources)                                                        *)
(* ------------------------------------------------------------------ *)

Module FairPriceSpec.

Local Open Scope R_scope.

(** Modelled from the spec: [PriceSample] of section 3, a "(timestamp,
    price) pair from the feed". *)
Record PriceSample : Type := {
  sample_ts : R;
  sample_price : R
}.

(** Modelled from the spec: [FairPriceState] of section 3 ([emaValue],
    [sampleCount]), with the time of the last sample that the update of
    section 4.1 needs for its elapsed time. *)
Record FairPriceState : Type := {
  emaValue : option R;
  sampleCount : nat;
  lastSampleTs : R
}.

Definition noSamples : FairPriceState :=
  {| emaValue := None; sampleCount := 0; lastSampleTs := 0 |}.

(** Modelled from the spec: the weight of a new sample in [fair-price.ts],
    "alpha = 1 - exp(-dt / windowMs)". *)
Definition alpha (windowMs dt : R) : R := 1 - exp (- dt / windowMs).

(** Modelled from the spec: [onSample(price, ts)] of [fair-price.ts], "first
    sample initializes ema = p", then "ema' = ema + alpha*(p - ema)". *)
Definition onSample (windowMs : R) (st : FairPriceState) (s : PriceSample)
  : FairPriceState :=
  match emaValue st with
  | None =>
      {| emaValue := Some (sample_price s);
         sampleCount := S (sampleCount st);
         lastSampleTs := sample_ts s |}
  | Some ema =>
      {| emaValue :=
           Some (ema + alpha windowMs (sample_ts s - lastSampleTs st)
                       * (sample_price s - ema));
         sampleCount := S (sampleCount st);
         lastSampleTs := sample_ts s |}
  end.

(** The estimator after a sequence of samples, oldest first. *)
Definition feed (windowMs : R) (samples : list PriceSample) : FairPriceState :=
  fold_left (onSample windowMs) samples noSamples.

(** Inter-arrival times are non-negative: timestamps never decrease. *)
Fixpoint arrivals_from (t : R) (samples : list PriceSample) : Prop :=
  match samples with
  | [] => True
  | s :: rest => t <= sample_ts s /\ arrivals_from (sample_ts s) rest
  end.

Definition min_price (first : PriceSample) (rest : list PriceSample) : R :=
  fold_left (fun m s => Rmin m (sample_price s)) rest (sample_price first).

Definition max_price (first : PriceSample) (rest : list PriceSample) : R :=
  fold_left (fun m s => Rmax m (sample_price s)) rest (sample_price first).

End FairPriceSpec.

(* ------------------------------------------------------------------ *)
(** ** The Aftermath adapter ([class AftermathAdapter])                *)
(* ------------------------------------------------------------------ *)

Module Aftermath.

(** A JavaScript [Map<string, string>]: keys in insertion order. *)
Definition StrMap : Type := list (string * string).

Fixpoint map_get (k : string) (m : StrMap) : option string :=
  match m with
  | [] => None
  | (k', v) :: rest => if String.eqb k k' then Some v else map_get k rest
  end.

(** [m.set(k, v)]: an existing key keeps its place. *)
Fixpoint map_set (k v : string) (m : StrMap) : StrMap :=
  match m with
  | [] => [(k, v)]
  | (k', v') :: rest =>
      if String.eqb k k' then (k, v) :: rest else (k', v') :: map_set k v rest
  end.

Definition map_values (m : StrMap) : list string := List.map snd m.

(** [Array.from(new Set(xs))]: first occurrences, in order. *)
Fixpoint dedup (seen xs : list string) : list string :=
  match xs with
  | [] => []
  | x :: rest =>
      if existsb (String.eqb x) seen then dedup seen rest
      else x :: dedup (x :: seen) rest
  end.

(** A string in a condition: the empty string is falsy. *)
Definition truthy (s : string) : bool := negb (String.eqb s "").

Record AccountCap : Type := { accountNumber : Z }.

(** The modules the adapter imports ([account.js], [markets.js],
    [orders.js], [orderbook.js]) are not among the sources: their functions
    are the methods of this interface, over the state [V] of the client, the
    caches and the venue. *)
Class Backend (V : Type) : Type := {
  getAccountCap : string -> V -> Result AccountCap * V;
  fetchAccount : string -> V -> Result Account * V;
  getPositionsForWallet : string -> V -> Result (list Position) * V;
  clearAccountCache : V -> Result unit * V;
  getMarketBySymbol : string -> V -> Result (option Market) * V;
  fetchOpenOrders : Z -> string -> V -> Result (list Order) * V;
  getAllOpenOrders : string -> list string -> V -> Result (list Order) * V;
  placeAftermathOrder : string -> string -> OrderRequest -> V
                        -> Result OrderResult * V;
  cancelOrders : string -> string -> list string -> V -> Result unit * V;
  subscription_unsubscribeOrderbook : string -> V -> Result unit * V;
  subscription_disconnect : V -> Result unit * V
}.

(** A request to the backend, as recorded in the adapter's trace. *)
Inductive Request : Type :=
| GetAccountCapReq
| FetchAccountReq
| GetPositionsForWalletReq
| GetMarketBySymbolReq (sym : string)
| FetchOpenOrdersReq (chId : string)
| GetAllOpenOrdersReq (chIds : list string)
| PlaceOrderReq (chId : string) (order : OrderRequest)
| CancelOrdersReq (chId : string) (ids : list string).

Definition is_cancel_request (r : Request) : bool :=
  match r with CancelOrdersReq _ _ => true | _ => false end.

(** The adapter's fields; of a callback only its key is kept. *)
Record Adapter : Type := {
  walletAddress : string;
  orderbookCallbacks : list string;
  symbolToChId : StrMap;
  _connected : bool
}.

Definition set_symbolToChId (m : StrMap) (a : Adapter) : Adapter :=
  {| walletAddress := walletAddress a;
     orderbookCallbacks := orderbookCallbacks a;
     symbolToChId := m; _connected := _connected a |}.

Definition set_orderbookCallbacks (l : list string) (a : Adapter) : Adapter :=
  {| walletAddress := walletAddress a;
     orderbookCallbacks := l;
     symbolToChId := symbolToChId a; _connected := _connected a |}.

Definition set_connected (b : bool) (a : Adapter) : Adapter :=
  {| walletAddress := walletAddress a;
     orderbookCallbacks := orderbookCallbacks a;
     symbolToChId := symbolToChId a; _connected := b |}.

Record AState (V : Type) : Type := {
  adapter : Adapter;
  backend : V;
  requests : list Request
}.
Arguments adapter {V} _.
Arguments backend {V} _.
Arguments requests {V} _.

(** The cancellation requests sent so far. *)
Definition cancel_requests {V} (st : AState V) : list Request :=
  filter is_cancel_request (requests st).

Section Adapter.

Context {V : Type} {B : Backend V}.

Definition self : M (AState V) Adapter := fun s => (Ok (adapter s), s).

Definition update (f : Adapter -> Adapter) : M (AState V) unit :=
  fun s => (Ok tt, {| adapter := f (adapter s); backend := backend s;
                      requests := requests s |}).

Definition send {A} (r : Request) (op : V -> Result A * V) : M (AState V) A :=
  fun s =>
    let (res, v') := op (backend s) in
    (res, {| adapter := adapter s; backend := v'; requests := requests s ++ [r] |}).

Definition local {A} (op : V -> Result A * V) : M (AState V) A :=
  fun s =>
    let (res, v') := op (backend s) in
    (res, {| adapter := adapter s; backend := v'; requests := requests s |}).

(** [private async getChIdForSymbol(symbol)] *)
Definition getChIdForSymbol (sym : string) : M (AState V) string :=
  a <- self ;;
  match map_get sym (symbolToChId a) with
  | Some cached =>
      if truthy cached then ret cached else
      market <- send (GetMarketBySymbolReq sym) (getMarketBySymbol sym) ;;
      match market with
      | None => throw ("Market not found for symbol: " ++ sym)
      | Some m =>
          update (fun a => set_symbolToChId
                             (map_set sym (market_id m) (symbolToChId a)) a) ;;
          update (fun a => set_symbolToChId
                             (map_set (market_base m) (market_id m)
                                      (symbolToChId a)) a) ;;
          ret (market_id m)
      end
  | None =>
      market <- send (GetMarketBySymbolReq sym) (getMarketBySymbol sym) ;;
      match market with
      | None => throw ("Market not found for symbol: " ++ sym)
      | Some m =>
          update (fun a => set_symbolToChId
                             (map_set sym (market_id m) (symbolToChId a)) a) ;;
          update (fun a => set_symbolToChId
                             (map_set (market_base m) (market_id m)
                                      (symbolToChId a)) a) ;;
          ret (market_id m)
      end
  end.

(** The body shared by the two branches of [cancelAllOrders]: look the
    account and the open orders of one market up, cancel them if any. *)
Definition cancelOpenOrdersOf (chId : string) : M (AState V) unit :=
  a <- self ;;
  cap <- send GetAccountCapReq (getAccountCap (walletAddress a)) ;;
  orders <- send (FetchOpenOrdersReq chId)
                 (fetchOpenOrders (accountNumber cap) chId) ;;
  if (0 <? List.length orders)%nat
  then send (CancelOrdersReq chId (List.map order_id orders))
            (cancelOrders (walletAddress a) chId (List.map order_id orders))
  else ret tt.

(** [async cancelAllOrders(symbol?)] *)
Definition cancelAllOrders (sym : option string) : M (AState V) unit :=
  match sym with
  | Some s =>
      if truthy s then
        chId <- getChIdForSymbol s ;;
        cancelOpenOrdersOf chId
      else
        a <- self ;;
        for_of (dedup [] (map_values (symbolToChId a)))
               (fun chId => try_catch (cancelOpenOrdersOf chId) (fun _ => ret tt))
  | None =>
      a <- self ;;
      for_of (dedup [] (map_values (symbolToChId a)))
             (fun chId => try_catch (cancelOpenOrdersOf chId) (fun _ => ret tt))
  end.

(** [async disconnect()] *)
Definition disconnect : M (AState V) unit :=
  try_catch
    (local subscription_disconnect ;;
     update (set_orderbookCallbacks []) ;;
     update (set_symbolToChId []) ;;
     local clearAccountCache ;;
     update (set_connected false))
    (fun e => throw e).

(** [async unsubscribeOrderbook(symbol)] *)
Definition unsubscribeOrderbook (sym : string) : M (AState V) unit :=
  try_catch
    (chId <- getChIdForSymbol sym ;;
     update (fun a => set_orderbookCallbacks
                        (filter (fun k => negb (String.eqb k sym))
                                (orderbookCallbacks a)) a) ;;
     local (subscription_unsubscribeOrderbook chId))
    (fun _ => ret tt).

(** [async getAccount()] *)
Definition getAccount : M (AState V) Account :=
  a <- self ;;
  send FetchAccountReq (fetchAccount (walletAddress a)).

(** [async getPositions()] *)
Definition getPositions : M (AState V) (list Position) :=
  a <- self ;;
  send GetPositionsForWalletReq (getPositionsForWallet (walletAddress a)).

(** [async getOpenOrders(symbol?)] *)
Definition getOpenOrders (sym : option string) : M (AState V) (list Order) :=
  a <- self ;;
  match sym with
  | Some s =>
      if truthy s then
        chId <- getChIdForSymbol s ;;
        cap <- send GetAccountCapReq (getAccountCap (walletAddress a)) ;;
        send (FetchOpenOrdersReq chId) (fetchOpenOrders (accountNumber cap) chId)
      else
        send (GetAllOpenOrdersReq (dedup [] (map_values (symbolToChId a))))
             (getAllOpenOrders (walletAddress a)
                               (dedup [] (map_values (symbolToChId a))))
  | None =>
      send (GetAllOpenOrdersReq (dedup [] (map_values (symbolToChId a))))
           (getAllOpenOrders (walletAddress a)
                             (dedup [] (map_values (symbolToChId a))))
  end.

(** [async placeOrder(order)] *)
Definition placeOrder (order : OrderRequest) : M (AState V) OrderResult :=
  chId <- getChIdForSymbol (req_symbol order) ;;
  a <- self ;;
  send (PlaceOrderReq chId order)
       (placeAftermathOrder (walletAddress a) chId order).

(** [class AftermathAdapter implements IExchange] *)
#[export] Instance AftermathExchange : Exchange.IExchange (AState V) := {|
  Exchange.disconnect := disconnect;
  Exchange.unsubscribeOrderbook := unsubscribeOrderbook;
  Exchange.getAccount := getAccount;
  Exchange.getPositions := getPositions;
  Exchange.getOpenOrders := getOpenOrders;
  Exchange.placeOrder := placeOrder;
  Exchange.cancelAllOrders := cancelAllOrders
|}.

End Adapter.

End Aftermath.

(* ------------------------------------------------------------------ *)
(** ** A simulated environment, for concrete runs                      *)
(* ------------------------------------------------------------------ *)

Module Sim.

(** A venue, a feed and the bot's components reduced to the simplest state
    that answers the orchestrator's calls. It stands for no source file:
    the concrete runs below are played against it. The quoter and the
    position manager answer as the specification describes them. *)
Record SimWorld : Type := {
  sim_now : Z;
  sim_fairPrice : option Q;
  sim_notional : Q;
  sim_market : option Market;
  sim_config : MarketMakerConfig;
  sim_stale : Q -> OrderSide -> Q -> bool;
  sim_venueOrders : list Order;
  sim_positions : list Position;
  sim_account : Account;
  sim_rejects : Call -> bool
}.

Definition set_venueOrders (l : list Order) (w : SimWorld) : SimWorld :=
  {| sim_now := sim_now w; sim_fairPrice := sim_fairPrice w;
     sim_notional := sim_notional w; sim_market := sim_market w;
     sim_config := sim_config w; sim_stale := sim_stale w;
     sim_venueOrders := l; sim_positions := sim_positions w;
     sim_account := sim_account w; sim_rejects := sim_rejects w |}.

Definition set_notional (n : Q) (w : SimWorld) : SimWorld :=
  {| sim_now := sim_now w; sim_fairPrice := sim_fairPrice w;
     sim_notional := n; sim_market := sim_market w;
     sim_config := sim_config w; sim_stale := sim_stale w;
     sim_venueOrders := sim_venueOrders w; sim_positions := sim_positions w;
     sim_account := sim_account w; sim_rejects := sim_rejects w |}.

(** A request either is rejected or has its effect on the venue. *)
Definition answer {A} (c : Call) (a : A) (eff : SimWorld -> SimWorld)
  : SimWorld -> Result A * SimWorld :=
  fun w => if sim_rejects w c then (Throw "rejected", w) else (Ok a, eff w).

Definition toOrder (r : OrderRequest) : Order :=
  {| order_id := "sim"; order_side := req_side r;
     order_price := req_price r; order_size := req_size r |}.

#[export] Instance simExchange : Exchange.IExchange SimWorld := {|
  Exchange.disconnect := answer ExchangeDisconnectReq tt (fun w => w);
  Exchange.unsubscribeOrderbook :=
    fun sym => answer (UnsubscribeOrderbookReq sym) tt (fun w => w);
  Exchange.getAccount :=
    fun w => answer GetAccountReq (sim_account w) (fun w => w) w;
  Exchange.getPositions :=
    fun w => answer GetPositionsReq (sim_positions w) (fun w => w) w;
  Exchange.getOpenOrders :=
    fun sym w => answer (GetOpenOrdersReq sym) (sim_venueOrders w) (fun w => w) w;
  Exchange.placeOrder :=
    fun r => answer (PlaceOrderReq r) {| orderId := "sim" |}
                    (fun w => set_venueOrders (sim_venueOrders w ++ [toOrder r]) w);
  Exchange.cancelAllOrders :=
    fun sym => answer (CancelAllOrdersReq sym) tt (set_venueOrders [])
|}.

#[export] Instance simFairPriceCalc : FairPriceCalc.FairPriceCalculator SimWorld := {|
  FairPriceCalc.getFairPrice := fun w => Ok (sim_fairPrice w);
  FairPriceCalc.disconnect := answer FeedDisconnectReq tt (fun w => w)
|}.

Definition signedSize (p : Position) : Q :=
  match pos_side p with buy => pos_size p | sell => - pos_size p end.

#[export] Instance simPositionManager : PositionMgr.PositionManager SimWorld := {|
  PositionMgr.isAtMax :=
    fun w => Ok (PositionSpec.isAtMax (sim_config w) (sim_notional w));
  PositionMgr.getSignedNotional := fun w => Ok (sim_notional w);
  PositionMgr.updatePosition :=
    fun snapshot fairPrice w =>
      match snapshot, fairPrice with
      | None, _ => (Ok tt, set_notional 0 w)
      | Some p, Some fp => (Ok tt, set_notional (signedSize p * fp) w)
      | Some _, None => (Ok tt, w)
      end
|}.

(** Lot rounding of the simulated quoter: down. *)
Definition floorToLot (lot x : Q) : Q := inject_Z (Qfloor (x / lot)) * lot.

(** The simulated quoter throws until a market is bound to it. *)
#[export] Instance simQuoter : QuoterObj.Quoter SimWorld := {|
  QuoterObj.generateQuotes :=
    fun fairPrice n w =>
      match sim_market w with
      | None => Throw "Market not set"
      | Some m =>
          Ok (QuoterSpec.generateQuotes floorToLot (sim_config w) m fairPrice n)
      end;
  QuoterObj.isOrderStale :=
    fun price side fairPrice w => Ok (sim_stale w price side fairPrice);
  QuoterObj.quoteToOrders :=
    fun q w => Ok (QuoterSpec.quoteToOrders (sim_config w) q)
|}.

#[export] Instance simClock : Clock SimWorld := {| date_now := sim_now |}.

(** The defaults of the README, with the take-profit spread of the
    specification's scenario. *)
Definition defaultConfig : MarketMakerConfig :=
  {| cfg_exchange := "aftermath"; symbol := "BTC";
     spreadBps := 10; takeProfitBps := 5; orderSizeUsd := 100;
     closeThresholdUsd := 500; maxPositionUsd := 2000;
     updateThrottleMs := 1000; orderSyncIntervalMs := 5000;
     minMarginRatio := Float64.literal (1 # 10) |}.

Definition btc : Market :=
  {| market_id := "0xbtc"; market_symbol := "BTC/USD:USDC";
     market_base := "BTC"; tickSize := 1 # 10; lotSize := 1 # 10000 |}.

Definition neverStale : Q -> OrderSide -> Q -> bool := fun _ _ _ => false.

Definition quietWorld : SimWorld :=
  {| sim_now := 100000; sim_fairPrice := Some 50000; sim_notional := 0;
     sim_market := Some btc; sim_config := defaultConfig;
     sim_stale := neverStale; sim_venueOrders := []; sim_positions := [];
     sim_account := {| equity := 1000; availableMargin := 500 |};
     sim_rejects := fun _ => false |}.

Definition runningBot : MarketMaker.Fields :=
  MarketMaker.set_state running (MarketMaker.initial defaultConfig).

Definition boot (f : MarketMaker.Fields) (w : SimWorld) : MarketMaker.Sys SimWorld :=
  {| MarketMaker.this := f; MarketMaker.world := w; MarketMaker.calls := [] |}.

Definition set_account (a : Account) (w : SimWorld) : SimWorld :=
  {| sim_now := sim_now w; sim_fairPrice := sim_fairPrice w;
     sim_notional := sim_notional w; sim_market := sim_market w;
     sim_config := sim_config w; sim_stale := sim_stale w;
     sim_venueOrders := sim_venueOrders w; sim_positions := sim_positions w;
     sim_account := a; sim_rejects := sim_rejects w |}.

Definition set_market (m : option Market) (w : SimWorld) : SimWorld :=
  {| sim_now := sim_now w; sim_fairPrice := sim_fairPrice w;
     sim_notional := sim_notional w; sim_market := m;
     sim_config := sim_config w; sim_stale := sim_stale w;
     sim_venueOrders := sim_venueOrders w; sim_positions := sim_positions w;
     sim_account := sim_account w; sim_rejects := sim_rejects w |}.

Definition set_rejects (r : Call -> bool) (w : SimWorld) : SimWorld :=
  {| sim_now := sim_now w; sim_fairPrice := sim_fairPrice w;
     sim_notional := sim_notional w; sim_market := sim_market w;
     sim_config := sim_config w; sim_stale := sim_stale w;
     sim_venueOrders := sim_venueOrders w; sim_positions := sim_positions w;
     sim_account := sim_account w; sim_rejects := r |}.

(** A long position of 2100 USD against [maxPositionUsd] = 2000. *)
Definition atMaxWorld : SimWorld := set_notional 2100 quietWorld.

(** The margin ratio at 0.08, at 0.12, and an account without equity. *)
Definition lowMarginWorld : SimWorld :=
  set_account {| equity := 1000; availableMargin := 80 |} quietWorld.

Definition recoveredWorld : SimWorld :=
  set_account {| equity := 1000; availableMargin := 120 |} quietWorld.

Definition noEquityWorld : SimWorld :=
  set_account {| equity := 0; availableMargin := 50 |} quietWorld.

(** No market bound to the quoter: [generateQuotes] throws. *)
Definition noMarketWorld : SimWorld := set_market None quietWorld.

(** A venue that rejects every orderbook unsubscribe. *)
Definition rejectsUnsubscribe (c : Call) : bool :=
  match c with UnsubscribeOrderbookReq _ => true | _ => false end.

Definition noUnsubscribeWorld : SimWorld :=
  set_rejects rejectsUnsubscribe quietWorld.

Definition restingBid : Order :=
  {| order_id := "1"; order_side := buy; order_price := 49950;
     order_size := 2 # 1000 |}.

(** The bot with one tracked order; with nine errors counted; paused; and
    just updated (one millisecond ago). *)
Definition botWithOrder : MarketMaker.Fields :=
  MarketMaker.set_currentOrders [restingBid] runningBot.

Definition botNineErrors : MarketMaker.Fields :=
  MarketMaker.set_errorCount 9 runningBot.

Definition pausedBot : MarketMaker.Fields :=
  MarketMaker.set_state paused (MarketMaker.initial defaultConfig).

Definition botJustUpdated : MarketMaker.Fields :=
  MarketMaker.set_lastUpdateTime 99999 runningBot.

(** A bot without throttle, so that ticks at one clock reading all pass. *)
Definition eagerConfig : MarketMakerConfig :=
  {| cfg_exchange := "aftermath"; symbol := "BTC";
     spreadBps := 10; takeProfitBps := 5; orderSizeUsd := 100;
     closeThresholdUsd := 500; maxPositionUsd := 2000;
     updateThrottleMs := 0; orderSyncIntervalMs := 5000;
     minMarginRatio := Float64.literal (1 # 10) |}.

Definition eagerBot : MarketMaker.Fields :=
  MarketMaker.set_state running (MarketMaker.initial eagerConfig).


(** An account under water: the equity is -1000, the available margin 50. *)
Definition underwaterWorld : SimWorld :=
  set_account {| equity := -1000; availableMargin := 50 |} quietWorld.

(** The ratio at 0.08 with the resting bid on the venue. *)
Definition lowMarginBidWorld : SimWorld :=
  set_venueOrders [restingBid] lowMarginWorld.

(** A bot with [minMarginRatio] = 0.17, paused, and an account at
    204 / 1000; an account at 0.3 / 3. *)
Definition tightConfig : MarketMakerConfig :=
  {| cfg_exchange := "aftermath"; symbol := "BTC";
     spreadBps := 10; takeProfitBps := 5; orderSizeUsd := 100;
     closeThresholdUsd := 500; maxPositionUsd := 2000;
     updateThrottleMs := 1000; orderSyncIntervalMs := 5000;
     minMarginRatio := Float64.literal (17 # 100) |}.

Definition tightPausedBot : MarketMaker.Fields :=
  MarketMaker.set_state paused (MarketMaker.initial tightConfig).

Definition justBelowWorld : SimWorld :=
  set_account {| equity := 1000; availableMargin := 204 |} quietWorld.

Definition thirdWorld : SimWorld :=
  set_account {| equity := 3; availableMargin := Float64.literal (3 # 10) |}
              quietWorld.


End Sim.

(** A venue behind the Aftermath adapter, again the simplest that answers:
    markets, one account, and the open orders of each market. *)
Module SimVenue.

Record Venue : Type := {
  v_markets : list Market;
  v_account : Account;
  v_orders : list (string * Order)
}.

Definition set_orders (l : list (string * Order)) (v : Venue) : Venue :=
  {| v_markets := v_markets v; v_account := v_account v; v_orders := l |}.

Definition ordersOf (chId : string) (v : Venue) : list Order :=
  List.map snd (filter (fun co => String.eqb (fst co) chId) (v_orders v)).

Definition without (chId : string) (ids : list string) (v : Venue) : Venue :=
  set_orders
    (filter (fun co => negb (String.eqb (fst co) chId
                             && existsb (String.eqb (order_id (snd co))) ids))
            (v_orders v)) v.

#[export] Instance simBackend : Aftermath.Backend Venue := {|
  Aftermath.getAccountCap := fun _ v => (Ok {| Aftermath.accountNumber := 7 |}, v);
  Aftermath.fetchAccount := fun _ v => (Ok (v_account v), v);
  Aftermath.getPositionsForWallet := fun _ v => (Ok [], v);
  Aftermath.clearAccountCache := fun v => (Ok tt, v);
  Aftermath.getMarketBySymbol :=
    fun sym v =>
      (Ok (find (fun m => String.eqb sym (market_symbol m)
                          || String.eqb sym (market_base m))
                (v_markets v)), v);
  Aftermath.fetchOpenOrders := fun _ chId v => (Ok (ordersOf chId v), v);
  Aftermath.getAllOpenOrders :=
    fun _ chIds v => (Ok (flat_map (fun c => ordersOf c v) chIds), v);
  Aftermath.placeAftermathOrder :=
    fun _ chId r v =>
      (Ok {| orderId := "sim" |},
       set_orders (v_orders v ++ [(chId, Sim.toOrder r)]) v);
  Aftermath.cancelOrders := fun _ chId ids v => (Ok tt, without chId ids v);
  Aftermath.subscription_unsubscribeOrderbook := fun _ v => (Ok tt, v);
  Aftermath.subscription_disconnect := fun v => (Ok tt, v)
|}.

Definition venueWithBid : Venue :=
  {| v_markets := [Sim.btc];
     v_account := {| equity := 1000; availableMargin := 500 |};
     v_orders := [("0xbtc", Sim.restingBid)] |}.

Definition freshAdapter : Aftermath.Adapter :=
  {| Aftermath.walletAddress := "0xwallet";
     Aftermath.orderbookCallbacks := [];
     Aftermath.symbolToChId := [];
     Aftermath._connected := true |}.

Definition start (v : Venue) : Aftermath.AState Venue :=
  {| Aftermath.adapter := freshAdapter; Aftermath.backend := v;
     Aftermath.requests := [] |}.

End SimVenue.

(* ------------------------------------------------------------------ *)
(** ** The Aftermath adapter, the remaining methods                    *)
(* ------------------------------------------------------------------ *)

Module AftermathRest.

Import Aftermath.

(** The functions of [markets.js], [orders.js] and [orderbook.js] that the
    remaining methods call; like those of [Backend] they are not among the
    sources. *)
Class BackendRest (V : Type) : Type := {
  fetchMarkets : V -> Result (list Market) * V;
  cancelAftermathOrder : string -> string -> string -> V -> Result unit * V;
  subscription_subscribeOrderbook : string -> V -> Result unit * V
}.




(** The market bears the name [k], as its symbol or as its base. *)
Definition bears (k : string) (m : Market) : bool :=
  String.eqb k (market_symbol m) || String.eqb k (market_base m).

(** The last market of the list that bears the name [k]. *)
Definition lastBearing (k : string) (markets : list Market) : option Market :=
  find (bears k) (rev markets).

(** One step of the loop of [connect] on the cache. *)
Definition cache_both (c : StrMap) (m : Market) : StrMap :=
  map_set (market_base m) (market_id m)
          (map_set (market_symbol m) (market_id m) c).

(** [callbacks.set(k, cb)] on the keys: a key already there keeps its
    place. *)
Definition keys_set (k : string) (keys : list string) : list string :=
  if existsb (String.eqb k) keys then keys else keys ++ [k].

Section Rest.

Context {V : Type} {B : Backend V} {R : BackendRest V}.

(** [async getMarkets()] *)
Definition getMarkets : M (AState V) (list Market) := local fetchMarkets.

(** The body of the loop of [connect]: both names of a market map to its
    id. *)
Definition cacheMarket (market : Market) : M (AState V) unit :=
  update (fun a => set_symbolToChId
                     (map_set (market_symbol market) (market_id market)
                              (symbolToChId a)) a) ;;
  update (fun a => set_symbolToChId
                     (map_set (market_base market) (market_id market)
                              (symbolToChId a)) a).

(** [async connect()] *)
Definition connect : M (AState V) unit :=
  try_catch
    (a <- self ;;
     send GetAccountCapReq (getAccountCap (walletAddress a)) ;;
     markets <- getMarkets ;;
     for_of markets cacheMarket ;;
     update (set_connected true))
    (fun e => throw e).

(** [async subscribeOrderbook(symbol, callback)] *)
Definition subscribeOrderbook (sym : string) : M (AState V) unit :=
  try_catch
    (chId <- getChIdForSymbol sym ;;
     update (fun a => set_orderbookCallbacks
                        (keys_set sym (orderbookCallbacks a)) a) ;;
     local (subscription_subscribeOrderbook chId))
    (fun e => throw e).

(** [async cancelOrder(orderId, symbol?)] *)
Definition cancelOrder (orderId : string) (sym : option string)
  : M (AState V) unit :=
  match sym with
  | Some s =>
      if truthy s then
        chId <- getChIdForSymbol s ;;
        a <- self ;;
        local (cancelAftermathOrder (walletAddress a) chId orderId)
      else throw "Symbol is required to cancel order on Aftermath"
  | None => throw "Symbol is required to cancel order on Aftermath"
  end.

(** [get connected()] *)
Definition connected (st : AState V) : bool := _connected (adapter st).

(** The state after the market look-up on a cache miss. *)
Definition looked_up (sym : string) (st : AState V) : AState V :=
  {| adapter := adapter st;
     backend := snd (getMarketBySymbol sym (backend st));
     requests := requests st ++ [GetMarketBySymbolReq sym] |}.

(** The cache does not answer for [sym]: no entry, or an empty id. *)
Definition cache_miss (sym : string) (st : AState V) : Prop :=
  match map_get sym (symbolToChId (adapter st)) with
  | Some cached => truthy cached = false
  | None => True
  end.

End Rest.

End AftermathRest.

(* ------------------------------------------------------------------ *)
(** ** The Hyperliquid adapter ([class HyperliquidAdapter])            *)
(* ------------------------------------------------------------------ *)

Module Hyperliquid.

(** The functions of [account.js], [markets.js], [orders.js] and the
    subscription manager of [orderbook.js], none among the sources, over
    the state [V] of the clients and the venue. *)
Class Backend (V : Type) : Type := {
  fetchAccount : V -> Result Account * V;
  fetchPositions : V -> Result (list Position) * V;
  fetchMarkets : V -> Result (list Market) * V;
  fetchOpenOrders : option string -> V -> Result (list Order) * V;
  placeHLOrder : OrderRequest -> V -> Result OrderResult * V;
  cancelHLOrder : string -> V -> Result unit * V;
  cancelAllHLOrders : option string -> V -> Result unit * V;
  subscription_subscribeOrderbook : string -> V -> Result unit * V;
  subscription_unsubscribeOrderbook : string -> V -> Result unit * V;
  subscription_disconnect : V -> Result unit * V;
  subscription_connected : V -> bool
}.

(** The adapter's fields; of a callback only its key is kept. *)
Record Adapter : Type := {
  orderbookCallbacks : list string;
  _connected : bool
}.

Record HState (V : Type) : Type := {
  adapter : Adapter;
  backend : V
}.
Arguments adapter {V} _.
Arguments backend {V} _.

(** [s.split("/")[0]]: what stands before the first slash. *)
Fixpoint splitHead (s : string) : string :=
  match s with
  | EmptyString => EmptyString
  | String c rest =>
      if Ascii.eqb c "/"%char then EmptyString else String c (splitHead rest)
  end.

(** [symbol.includes("/") ? symbol.split("/")[0] : symbol] *)
Definition baseOf (sym : string) : string :=
  if includes sym "/" then splitHead sym else sym.

Section Adapter.

Context {V : Type} {B : Backend V}.

Definition update (f : Adapter -> Adapter) : M (HState V) unit :=
  fun s => (Ok tt, {| adapter := f (adapter s); backend := backend s |}).

Definition call {A} (op : V -> Result A * V) : M (HState V) A :=
  fun s =>
    let (res, v') := op (backend s) in
    (res, {| adapter := adapter s; backend := v' |}).

(** [get connected()] *)
Definition connected (s : HState V) : bool :=
  _connected (adapter s) && subscription_connected (backend s).

(** [async getAccount()] *)
Definition getAccount : M (HState V) Account := call fetchAccount.

(** [async connect()] *)
Definition connect : M (HState V) unit :=
  try_catch
    (getAccount ;;
     update (fun a => {| orderbookCallbacks := orderbookCallbacks a;
                         _connected := true |}))
    (fun e => throw e).

(** [async disconnect()] *)
Definition disconnect : M (HState V) unit :=
  try_catch
    (call subscription_disconnect ;;
     update (fun a => {| orderbookCallbacks := [];
                         _connected := _connected a |}) ;;
     update (fun a => {| orderbookCallbacks := orderbookCallbacks a;
                         _connected := false |}))
    (fun e => throw e).

(** [async getMarkets()] *)
Definition getMarkets : M (HState V) (list Market) := call fetchMarkets.

(** [async subscribeOrderbook(symbol, callback)] *)
Definition subscribeOrderbook (sym : string) : M (HState V) unit :=
  if String.eqb (baseOf sym) ""
  then throw ("Invalid symbol: " ++ sym)
  else
    update (fun a => {| orderbookCallbacks :=
                          AftermathRest.keys_set (baseOf sym)
                                                 (orderbookCallbacks a);
                        _connected := _connected a |}) ;;
    try_catch
      (call (subscription_subscribeOrderbook (baseOf sym)))
      (fun e => throw e).

(** [async unsubscribeOrderbook(symbol)] *)
Definition unsubscribeOrderbook (sym : string) : M (HState V) unit :=
  if String.eqb (baseOf sym) ""
  then throw ("Invalid symbol: " ++ sym)
  else
    update (fun a => {| orderbookCallbacks :=
                          filter (fun k => negb (String.eqb k (baseOf sym)))
                                 (orderbookCallbacks a);
                        _connected := _connected a |}) ;;
    try_catch
      (call (subscription_unsubscribeOrderbook (baseOf sym)))
      (fun _ => ret tt).

(** [async getPositions()] *)
Definition getPositions : M (HState V) (list Position) := call fetchPositions.

(** [async getOpenOrders(symbol?)] *)
Definition getOpenOrders (sym : option string) : M (HState V) (list Order) :=
  call (fetchOpenOrders sym).

(** [async placeOrder(order)] *)
Definition placeOrder (order : OrderRequest) : M (HState V) OrderResult :=
  call (placeHLOrder order).

(** [async cancelOrder(orderId)] *)
Definition cancelOrder (orderId : string) : M (HState V) unit :=
  call (cancelHLOrder orderId).

(** [async cancelAllOrders(symbol?)] *)
Definition cancelAllOrders (sym : option string) : M (HState V) unit :=
  call (cancelAllHLOrders sym).

(** [class HyperliquidAdapter implements IExchange] *)
#[export] Instance HyperliquidExchange : Exchange.IExchange (HState V) := {|
  Exchange.disconnect := disconnect;
  Exchange.unsubscribeOrderbook := unsubscribeOrderbook;
  Exchange.getAccount := getAccount;
  Exchange.getPositions := getPositions;
  Exchange.getOpenOrders := getOpenOrders;
  Exchange.placeOrder := placeOrder;
  Exchange.cancelAllOrders := cancelAllOrders
|}.

End Adapter.

End Hyperliquid.

(* ------------------------------------------------------------------ *)
(** ** The orchestrator, start-up and status                           *)
(* ------------------------------------------------------------------ *)

Module MarketMakerRest.

Import MarketMaker.

(** The methods of the collaborators that only [start] and [getStatus]
    call. *)
Class ExchangeSetup (W : Type) : Type := {
  connect : W -> Result unit * W;
  getMarkets : W -> Result (list Market) * W;
  subscribeOrderbook : string -> W -> Result unit * W
}.

Class FeedSetup (W : Type) : Type := {
  feed_connect : W -> Result unit * W
}.

Class QuoterSetup (W : Type) : Type := {
  setMarket : Market -> W -> Result unit * W
}.

(** What [getStatus] reads of [PositionState]. *)
Record PositionState : Type := {
  ps_side : string;
  ps_size : Q;
  ps_notional : Q;
  ps_unrealizedPnl : Q
}.

Class PositionView (W : Type) : Type := {
  getPosition : W -> Result PositionState;
  isCloseMode : W -> Result bool
}.

(** [MarketMakerStatus] *)
Record MarketMakerStatus : Type := {
  st_state : MarketMakerState;
  st_exchange : string;
  st_symbol : string;
  st_priceSource : string;
  st_fairPrice : option Q;
  st_position : PositionState;
  st_bidPrice : option Q;
  st_bidSize : option Q;
  st_askPrice : option Q;
  st_askSize : option Q;
  st_isCloseMode : bool;
  st_marginRatio : Q;
  st_uptime : Z
}.

Definition set_market (v : option Market) (f : Fields) : Fields :=
  {| config := config f; state := state f; market := v;
     currentOrders := currentOrders f;
     mainLoopInterval := mainLoopInterval f;
     orderSyncInterval := orderSyncInterval f; startTime := startTime f;
     lastUpdateTime := lastUpdateTime f; errorCount := errorCount f;
     lastMarginRatio := lastMarginRatio f;
     marginCheckInterval := marginCheckInterval f |}.

Definition set_startTime (v : Z) (f : Fields) : Fields :=
  {| config := config f; state := state f; market := market f;
     currentOrders := currentOrders f;
     mainLoopInterval := mainLoopInterval f;
     orderSyncInterval := orderSyncInterval f; startTime := v;
     lastUpdateTime := lastUpdateTime f; errorCount := errorCount f;
     lastMarginRatio := lastMarginRatio f;
     marginCheckInterval := marginCheckInterval f |}.

(** [x?.field || null] for a number: no order, or a 0, gives null. *)
Definition field_or_null (o : option Order) (field : Order -> Q) : option Q :=
  match o with
  | None => None
  | Some x => if Qeq_bool (field x) 0 then None else Some (field x)
  end.

Definition is_buy (o : Order) : bool :=
  match order_side o with buy => true | sell => false end.

Definition is_sell (o : Order) : bool :=
  match order_side o with buy => false | sell => true end.

Section Rest.

Context {W : Type}.
Context {exchange : Exchange.IExchange W}.
Context {exchangeSetup : ExchangeSetup W}.
Context {fairPriceCalc : FairPriceCalc.FairPriceCalculator W}.
Context {feedSetup : FeedSetup W}.
Context {quoterSetup : QuoterSetup W}.
Context {positionView : PositionView W}.
Context {clock : Clock W}.

(** [String.prototype.toLowerCase], a parameter. *)
Variable toLowerCase : string -> string.

(** [config.priceSource]; the field is read by [getStatus] only. *)
Variable priceSource : string.

(** The test of [markets.find] in [start]. *)
Definition matchesSymbol (sym : string) (m : Market) : bool :=
  String.eqb (toLowerCase (market_base m)) (toLowerCase sym)
  || String.eqb (market_symbol m) sym.

(** The market that [start] picks among those of the venue. *)
Definition findMarket (sym : string) (markets : list Market) : option Market :=
  find (matchesSymbol sym) markets.

(** [async start()] up to [await this.waitForWarmup()]: every run of
    [start] that returns or throws before the warm-up wait. *)
Definition startUntilWarmup : M (Sys W) unit :=
  f <- read ;;
  if negb (MarketMakerState_eqb (state f) stopped) then ret tt else
  try_catch
    (write (set_state connecting) ;;
     t <- now ;;
     write (set_startTime t) ;;
     invoke connect ;;
     markets <- invoke getMarkets ;;
     write (set_market (findMarket (symbol (config f)) markets)) ;;
     match findMarket (symbol (config f)) markets with
     | None =>
         throw ("Market not found for symbol: " ++ symbol (config f))
     | Some m =>
         invoke (setMarket m) ;;
         invoke (subscribeOrderbook (symbol (config f))) ;;
         invoke feed_connect ;;
         write (set_state warming_up)
     end)
    (fun e => write (set_state error) ;; throw e).

(** [getStatus()] *)
Definition getStatus : M (Sys W) MarketMakerStatus :=
  position <- query getPosition ;;
  fairPrice <- query FairPriceCalc.getFairPrice ;;
  f <- read ;;
  let bidOrder := find is_buy (currentOrders f) in
  let askOrder := find is_sell (currentOrders f) in
  closeMode <- query isCloseMode ;;
  t <- now ;;
  ret {| st_state := state f;
         st_exchange := cfg_exchange (config f);
         st_symbol := symbol (config f);
         st_priceSource := priceSource;
         st_fairPrice := fairPrice;
         st_position := position;
         st_bidPrice := field_or_null bidOrder order_price;
         st_bidSize := field_or_null bidOrder order_size;
         st_askPrice := field_or_null askOrder order_price;
         st_askSize := field_or_null askOrder order_size;
         st_isCloseMode := closeMode;
         st_marginRatio := lastMarginRatio f;
         st_uptime := t - startTime f |}.

End Rest.

End MarketMakerRest.

(* ------------------------------------------------------------------ *)
(** ** The entry points ([cli/bot.ts] and the monitor)                 *)
(* ------------------------------------------------------------------ *)

Module Cli.

Import MarketMaker.

(** The process of the bot: the flag of [bot.ts], the market maker, and the
    exit code once [process.exit] has been called. *)
Record Process (W : Type) : Type := {
  isShuttingDown : bool;
  mm : Sys W;
  exited : option Z
}.
Arguments isShuttingDown {W} _.
Arguments mm {W} _.
Arguments exited {W} _.

Section Cli.

Context {W : Type}.
Context {exchange : Exchange.IExchange W}.
Context {fairPriceCalc : FairPriceCalc.FairPriceCalculator W}.

(** [async function shutdown(signal)] of [bot.ts] *)
Definition shutdown (p : Process W) : Process W :=
  if isShuttingDown p then p else
  match stop (mm p) with
  | (Ok _, s') => {| isShuttingDown := true; mm := s'; exited := Some 0%Z |}
  | (Throw _, s') => {| isShuttingDown := true; mm := s'; exited := Some 1%Z |}
  end.

(** [async function shutdown()] of the monitor: both timers are cleared,
    then one [try] around the three clean-up calls, then [process.exit(0)].
    The result is the exit code. *)
Definition monitorShutdown (sym : string) : M (Sys W) Z :=
  try_catch
    (request (UnsubscribeOrderbookReq sym) (Exchange.unsubscribeOrderbook sym) ;;
     request ExchangeDisconnectReq Exchange.disconnect ;;
     request FeedDisconnectReq FairPriceCalc.disconnect)
    (fun _ => ret tt) ;;
  ret 0%Z.

End Cli.

End Cli.

(* ------------------------------------------------------------------ *)
(** ** The simulated environment, for the remaining methods            *)
(* ------------------------------------------------------------------ *)

Module SimRest.

Import Sim SimVenue.

#[export] Instance simBackendRest : AftermathRest.BackendRest SimVenue.Venue := {|
  AftermathRest.fetchMarkets := fun v => (Ok (SimVenue.v_markets v), v);
  AftermathRest.cancelAftermathOrder :=
    fun _ chId orderId v => (Ok tt, SimVenue.without chId [orderId] v);
  AftermathRest.subscription_subscribeOrderbook := fun _ v => (Ok tt, v)
|}.

(** The venue behind the Hyperliquid adapter: the same, with a subscription
    manager that is always connected and always answers. *)
#[export] Instance simHyperliquid : Hyperliquid.Backend SimVenue.Venue := {|
  Hyperliquid.fetchAccount := fun v => (Ok (SimVenue.v_account v), v);
  Hyperliquid.fetchPositions := fun v => (Ok [], v);
  Hyperliquid.fetchMarkets := fun v => (Ok (SimVenue.v_markets v), v);
  Hyperliquid.fetchOpenOrders :=
    fun _ v => (Ok (List.map snd (SimVenue.v_orders v)), v);
  Hyperliquid.placeHLOrder :=
    fun r v => (Ok {| orderId := "sim" |},
                SimVenue.set_orders
                  (SimVenue.v_orders v ++ [(req_symbol r, toOrder r)]) v);
  Hyperliquid.cancelHLOrder :=
    fun orderId v =>
      (Ok tt,
       SimVenue.set_orders
         (filter (fun co => negb (String.eqb (order_id (snd co)) orderId))
                 (SimVenue.v_orders v)) v);
  Hyperliquid.cancelAllHLOrders := fun _ v => (Ok tt, SimVenue.set_orders [] v);
  Hyperliquid.subscription_subscribeOrderbook := fun _ v => (Ok tt, v);
  Hyperliquid.subscription_unsubscribeOrderbook := fun _ v => (Ok tt, v);
  Hyperliquid.subscription_disconnect := fun v => (Ok tt, v);
  Hyperliquid.subscription_connected := fun _ => true
|}.

(** A feed over the Hyperliquid adapter's state that has no price and
    disconnects without effect. *)
#[export] Instance quietFeed
  : FairPriceCalc.FairPriceCalculator (Hyperliquid.HState SimVenue.Venue) := {|
  FairPriceCalc.getFairPrice := fun _ => Ok None;
  FairPriceCalc.disconnect := fun w => (Ok tt, w)
|}.

Definition hlStart (v : SimVenue.Venue) : Hyperliquid.HState SimVenue.Venue :=
  {| Hyperliquid.adapter :=
       {| Hyperliquid.orderbookCallbacks := ["ETH"];
          Hyperliquid._connected := true |};
     Hyperliquid.backend := v |}.

(** A bot whose symbol has an empty base. *)
Definition slashConfig : MarketMakerConfig :=
  {| cfg_exchange := "hyperliquid"; symbol := "/USD";
     spreadBps := 10; takeProfitBps := 5; orderSizeUsd := 100;
     closeThresholdUsd := 500; maxPositionUsd := 2000;
     updateThrottleMs := 1000; orderSyncIntervalMs := 5000;
     minMarginRatio := Float64.literal (1 # 10) |}.

(** The venue of [SimWorld] lists one market, BTC, and accepts every
    set-up call that it is not told to reject. *)
#[export] Instance simExchangeSetup : MarketMakerRest.ExchangeSetup SimWorld := {|
  MarketMakerRest.connect := fun w => (Ok tt, w);
  MarketMakerRest.getMarkets := fun w => (Ok [btc], w);
  MarketMakerRest.subscribeOrderbook := fun _ w => (Ok tt, w)
|}.

#[export] Instance simFeedSetup : MarketMakerRest.FeedSetup SimWorld := {|
  MarketMakerRest.feed_connect := fun w => (Ok tt, w)
|}.

#[export] Instance simQuoterSetup : MarketMakerRest.QuoterSetup SimWorld := {|
  MarketMakerRest.setMarket := fun m w => (Ok tt, set_market (Some m) w)
|}.

#[export] Instance simPositionView : MarketMakerRest.PositionView SimWorld := {|
  MarketMakerRest.getPosition :=
    fun w => Ok {| MarketMakerRest.ps_side := "flat";
                   MarketMakerRest.ps_size := 0;
                   MarketMakerRest.ps_notional := sim_notional w;
                   MarketMakerRest.ps_unrealizedPnl := 0 |};
  MarketMakerRest.isCloseMode :=
    fun w => Ok (PositionSpec.isCloseMode (sim_config w) (sim_notional w))
|}.

(** A quoter that is always bound to BTC and so never throws. *)
Definition steadyQuoter : QuoterObj.Quoter SimWorld := {|
  QuoterObj.generateQuotes :=
    fun fairPrice n w =>
      Ok (QuoterSpec.generateQuotes floorToLot (sim_config w) btc fairPrice n);
  QuoterObj.isOrderStale :=
    fun price side fairPrice w => Ok (sim_stale w price side fairPrice);
  QuoterObj.quoteToOrders :=
    fun q w => Ok (QuoterSpec.quoteToOrders (sim_config w) q)
|}.

(** Lower case for the letters of the Latin alphabet. *)
Definition lowerAscii (c : ascii) : ascii :=
  let n := nat_of_ascii c in
  if ((65 <=? n) && (n <=? 90))%nat then ascii_of_nat (n + 32) else c.

Fixpoint lowerCase (s : string) : string :=
  match s with
  | EmptyString => EmptyString
  | String c rest => String (lowerAscii c) (lowerCase rest)
  end.

(** A venue that rejects every placement and every cancel-all. *)
Definition rejectsTrading (c : Call) : bool :=
  match c with
  | PlaceOrderReq _ | CancelAllOrdersReq _ => true
  | _ => false
  end.

Definition rejectingWorld : SimWorld := set_rejects rejectsTrading quietWorld.

(** A venue that rejects the open-orders request. *)
Definition rejectsOpenOrders (c : Call) : bool :=
  match c with GetOpenOrdersReq _ => true | _ => false end.

Definition noOrdersAnswerWorld : SimWorld :=
  set_rejects rejectsOpenOrders quietWorld.

(** A venue that rejects the account request, asked by a bot with a
    tracked order. *)
Definition rejectsAccount (c : Call) : bool :=
  match c with GetAccountReq => true | _ => false end.

Definition noAccountWorld : SimWorld := set_rejects rejectsAccount quietWorld.

(** The process of the bot before any signal, and after one. *)
Definition freshProcess : Cli.Process SimWorld :=
  {| Cli.isShuttingDown := false; Cli.mm := boot runningBot quietWorld;
     Cli.exited := None |}.

Definition flaggedProcess : Cli.Process SimWorld :=
  {| Cli.isShuttingDown := true; Cli.mm := boot runningBot quietWorld;
     Cli.exited := None |}.

(** A venue holding the resting bid. *)
Definition bidOnVenueWorld : SimWorld := set_venueOrders [restingBid] quietWorld.

(** A stopped bot. *)
Definition stoppedBot : MarketMaker.Fields := MarketMaker.initial defaultConfig.

(** A stopped bot for a symbol that the venue does not list. *)
Definition dogeConfig : MarketMakerConfig :=
  {| cfg_exchange := "aftermath"; symbol := "DOGE";
     spreadBps := 10; takeProfitBps := 5; orderSizeUsd := 100;
     closeThresholdUsd := 500; maxPositionUsd := 2000;
     updateThrottleMs := 1000; orderSyncIntervalMs := 5000;
     minMarginRatio := Float64.literal (1 # 10) |}.

Definition dogeBot : MarketMaker.Fields := MarketMaker.initial dogeConfig.

(** A stopped bot whose symbol is the base in lower case. *)
Definition lowerCaseConfig : MarketMakerConfig :=
  {| cfg_exchange := "aftermath"; symbol := "btc";
     spreadBps := 10; takeProfitBps := 5; orderSizeUsd := 100;
     closeThresholdUsd := 500; maxPositionUsd := 2000;
     updateThrottleMs := 1000; orderSyncIntervalMs := 5000;
     minMarginRatio := Float64.literal (1 # 10) |}.

Definition lowerCaseBot : MarketMaker.Fields :=
  MarketMaker.initial lowerCaseConfig.

(** A second market, a second market with the base BTC, and an ask resting
    in the second market. *)
Definition eth : Market :=
  {| market_id := "0xeth"; market_symbol := "ETH/USD:USDC";
     market_base := "ETH"; tickSize := 1 # 100; lotSize := 1 # 1000 |}.

Definition btcTwin : Market :=
  {| market_id := "0xbtc2"; market_symbol := "BTC/USD:USDT";
     market_base := "BTC"; tickSize := 1 # 10; lotSize := 1 # 10000 |}.

Definition restingAsk : Order :=
  {| order_id := "2"; order_side := sell; order_price := 3010;
     order_size := 1 # 100 |}.

Definition secondBid : Order :=
  {| order_id := "3"; order_side := buy; order_price := 49900;
     order_size := 2 # 1000 |}.


Definition twinVenue : SimVenue.Venue :=
  {| SimVenue.v_markets := [btc; btcTwin];
     SimVenue.v_account := {| equity := 1000; availableMargin := 500 |};
     SimVenue.v_orders := [] |}.

(** A bot that tracks an ask, then a bid, then a second bid. *)
Definition botThreeOrders : MarketMaker.Fields :=
  MarketMaker.set_currentOrders [restingAsk; restingBid; secondBid] runningBot.

(** The set-up calls of [SimWorld] with one of them down. *)
Definition downExchangeSetup (down : string)
  : MarketMakerRest.ExchangeSetup SimWorld := {|
  MarketMakerRest.connect :=
    fun w => if String.eqb down "connect" then (Throw "down", w)
             else (Ok tt, w);
  MarketMakerRest.getMarkets :=
    fun w => if String.eqb down "getMarkets" then (Throw "down", w)
             else (Ok [btc], w);
  MarketMakerRest.subscribeOrderbook :=
    fun _ w => if String.eqb down "subscribeOrderbook" then (Throw "down", w)
               else (Ok tt, w)
|}.

Definition downFeedSetup : MarketMakerRest.FeedSetup SimWorld := {|
  MarketMakerRest.feed_connect := fun w => (Throw "down", w)
|}.

Definition downQuoterSetup : MarketMakerRest.QuoterSetup SimWorld := {|
  MarketMakerRest.setMarket := fun _ w => (Throw "down", w)
|}.

(** The simulated venues with one function down: the function named
    [down] throws, the others answer as before. *)
Definition unless {A} (down name : string) (answer : Result A * SimVenue.Venue)
           (v : SimVenue.Venue) : Result A * SimVenue.Venue :=
  if String.eqb down name then (Throw "down", v) else answer.

Definition downBackend (down : string) : Aftermath.Backend SimVenue.Venue := {|
  Aftermath.getAccountCap :=
    fun w v => unless down "getAccountCap" (Aftermath.getAccountCap w v) v;
  Aftermath.fetchAccount :=
    fun w v => unless down "fetchAccount" (Aftermath.fetchAccount w v) v;
  Aftermath.getPositionsForWallet :=
    fun w v => unless down "getPositionsForWallet"
                      (Aftermath.getPositionsForWallet w v) v;
  Aftermath.clearAccountCache :=
    fun v => unless down "clearAccountCache" (Aftermath.clearAccountCache v) v;
  Aftermath.getMarketBySymbol :=
    fun sym v => unless down "getMarketBySymbol"
                        (Aftermath.getMarketBySymbol sym v) v;
  Aftermath.fetchOpenOrders :=
    fun n c v => unless down "fetchOpenOrders" (Aftermath.fetchOpenOrders n c v) v;
  Aftermath.getAllOpenOrders :=
    fun w cs v => unless down "getAllOpenOrders"
                         (Aftermath.getAllOpenOrders w cs v) v;
  Aftermath.placeAftermathOrder :=
    fun w c r v => unless down "placeOrder"
                          (Aftermath.placeAftermathOrder w c r v) v;
  Aftermath.cancelOrders :=
    fun w c ids v => unless down "cancelOrders"
                            (Aftermath.cancelOrders w c ids v) v;
  Aftermath.subscription_unsubscribeOrderbook :=
    fun c v => unless down "unsubscribeOrderbook"
                      (Aftermath.subscription_unsubscribeOrderbook c v) v;
  Aftermath.subscription_disconnect :=
    fun v => unless down "disconnect" (Aftermath.subscription_disconnect v) v
|}.

Definition downBackendRest (down : string)
  : AftermathRest.BackendRest SimVenue.Venue := {|
  AftermathRest.fetchMarkets :=
    fun v => unless down "fetchMarkets" (AftermathRest.fetchMarkets v) v;
  AftermathRest.cancelAftermathOrder :=
    fun w c o v => unless down "cancelOrder"
                          (AftermathRest.cancelAftermathOrder w c o v) v;
  AftermathRest.subscription_subscribeOrderbook :=
    fun c v => unless down "subscribeOrderbook"
                      (AftermathRest.subscription_subscribeOrderbook c v) v
|}.

Definition downHyperliquid (down : string)
  : Hyperliquid.Backend SimVenue.Venue := {|
  Hyperliquid.fetchAccount :=
    fun v => unless down "fetchAccount" (Hyperliquid.fetchAccount v) v;
  Hyperliquid.fetchPositions :=
    fun v => unless down "fetchPositions" (Hyperliquid.fetchPositions v) v;
  Hyperliquid.fetchMarkets :=
    fun v => unless down "fetchMarkets" (Hyperliquid.fetchMarkets v) v;
  Hyperliquid.fetchOpenOrders :=
    fun sym v => unless down "fetchOpenOrders"
                        (Hyperliquid.fetchOpenOrders sym v) v;
  Hyperliquid.placeHLOrder :=
    fun r v => unless down "placeOrder" (Hyperliquid.placeHLOrder r v) v;
  Hyperliquid.cancelHLOrder :=
    fun o v => unless down "cancelOrder" (Hyperliquid.cancelHLOrder o v) v;
  Hyperliquid.cancelAllHLOrders :=
    fun sym v => unless down "cancelAllOrders"
                        (Hyperliquid.cancelAllHLOrders sym v) v;
  Hyperliquid.subscription_subscribeOrderbook :=
    fun b v => unless down "subscribeOrderbook"
                      (Hyperliquid.subscription_subscribeOrderbook b v) v;
  Hyperliquid.subscription_unsubscribeOrderbook :=
    fun b v => unless down "unsubscribeOrderbook"
                      (Hyperliquid.subscription_unsubscribeOrderbook b v) v;
  Hyperliquid.subscription_disconnect :=
    fun v => unless down "disconnect" (Hyperliquid.subscription_disconnect v) v;
  Hyperliquid.subscription_connected := Hyperliquid.subscription_connected
|}.

End SimRest.

(* ================================================================== *)
(** * Properties                                                       *)
(* ================================================================== *)

(** ** Comparisons *)

Lemma Qltb_lt a b : Qltb a b = true <-> (a < b)%Q.
Proof.
  unfold Qltb. rewrite negb_true_iff.
  split; intro H.
  - apply Qnot_le_lt. intro Hle. apply Qle_bool_iff in Hle. congruence.
  - destruct (Qle_bool b a) eqn:E; [|reflexivity].
    apply Qle_bool_iff in E. exfalso. exact (Qlt_not_le _ _ H E).
Qed.

Lemma Qltb_ge a b : Qltb a b = false <-> (b <= a)%Q.
Proof.
  unfold Qltb. rewrite negb_false_iff. apply Qle_bool_iff.
Qed.

Lemma Qgeb_ge a b : Qgeb a b = true <-> (b <= a)%Q.
Proof. apply Qle_bool_iff. Qed.

Lemma Qgeb_lt a b : Qgeb a b = false <-> (a < b)%Q.
Proof.
  unfold Qgeb. rewrite <- Qltb_lt. unfold Qltb.
  destruct (Qle_bool b a); simpl; intuition congruence.
Qed.

Lemma MarketMakerState_eqb_eq a b : MarketMakerState_eqb a b = true <-> a = b.
Proof. destruct a, b; simpl; split; congruence. Qed.

(** Doubles as [Float64] computes them: the literals 0.1 and 1.2; the
    quotient 0.3 / 3, just below 0.1, and the product 0.17 * 1.2, just above
    0.204; a dyadic fraction is kept; a tie goes to the even neighbour, also
    below the smallest double. *)
Lemma binary64_examples :
  Float64.literal (1 # 10) = 3602879701896397 # 36028797018963968
  /\ Float64.literal (12 # 10) = 5404319552844595 # 4503599627370496
  /\ Float64.div (Float64.literal (3 # 10)) 3
     = 7205759403792793 # 72057594037927936
  /\ Qltb (Float64.div (Float64.literal (3 # 10)) 3) (Float64.literal (1 # 10))
     = true
  /\ Float64.mul (Float64.literal (17 # 100)) (Float64.literal (12 # 10))
     = 3674937295934325 # 18014398509481984
  /\ Qgeb (Float64.literal (204 # 1000))
          (Float64.mul (Float64.literal (17 # 100)) (Float64.literal (12 # 10)))
     = false
  /\ Float64.round (- (5 # 8)) = - (5 # 8)
  /\ Float64.round 9007199254740993 = 9007199254740992
  /\ Float64.round 9007199254740995 = 9007199254740996
  /\ Float64.round (1 # 2 ^ 1075) = 0
  /\ Float64.round (3 # 2 ^ 1075) = 1 # 2 ^ 1073.
Proof. vm_compute. repeat split. Qed.

(** ** The orchestrator *)

Module MarketMakerFacts.

Import MarketMaker.

Section Facts.

Context {W : Type}.
Context {exchange : Exchange.IExchange W}.
Context {fairPriceCalc : FairPriceCalc.FairPriceCalculator W}.
Context {positionManager : PositionMgr.PositionManager W}.
Context {quoter : QuoterObj.Quoter W}.
Context {clock : Clock W}.

Ltac run :=
  unfold bind, ret, try_catch, read, write, request, invoke, query, now;
  simpl.

(** The wrapper around the exchange's cancel-all: one request, the tracked
    list emptied when the request succeeds, and never an exception. *)
Lemma cancelAllOrders_run (s : Sys W) :
  cancelAllOrders s =
  let sym := Some (symbol (config (this s))) in
  match Exchange.cancelAllOrders sym (world s) with
  | (Ok _, w') =>
      (Ok tt, {| this := set_currentOrders [] (this s); world := w';
                 calls := calls s ++ [CancelAllOrdersReq sym] |})
  | (Throw _, w') =>
      (Ok tt, {| this := this s; world := w';
                 calls := calls s ++ [CancelAllOrdersReq sym] |})
  end.
Proof.
  unfold cancelAllOrders. run.
  destruct (Exchange.cancelAllOrders _ (world s)) as [[u|e] w']; reflexivity.
Qed.

Lemma cancelAllOrders_ok (s : Sys W) :
  exists s', cancelAllOrders s = (Ok tt, s')
    /\ calls s' = calls s ++ [CancelAllOrdersReq (Some (symbol (config (this s))))]
    /\ world s' = snd (Exchange.cancelAllOrders
                         (Some (symbol (config (this s)))) (world s))
    /\ (this s' = this s \/ this s' = set_currentOrders [] (this s))
    /\ (is_ok (fst (Exchange.cancelAllOrders
                      (Some (symbol (config (this s)))) (world s))) = true ->
        this s' = set_currentOrders [] (this s)).
Proof.
  rewrite cancelAllOrders_run. simpl.
  destruct (Exchange.cancelAllOrders _ (world s)) as [[u|e] w']; simpl;
    eexists; repeat split; simpl; auto; discriminate.
Qed.

Lemma handleError_run (s : Sys W) :
  handleError s =
  (Ok tt,
   {| this :=
        (if (maxErrors <=? S (errorCount (this s)))%nat
         then set_state paused (set_errorCount (S (errorCount (this s))) (this s))
         else set_errorCount (S (errorCount (this s))) (this s));
      world := world s; calls := calls s |}).
Proof.
  unfold handleError, bind, write, read, ret. cbn -[Nat.leb].
  destruct (maxErrors <=? S (errorCount (this s)))%nat; reflexivity.
Qed.

(** One placement: the request is recorded, a rejection is swallowed. *)
Lemma place_one_run (o : OrderRequest) (s : Sys W) :
  try_catch
    (request (PlaceOrderReq o) (Exchange.placeOrder o) ;; ret tt)
    (fun _ => ret tt) s
  = (Ok tt, {| this := this s; world := snd (Exchange.placeOrder o (world s));
               calls := calls s ++ [PlaceOrderReq o] |}).
Proof.
  run. destruct (Exchange.placeOrder o (world s)) as [[r|e] w1]; reflexivity.
Qed.

(** The placement loop never throws; it records one request per intent and
    touches no field of the orchestrator. *)
Lemma place_loop_run (orders : list OrderRequest) (s : Sys W) :
  exists w',
    for_of orders
      (fun order =>
         try_catch
           (request (PlaceOrderReq order) (Exchange.placeOrder order) ;; ret tt)
           (fun _ => ret tt)) s
    = (Ok tt, {| this := this s; world := w';
                 calls := calls s ++ map PlaceOrderReq orders |}).
Proof.
  revert s. induction orders as [|o rest IH]; intros s.
  - exists (world s). simpl. unfold ret. rewrite app_nil_r.
    destruct s; reflexivity.
  - simpl. unfold bind at 1. rewrite place_one_run.
    destruct (IH {| this := this s;
                    world := snd (Exchange.placeOrder o (world s));
                    calls := calls s ++ [PlaceOrderReq o] |}) as [w' Hw'].
    exists w'. rewrite Hw'. simpl. rewrite <- app_assoc. reflexivity.
Qed.

(** The staleness loop changes nothing: it answers or throws. *)
Lemma anyOrderStale_state (orders : list Order) (p : Q) (s : Sys W) :
  snd (anyOrderStale orders p s) = s.
Proof.
  induction orders as [|o rest IH]; simpl.
  - reflexivity.
  - unfold bind, query.
    destruct (QuoterObj.isOrderStale _ _ _ _) as [[|]|e]; simpl; auto.
Qed.

Lemma anyOrderStale_true (orders : list Order) (p : Q) (s : Sys W) :
  fst (anyOrderStale orders p s) = Ok true ->
  exists o, In o orders /\
    QuoterObj.isOrderStale (order_price o) (order_side o) p (world s) = Ok true.
Proof.
  induction orders as [|o rest IH]; simpl.
  - unfold ret. simpl. discriminate.
  - unfold bind, query.
    destruct (QuoterObj.isOrderStale _ _ _ _) as [[|]|e] eqn:E; simpl.
    + intros _. exists o. auto.
    + intros H. destruct (IH H) as [o' [Hin Ho']]. exists o'. auto.
    + discriminate.
Qed.

Lemma anyOrderStale_existsb (stale : Order -> bool) (orders : list Order)
      (p : Q) (s : Sys W) :
  (forall o, In o orders ->
     QuoterObj.isOrderStale (order_price o) (order_side o) p (world s)
     = Ok (stale o)) ->
  anyOrderStale orders p s = (Ok (existsb stale orders), s).
Proof.
  induction orders as [|o rest IH]; simpl; intros H.
  - reflexivity.
  - unfold bind, query. rewrite (H o (or_introl eq_refl)).
    destruct (stale o); simpl; [reflexivity|].
    apply IH. intros o' Ho'. apply H. auto.
Qed.

Lemma shouldUpdateOrders_state (q : Quote) (s : Sys W) :
  snd (shouldUpdateOrders q s) = s.
Proof.
  unfold shouldUpdateOrders. run.
  destruct (currentOrders (this s)) as [|o rest]; [reflexivity|].
  destruct (FairPriceCalc.getFairPrice (world s)) as [[p|]|e]; simpl; auto.
  destruct (Qeq_bool p 0); simpl; auto.
  exact (anyOrderStale_state (o :: rest) p s).
Qed.

Lemma shouldUpdateOrders_true (q : Quote) (s : Sys W) :
  fst (shouldUpdateOrders q s) = Ok true ->
  currentOrders (this s) = [] \/
  exists o p, In o (currentOrders (this s)) /\
    FairPriceCalc.getFairPrice (world s) = Ok (Some p) /\
    QuoterObj.isOrderStale (order_price o) (order_side o) p (world s) = Ok true.
Proof.
  unfold shouldUpdateOrders. run.
  destruct (currentOrders (this s)) as [|o rest] eqn:EL; [auto|].
  destruct (FairPriceCalc.getFairPrice (world s)) as [[p|]|e]; simpl;
    try discriminate.
  destruct (Qeq_bool p 0); simpl; try discriminate.
  intros H. right.
  destruct (anyOrderStale_true (o :: rest) p s H) as [o' [Hin Ho']].
  exists o', p. auto.
Qed.

Lemma quiet_frame (s s' : Sys W) :
  quiet s s' ->
  calls s' = calls s /\ world s' = world s
  /\ currentOrders (this s') = currentOrders (this s)
  /\ state (this s') = state (this s)
  /\ errorCount (this s') = errorCount (this s).
Proof.
  intros [->| ->]; simpl; auto.
Qed.

(** Every run of [runMainLoop] either stops before the staleness check,
    changing at most the time of the last update, or has passed all guards
    and goes on with a quote. *)
Lemma runMainLoop_split (s : Sys W) :
  quiet s (snd (runMainLoop s)) \/
  exists p n q, quoting s p n q /\ runMainLoop s = updateOrders q (stamped s).
Proof.
  unfold runMainLoop, updateOrders, quiet, quoting, stamped. run.
  destruct (MarketMakerState_eqb (state (this s)) running) eqn:Est; simpl;
    [|auto].
  apply MarketMakerState_eqb_eq in Est.
  destruct (date_now (world s) - lastUpdateTime (this s)
            <? updateThrottleMs (config (this s)))%Z eqn:Eth; simpl; [auto|].
  apply Z.ltb_ge in Eth.
  destruct (FairPriceCalc.getFairPrice (world s)) as [[p|]|e] eqn:Efp; simpl;
    [|auto|auto].
  destruct (Qeq_bool p 0) eqn:Ep; simpl; [auto|].
  destruct (PositionMgr.isAtMax (world s)) as [[|]|e] eqn:Emax; simpl;
    [auto| |auto].
  destruct (PositionMgr.getSignedNotional (world s)) as [n|e] eqn:En; simpl;
    [|auto].
  destruct (QuoterObj.generateQuotes p n (world s)) as [q|e] eqn:Eq; simpl;
    [|auto].
  right. exists p, n, q. repeat split; auto.
Qed.

Lemma runMainLoop_quoting (s : Sys W) (p n : Q) (q : Quote) :
  quoting s p n q -> runMainLoop s = updateOrders q (stamped s).
Proof.
  intros (Hst & Hth & Hfp & Hp & Hmax & Hn & Hq).
  unfold runMainLoop, updateOrders, stamped. run.
  rewrite Hst. simpl.
  apply Z.ltb_ge in Hth. rewrite Hth. simpl.
  rewrite Hfp. simpl. rewrite Hp. simpl. rewrite Hmax. simpl.
  rewrite Hn. simpl. rewrite Hq. reflexivity.
Qed.

(** The three ways [updateOrders] ends: nothing to do (or the staleness
    check threw), or cancel and then place, with a throw of the quoter in
    between as the only exception. *)
Lemma updateOrders_outcome (q : Quote) (s : Sys W) :
  match fst (shouldUpdateOrders q s) with
  | Throw e => updateOrders q s = (Throw e, s)
  | Ok false => updateOrders q s = (Ok tt, s)
  | Ok true =>
      exists s1, cancelAllOrders s = (Ok tt, s1) /\
        match QuoterObj.quoteToOrders q (world s1) with
        | Throw e => updateOrders q s = (Throw e, s1)
        | Ok intents =>
            exists w',
              updateOrders q s =
              (Ok tt, {| this := set_errorCount 0 (this s1); world := w';
                         calls := calls s1 ++ map PlaceOrderReq intents |})
        end
  end.
Proof.
  pose proof (shouldUpdateOrders_state q s) as Hs.
  destruct (shouldUpdateOrders q s) as [[b|e] s0] eqn:E; simpl in *; subst s0.
  - destruct b.
    + destruct (cancelAllOrders_ok s) as (s1 & Hc & _).
      exists s1. split; [exact Hc|].
      destruct (QuoterObj.quoteToOrders q (world s1)) as [intents|e] eqn:Eq.
      * destruct (place_loop_run intents s1) as [w' Hw'].
        exists w'. unfold updateOrders. unfold bind at 1. rewrite E.
        cbn [negb]. unfold bind at 1. rewrite Hc.
        unfold bind at 1. unfold query at 1. rewrite Eq.
        unfold bind at 1. rewrite Hw'. reflexivity.
      * unfold updateOrders. unfold bind at 1. rewrite E.
        cbn [negb]. unfold bind at 1. rewrite Hc.
        unfold bind at 1. unfold query at 1. rewrite Eq. reflexivity.
    + unfold updateOrders. unfold bind at 1. rewrite E. reflexivity.
  - unfold updateOrders. unfold bind at 1. rewrite E. reflexivity.
Qed.

Lemma mainLoopTick_run (s : Sys W) :
  mainLoopTick s =
  match runMainLoop s with
  | (Ok a, s1) => (Ok a, s1)
  | (Throw _, s1) => handleError s1
  end.
Proof. reflexivity. Qed.


(** [checkMarginRatio], step by step. It never throws. *)
Lemma checkMarginRatio_run (s : Sys W) :
  checkMarginRatio s =
  match Exchange.getAccount (world s) with
  | (Throw _, w1) =>
      (Ok tt, {| this := this s; world := w1;
                 calls := calls s ++ [GetAccountReq] |})
  | (Ok account, w1) =>
      let f1 := set_lastMarginRatio (ratioAfter account (this s)) (this s) in
      let s1 := {| this := f1; world := w1;
                   calls := calls s ++ [GetAccountReq] |} in
      if Qltb (ratioAfter account (this s)) (minMarginRatio (config (this s)))
      then
        if MarketMakerState_eqb (state (this s)) running
        then cancelAllOrders {| this := set_state paused f1; world := w1;
                                calls := calls s ++ [GetAccountReq] |}
        else (Ok tt, s1)
      else
        if MarketMakerState_eqb (state (this s)) paused
           && Qgeb (ratioAfter account (this s))
                   (Float64.mul (minMarginRatio (config (this s)))
                                (Float64.literal (12 # 10)))
        then (Ok tt, {| this := set_state running f1; world := w1;
                        calls := calls s ++ [GetAccountReq] |})
        else (Ok tt, s1)
  end.
Proof.
  unfold checkMarginRatio, ratioAfter.
  unfold try_catch, bind at 1. unfold request at 1.
  destruct (Exchange.getAccount (world s)) as [[account|e] w1]; [|reflexivity].
  destruct (Qltb 0 (equity account)) eqn:Eeq.
  - run.
    destruct (Qltb (Float64.div (availableMargin account) (equity account))
                   (minMarginRatio (config (this s)))).
    + destruct (MarketMakerState_eqb (state (this s)) running); [|reflexivity].
      simpl.
      match goal with
      | |- context [cancelAllOrders ?x] =>
          destruct (cancelAllOrders_ok x) as (s2 & -> & _)
      end.
      reflexivity.
    + destruct (MarketMakerState_eqb (state (this s)) paused
                && Qgeb _ _); reflexivity.
  - run.
    assert (Hsame : set_lastMarginRatio (lastMarginRatio (this s)) (this s)
                    = this s) by (destruct (this s); reflexivity).
    rewrite Hsame.
    destruct (Qltb (lastMarginRatio (this s))
                   (minMarginRatio (config (this s)))).
    + destruct (MarketMakerState_eqb (state (this s)) running); [|reflexivity].
      simpl.
      match goal with
      | |- context [cancelAllOrders ?x] =>
          destruct (cancelAllOrders_ok x) as (s2 & -> & _)
      end.
      reflexivity.
    + destruct (MarketMakerState_eqb (state (this s)) paused
                && Qgeb _ _); reflexivity.
Qed.

Lemma checkMarginRatio_ok (s : Sys W) :
  exists s', checkMarginRatio s = (Ok tt, s').
Proof.
  rewrite checkMarginRatio_run.
  destruct (Exchange.getAccount (world s)) as [[account|e] w1]; [|eauto].
  cbv zeta.
  destruct (Qltb _ _).
  - destruct (MarketMakerState_eqb _ _); [|eauto].
    match goal with
    | |- context [cancelAllOrders ?x] =>
        destruct (cancelAllOrders_ok x) as (s2 & -> & _)
    end.
    eauto.
  - destruct (_ && _); eauto.
Qed.

Lemma checkMarginRatio_decision (s : Sys W) (account : Account) (w1 : W) :
  Exchange.getAccount (world s) = (Ok account, w1) ->
  lastMarginRatio (this (snd (checkMarginRatio s))) = ratioAfter account (this s)
  /\ state (this (snd (checkMarginRatio s)))
     = marginDecision (ratioAfter account (this s)) (this s).
Proof.
  intros Hacc. rewrite checkMarginRatio_run, Hacc. cbv zeta.
  unfold marginDecision.
  destruct (Qltb _ _).
  - destruct (MarketMakerState_eqb _ _); [|simpl; auto].
    match goal with
    | |- context [cancelAllOrders ?x] =>
        destruct (cancelAllOrders_ok x) as (s2 & -> & _ & _ & [Ht|Ht] & _)
    end; simpl; rewrite Ht; simpl; auto.
  - destruct (_ && _); simpl; auto.
Qed.

Lemma syncPosition_this (s : Sys W) :
  fst (syncPosition s) = Ok tt /\ this (snd (syncPosition s)) = this s.
Proof.
  unfold syncPosition. run.
  destruct (Exchange.getPositions (world s)) as [[positions|e] w1]; simpl; auto.
  destruct (FairPriceCalc.getFairPrice w1) as [fp|e]; simpl; auto.
  destruct (PositionMgr.updatePosition _ _ w1) as [[[]|e] w2]; simpl; auto.
Qed.

Lemma syncOrders_state (s : Sys W) :
  state (this (snd (orderSyncTick s))) = state (this s).
Proof.
  unfold orderSyncTick, syncOrders.
  unfold try_catch at 1 2. unfold bind at 1. unfold read at 1.
  unfold bind at 1. unfold request at 1.
  destruct (Exchange.getOpenOrders _ (world s)) as [[orders|e] w1];
    [|reflexivity].
  unfold bind at 1. unfold write at 1.
  match goal with
  | |- context [syncPosition ?x] =>
      destruct (syncPosition_this x) as [Hr Ht];
      destruct (syncPosition x) as [[[]|e] s2]; simpl in *;
      try discriminate; rewrite Ht; reflexivity
  end.
Qed.

Lemma runMainLoop_not_running (s : Sys W) :
  state (this s) <> running -> runMainLoop s = (Ok tt, s).
Proof.
  intros H. unfold runMainLoop. run.
  destruct (MarketMakerState_eqb (state (this s)) running) eqn:E.
  - apply MarketMakerState_eqb_eq in E. contradiction.
  - reflexivity.
Qed.

(** C2: a margin check that fetches the account reads a ratio: the
    quotient of available margin and equity, rounded as a double, when the
    equity is positive, and the ratio stored by an earlier check (1 at
    construction) when it is not. In state [running] a ratio read below
    [minMarginRatio] moves the orchestrator to [paused] and calls the
    exchange's cancel-all for the symbol, the tracked list being emptied
    when that call succeeds; a ratio read that is not below keeps it
    [running] and requests no cancellation. From [paused] no periodic
    activity leads back to [running] unless it is the margin check reading a
    ratio that is not below [minMarginRatio] and is at least
    [minMarginRatio * 1.2], the product rounded as a double; such a check
    does lead back, and one that reads less keeps it [paused]. *)
Theorem margin_pause_and_hysteresis (s : Sys W) :
  let min := minMarginRatio (config (this s)) in
  let sym := Some (symbol (config (this s))) in
  (forall account,
      ((0 < equity account)%Q ->
       ratioAfter account (this s)
       = Float64.div (availableMargin account) (equity account))
      /\ ((equity account <= 0)%Q ->
          ratioAfter account (this s) = lastMarginRatio (this s)))
  /\ (forall account w1,
        state (this s) = running ->
        Exchange.getAccount (world s) = (Ok account, w1) ->
        (ratioAfter account (this s) < min)%Q ->
        checkMarginRatio s =
        (Ok tt,
         {| this :=
              (if is_ok (fst (Exchange.cancelAllOrders sym w1))
               then set_currentOrders [] else fun f => f)
                (set_state paused
                   (set_lastMarginRatio (ratioAfter account (this s))
                                        (this s)));
            world := snd (Exchange.cancelAllOrders sym w1);
            calls := calls s ++ [GetAccountReq; CancelAllOrdersReq sym] |}))
  /\ (forall account w1,
        state (this s) = running ->
        Exchange.getAccount (world s) = (Ok account, w1) ->
        (min <= ratioAfter account (this s))%Q ->
        checkMarginRatio s =
        (Ok tt,
         {| this := set_lastMarginRatio (ratioAfter account (this s)) (this s);
            world := w1; calls := calls s ++ [GetAccountReq] |}))
  /\ (forall a,
        state (this s) = paused ->
        state (this (snd (perform a s))) = running ->
        a = MarginCheckTick
        /\ exists account w1,
             Exchange.getAccount (world s) = (Ok account, w1)
             /\ lastMarginRatio (this (snd (perform a s)))
                = ratioAfter account (this s)
             /\ (min <= ratioAfter account (this s))%Q
             /\ (Float64.mul min (Float64.literal (12 # 10))
                 <= ratioAfter account (this s))%Q)
  /\ (forall account w1,
        state (this s) = paused ->
        Exchange.getAccount (world s) = (Ok account, w1) ->
        (min <= ratioAfter account (this s))%Q ->
        (Float64.mul min (Float64.literal (12 # 10))
         <= ratioAfter account (this s))%Q ->
        checkMarginRatio s =
        (Ok tt,
         {| this := set_state running
                      (set_lastMarginRatio (ratioAfter account (this s))
                                           (this s));
            world := w1; calls := calls s ++ [GetAccountReq] |}))
  /\ (forall account w1,
        state (this s) = paused ->
        Exchange.getAccount (world s) = (Ok account, w1) ->
        (ratioAfter account (this s) < min)%Q
        \/ (ratioAfter account (this s)
            < Float64.mul min (Float64.literal (12 # 10)))%Q ->
        checkMarginRatio s =
        (Ok tt,
         {| this := set_lastMarginRatio (ratioAfter account (this s)) (this s);
            world := w1; calls := calls s ++ [GetAccountReq] |})).
Proof.
  cbv zeta. repeat match goal with |- _ /\ _ => split end.
  - intros account. unfold ratioAfter. split; intros H.
    + apply Qltb_lt in H. rewrite H. reflexivity.
    + apply Qltb_ge in H. rewrite H. reflexivity.
  - intros account w1 Hrun Hacc Hlow.
    rewrite checkMarginRatio_run, Hacc. cbv zeta.
    apply Qltb_lt in Hlow. rewrite Hlow.
    rewrite Hrun. cbn [MarketMakerState_eqb].
    rewrite cancelAllOrders_run. cbn [this world calls config set_state
      set_lastMarginRatio].
    destruct (Exchange.cancelAllOrders _ w1) as [[u|e] w2]; cbn [fst snd is_ok];
      rewrite <- app_assoc; reflexivity.
  - intros account w1 Hrun Hacc Hhigh.
    rewrite checkMarginRatio_run, Hacc. cbv zeta.
    apply Qltb_ge in Hhigh. rewrite Hhigh.
    rewrite Hrun. reflexivity.
  - intros a Hp Hr. destruct a; simpl in Hr.
    + rewrite mainLoopTick_run, runMainLoop_not_running in Hr
        by (rewrite Hp; discriminate).
      simpl in Hr. congruence.
    + rewrite syncOrders_state in Hr. congruence.
    + split; [reflexivity|]. simpl.
      unfold marginCheckTick, try_catch in *.
      destruct (checkMarginRatio_ok s) as [s' Hs'].
      rewrite Hs' in *. simpl in *.
      destruct (Exchange.getAccount (world s)) as [[account|e] w1] eqn:Hacc.
      * destruct (checkMarginRatio_decision s account w1 Hacc) as [Hl Hd].
        rewrite Hs' in Hl, Hd. simpl in Hl, Hd.
        exists account, w1. split; [reflexivity|]. split; [exact Hl|].
        rewrite Hd in Hr. unfold marginDecision in Hr.
        rewrite Hp in Hr. cbn [MarketMakerState_eqb andb] in Hr.
        destruct (Qltb _ _) eqn:E1; [discriminate|].
        destruct (Qgeb _ _) eqn:E2; [|discriminate].
        apply Qltb_ge in E1. apply Qgeb_ge in E2. auto.
      * rewrite checkMarginRatio_run, Hacc in Hs'.
        injection Hs' as <-. simpl in Hr. congruence.
  - intros account w1 Hp Hacc Hmin Hbuf.
    rewrite checkMarginRatio_run, Hacc. cbv zeta.
    apply Qltb_ge in Hmin. rewrite Hmin.
    apply Qgeb_ge in Hbuf. rewrite Hbuf.
    rewrite Hp. reflexivity.
  - intros account w1 Hp Hacc Hlow.
    rewrite checkMarginRatio_run, Hacc. cbv zeta. rewrite Hp.
    cbn [MarketMakerState_eqb andb].
    destruct (Qltb (ratioAfter account (this s))
                   (minMarginRatio (config (this s)))) eqn:E1; [reflexivity|].
    destruct Hlow as [Hlow|Hlow].
    + apply Qltb_lt in Hlow. congruence.
    + apply Qgeb_lt in Hlow. rewrite Hlow. reflexivity.
Qed.

(** C10: the margin check divides only when the equity is positive; with an
    equity of zero or less the stored ratio, 1 at construction, stays, and
    the pause and resume decision reads that stored ratio. *)
Theorem margin_ratio_division_is_guarded (s : Sys W) (account : Account) (w1 : W) :
  Exchange.getAccount (world s) = (Ok account, w1) ->
  ((0 < equity account)%Q ->
   lastMarginRatio (this (snd (checkMarginRatio s)))
   = Float64.div (availableMargin account) (equity account))
  /\ ((equity account <= 0)%Q ->
      lastMarginRatio (this (snd (checkMarginRatio s)))
      = lastMarginRatio (this s)
      /\ state (this (snd (checkMarginRatio s)))
         = marginDecision (lastMarginRatio (this s)) (this s))
  /\ (forall c, lastMarginRatio (initial c) = 1%Q).
Proof.
  intros Hacc.
  destruct (checkMarginRatio_decision s account w1 Hacc) as [Hl Hd].
  rewrite Hl, Hd. unfold ratioAfter.
  split; [|split].
  - intros H. apply Qltb_lt in H. rewrite H. reflexivity.
  - intros H. apply Qltb_ge in H. rewrite H. auto.
  - reflexivity.
Qed.

(** C9: when the error-count breaker trips, nothing is requested from the
    venue or the feed, the tracked orders stay, and only the state and the
    error counter change; the margin pause, in contrast, requests the
    cancellation of all orders. *)
Theorem breaker_pause_cancels_nothing (s : Sys W) :
  (10 <= S (errorCount (this s)))%nat ->
  handleError s =
  (Ok tt,
   {| this := set_state paused
                (set_errorCount (S (errorCount (this s))) (this s));
      world := world s; calls := calls s |})
  /\ (forall account w1,
        state (this s) = running ->
        Exchange.getAccount (world s) = (Ok account, w1) ->
        Qltb (ratioAfter account (this s))
             (minMarginRatio (config (this s))) = true ->
        state (this (snd (checkMarginRatio s))) = paused
        /\ calls (snd (checkMarginRatio s))
           = calls s ++ [GetAccountReq;
                         CancelAllOrdersReq (Some (symbol (config (this s))))]).
Proof.
  intros Htrip. split.
  - rewrite handleError_run. unfold maxErrors.
    apply Nat.leb_le in Htrip. rewrite Htrip. reflexivity.
  - intros account w1 Hrun Hacc Hlow.
    rewrite checkMarginRatio_run, Hacc. cbv zeta.
    rewrite Hlow, Hrun. cbn [MarketMakerState_eqb].
    match goal with
    | |- context [cancelAllOrders ?x] =>
        destruct (cancelAllOrders_ok x) as (s2 & -> & Hcalls & _ & Ht & _)
    end.
    simpl in *. split.
    + destruct Ht as [-> | ->]; reflexivity.
    + rewrite Hcalls, <- app_assoc. reflexivity.
Qed.

(** [stop], step by step. *)
Lemma stop_run (s : Sys W) :
  let sym := symbol (config (this s)) in
  let c := Exchange.cancelAllOrders (Some sym) (world s) in
  let u := Exchange.unsubscribeOrderbook sym (snd c) in
  let d := Exchange.disconnect (snd u) in
  let fd := FairPriceCalc.disconnect (if is_ok (fst u) then snd d else snd u) in
  stop s =
  (Ok tt,
   {| this :=
        set_state stopped
          (if is_ok (fst c)
           then set_currentOrders [] (clear_intervals (this s))
           else clear_intervals (this s));
      world := snd fd;
      calls :=
        calls s
        ++ [CancelAllOrdersReq (Some sym); UnsubscribeOrderbookReq sym]
        ++ (if is_ok (fst u) then [ExchangeDisconnectReq] else [])
        ++ [FeedDisconnectReq] |}).
Proof.
  cbv zeta. unfold stop.
  unfold bind at 1. unfold write at 1.
  unfold bind at 1. unfold try_catch at 1.
  rewrite cancelAllOrders_run. cbn [this world calls config clear_intervals].
  destruct (Exchange.cancelAllOrders _ (world s)) as [[[]|e] w1];
    cbn [fst snd is_ok]; run;
    destruct (Exchange.unsubscribeOrderbook _ w1) as [[[]|e2] w2];
    cbn [fst snd is_ok]; simpl;
    try (destruct (Exchange.disconnect w2) as [[[]|e3] w3]; simpl);
    match goal with
    | |- context [FairPriceCalc.disconnect ?w] =>
        destruct (FairPriceCalc.disconnect w) as [[[]|e4] w4]
    end;
    simpl; rewrite <- ?app_assoc; reflexivity.
Qed.

Lemma stop_post (s : Sys W) :
  fst (stop s) = Ok tt
  /\ state (this (snd (stop s))) = stopped
  /\ mainLoopInterval (this (snd (stop s))) = None
  /\ orderSyncInterval (this (snd (stop s))) = None
  /\ marginCheckInterval (this (snd (stop s))) = None.
Proof.
  pose proof (stop_run s) as H. cbv zeta in H. rewrite H.
  cbn [fst snd this].
  destruct (is_ok _); repeat split; reflexivity.
Qed.

(** C5 (as amended): [stop], from any state, clears the three timers,
    requests the cancellation of all orders, the orderbook unsubscribe and
    the feed disconnect, never throws and ends in [stopped], and so does a
    second call. The cleanup is isolated in three groups: a failed
    cancellation blocks nothing, and the feed disconnect is requested
    whatever failed before; the exchange disconnect shares its [try] with
    the unsubscribe and is requested exactly when the unsubscribe
    succeeded. *)
Theorem stop_cleans_up_in_three_groups (s : Sys W) :
  let sym := symbol (config (this s)) in
  let c := Exchange.cancelAllOrders (Some sym) (world s) in
  let u := Exchange.unsubscribeOrderbook sym (snd c) in
  let s1 := snd (stop s) in
  fst (stop s) = Ok tt
  /\ state (this s1) = stopped
  /\ mainLoopInterval (this s1) = None
  /\ orderSyncInterval (this s1) = None
  /\ marginCheckInterval (this s1) = None
  /\ calls s1 =
     calls s
     ++ [CancelAllOrdersReq (Some sym); UnsubscribeOrderbookReq sym]
     ++ (if is_ok (fst u) then [ExchangeDisconnectReq] else [])
     ++ [FeedDisconnectReq]
  /\ (is_ok (fst c) = true -> currentOrders (this s1) = [])
  /\ fst (stop s1) = Ok tt
  /\ state (this (snd (stop s1))) = stopped
  /\ mainLoopInterval (this (snd (stop s1))) = None
  /\ orderSyncInterval (this (snd (stop s1))) = None
  /\ marginCheckInterval (this (snd (stop s1))) = None.
Proof.
  cbv zeta.
  destruct (stop_post s) as (A1 & A2 & A3 & A4 & A5).
  destruct (stop_post (snd (stop s))) as (B1 & B2 & B3 & B4 & B5).
  repeat match goal with |- _ /\ _ => split end; auto.
  - pose proof (stop_run s) as H. cbv zeta in H. rewrite H. reflexivity.
  - intros Hc. pose proof (stop_run s) as H. cbv zeta in H. rewrite H.
    cbn [snd this]. rewrite Hc. reflexivity.
Qed.

(** A tick that requested nothing: the catch handler requests nothing
    either. *)
Lemma quiet_tick (s : Sys W) :
  quiet s (snd (runMainLoop s)) ->
  calls (snd (mainLoopTick s)) = calls s
  /\ world (snd (mainLoopTick s)) = world s
  /\ currentOrders (this (snd (mainLoopTick s))) = currentOrders (this s).
Proof.
  intros Hq. rewrite mainLoopTick_run.
  destruct (runMainLoop s) as [[[]|e] s1]; simpl in Hq;
    apply quiet_frame in Hq; destruct Hq as (Hc & Hw & Ho & _).
  - simpl. auto.
  - rewrite handleError_run. cbn [snd calls world this].
    destruct (_ <=? _)%nat; simpl; auto.
Qed.

(** C1 (as amended): when the position's absolute notional is at or above
    [maxPositionUsd], long or short, the quoting tick returns at the at-max
    guard: it quotes neither side, places nothing and cancels nothing, and
    the tracked orders stay as they were. *)
Theorem at_max_tick_quotes_neither_side (s : Sys W) (n : Q) :
  PositionMgr.isAtMax (world s)
  = Ok (PositionSpec.isAtMax (config (this s)) n) ->
  (maxPositionUsd (config (this s)) <= Qabs n)%Q ->
  calls (snd (mainLoopTick s)) = calls s
  /\ world (snd (mainLoopTick s)) = world s
  /\ currentOrders (this (snd (mainLoopTick s))) = currentOrders (this s).
Proof.
  intros Hpm Hmax. apply quiet_tick.
  destruct (runMainLoop_split s) as [Hq|(p & m & q & Hq & _)]; [exact Hq|].
  destruct Hq as (_ & _ & _ & _ & Hnot & _).
  unfold PositionSpec.isAtMax in Hpm. apply Qgeb_ge in Hmax.
  rewrite Hmax in Hpm. congruence.
Qed.

Lemma app_cons_neq {A} (l r : list A) (x : A) : l ++ x :: r <> l.
Proof.
  intros H. apply (f_equal (@List.length A)) in H.
  rewrite length_app in H. simpl in H. lia.
Qed.







(** C4 (as amended): on a tick that has passed its guards (state [running],
    throttle, a fair price that is not 0, not at max) and whose staleness
    checks answer, all orders are cancelled and the quote's intents placed
    if and only if the tracked list is empty or some tracked order is stale
    under that fair price; and on every tick, if the tracked list is not
    empty and no tracked order is reported stale, nothing is cancelled and
    nothing is placed. *)
Theorem replaces_iff_empty_or_stale (s : Sys W) :
  (forall p n q stale intents,
      quoting s p n q ->
      (forall o, In o (currentOrders (this s)) ->
         QuoterObj.isOrderStale (order_price o) (order_side o) p (world s)
         = Ok (stale o)) ->
      QuoterObj.quoteToOrders q
        (snd (Exchange.cancelAllOrders
                (Some (symbol (config (this s)))) (world s)))
      = Ok intents ->
      (currentOrders (this s) = []
       \/ exists o, In o (currentOrders (this s)) /\ stale o = true)
      <->
      calls (snd (runMainLoop s))
      = calls s ++ CancelAllOrdersReq (Some (symbol (config (this s))))
                   :: map PlaceOrderReq intents)
  /\ (currentOrders (this s) <> [] ->
      (forall o p, In o (currentOrders (this s)) ->
         QuoterObj.isOrderStale (order_price o) (order_side o) p (world s)
         <> Ok true) ->
      calls (snd (runMainLoop s)) = calls s
      /\ calls (snd (mainLoopTick s)) = calls s).
Proof.
  split.
  - intros p n q stale intents Hq Hstale Hintents.
    rewrite (runMainLoop_quoting _ _ _ _ Hq).
    pose proof (updateOrders_outcome q (stamped s)) as Ho.
    assert (Hneeds : shouldUpdateOrders q (stamped s)
                     = (Ok (match currentOrders (this s) with
                            | [] => true
                            | _ => existsb stale (currentOrders (this s))
                            end), stamped s)).
    { unfold shouldUpdateOrders, stamped. run.
      destruct (currentOrders (this s)) as [|o rest] eqn:EL; [reflexivity|].
      destruct Hq as (_ & _ & Hfp & Hp & _).
      cbn [world]. rewrite Hfp. cbn beta iota. rewrite Hp.
      exact (anyOrderStale_existsb stale (o :: rest) p (stamped s) Hstale). }
    rewrite Hneeds in Ho. cbn [fst] in Ho.
    destruct (currentOrders (this s)) as [|o rest] eqn:EL.
    + destruct Ho as (s1 & Hc & Ho).
      rewrite cancelAllOrders_run in Hc. cbn [stamped this world calls] in Hc.
      cbn [set_lastUpdateTime config] in Hc.
      split; [intros _|auto].
      destruct (Exchange.cancelAllOrders _ (world s)) as [[[]|e] w1];
        injection Hc as <-; cbn [snd world] in *;
        rewrite Hintents in Ho; destruct Ho as [w' ->];
        cbn [snd calls]; rewrite <- app_assoc; reflexivity.
    + destruct (existsb stale (o :: rest)) eqn:Eex.
      * destruct Ho as (s1 & Hc & Ho).
        rewrite cancelAllOrders_run in Hc.
        cbn [stamped this world calls set_lastUpdateTime config] in Hc.
        split.
        -- intros _.
           destruct (Exchange.cancelAllOrders _ (world s)) as [[[]|e] w1];
             injection Hc as <-; cbn [snd world] in *;
             rewrite Hintents in Ho; destruct Ho as [w' ->];
             cbn [snd calls]; rewrite <- app_assoc; reflexivity.
        -- intros _. right. apply existsb_exists in Eex.
           destruct Eex as [o' [Hin Ho']]. exists o'. auto.
      * rewrite Ho. cbn [snd stamped calls]. split.
        -- intros [Habs|[o' [Hin Ho']]]; [discriminate|].
           assert (existsb stale (o :: rest) = true)
             by (apply existsb_exists; eauto).
           congruence.
        -- intros Habs. symmetry in Habs. apply app_cons_neq in Habs.
           contradiction.
  - intros Hne Hnone.
    assert (Hq : quiet s (snd (runMainLoop s))).
    { destruct (runMainLoop_split s) as [Hq|(p & n & q & Hq & Hrun)];
        [exact Hq|].
      rewrite Hrun.
      pose proof (updateOrders_outcome q (stamped s)) as Ho.
      destruct (fst (shouldUpdateOrders q (stamped s))) as [[|]|e] eqn:E.
      - apply shouldUpdateOrders_true in E.
        destruct E as [E|(o & p' & Hin & _ & Hst)].
        + contradiction.
        + exfalso. exact (Hnone o p' Hin Hst).
      - rewrite Ho. right. reflexivity.
      - rewrite Ho. right. reflexivity. }
    split.
    + apply quiet_frame in Hq. tauto.
    + apply quiet_tick in Hq. tauto.
Qed.

End Facts.

End MarketMakerFacts.

(** ** The quote generator *)

Module QuoterFacts.

Import QuoterSpec.

Section Facts.

Variable roundToLot : Q -> Q -> Q.
Variable cfg : MarketMakerConfig.
Variable mkt : Market.

Lemma long_not_short (n : Q) : (0 < n)%Q -> isLong n = true /\ isShort n = false.
Proof.
  intros H. unfold isLong, isShort. split.
  - apply Qltb_lt. exact H.
  - apply Qltb_ge. apply Qlt_le_weak. exact H.
Qed.

Lemma short_not_long (n : Q) : (n < 0)%Q -> isShort n = true /\ isLong n = false.
Proof.
  intros H. unfold isLong, isShort. split.
  - apply Qltb_lt. exact H.
  - apply Qltb_ge. apply Qlt_le_weak. exact H.
Qed.

(** C6: for a fair price above 0, an exposure whose absolute notional is at
    or above [closeThresholdUsd] gets exactly one side, the reducing one (the
    ask if long, the bid if short), flagged reduce-only and sized from
    [min(orderSizeUsd, abs(notional))] at that side's price; an exposure
    strictly below [closeThresholdUsd] and below [maxPositionUsd] gets both
    sides. *)
Theorem close_mode_quotes_the_reducing_side (fairPrice n : Q) :
  (0 < fairPrice)%Q ->
  let q := generateQuotes roundToLot cfg mkt fairPrice n in
  let bid := roundDownToTick mkt (fairPrice * (1 - takeProfitBps cfg / 10000)) in
  let ask := roundUpToTick mkt (fairPrice * (1 + takeProfitBps cfg / 10000)) in
  let capped := Qmin (orderSizeUsd cfg) (Qabs n) in
  ((closeThresholdUsd cfg <= Qabs n)%Q -> (0 < n)%Q ->
     bidPrice q = None /\ bidSize q = None
     /\ askPrice q = Some ask
     /\ askSize q = Some (roundToLot (lotSize mkt) (capped / ask))
     /\ askReduceOnly q = true)
  /\ ((closeThresholdUsd cfg <= Qabs n)%Q -> (n < 0)%Q ->
      askPrice q = None /\ askSize q = None
      /\ bidPrice q = Some bid
      /\ bidSize q = Some (roundToLot (lotSize mkt) (capped / bid))
      /\ bidReduceOnly q = true)
  /\ ((Qabs n < closeThresholdUsd cfg)%Q -> (Qabs n < maxPositionUsd cfg)%Q ->
      bidPrice q <> None /\ bidSize q <> None
      /\ askPrice q <> None /\ askSize q <> None).
Proof.
  intros _. cbv zeta. unfold generateQuotes, halfSpread, sizeUsd.
  split; [|split].
  - intros Hclose Hlong.
    apply Qgeb_ge in Hclose. fold (isCloseMode cfg n) in Hclose.
    destruct (long_not_short n Hlong) as [Hl Hs].
    rewrite Hclose, Hl, Hs. cbn [andb orb negb]. repeat split.
  - intros Hclose Hshort.
    apply Qgeb_ge in Hclose. fold (isCloseMode cfg n) in Hclose.
    destruct (short_not_long n Hshort) as [Hs Hl].
    rewrite Hclose, Hl, Hs. cbn [andb orb negb]. repeat split.
  - intros Hnormal Hbelow.
    apply Qgeb_lt in Hnormal. fold (isCloseMode cfg n) in Hnormal.
    apply Qgeb_lt in Hbelow. fold (atMax cfg n) in Hbelow.
    rewrite Hnormal, Hbelow.
    rewrite !andb_false_r. cbn [negb].
    repeat split; discriminate.
Qed.

End Facts.

End QuoterFacts.

(** ** The fair-price estimator *)

Module FairPriceFacts.

Import FairPriceSpec.

Local Open Scope R_scope.

Lemma alpha_range (windowMs dt : R) :
  0 < windowMs -> 0 <= dt -> 0 <= alpha windowMs dt <= 1.
Proof.
  intros Hw Hdt. unfold alpha.
  assert (Hneg : - dt / windowMs <= 0).
  { unfold Rdiv. rewrite <- Ropp_mult_distr_l.
    apply Ropp_le_cancel. rewrite Ropp_involutive, Ropp_0.
    apply Rmult_le_pos; [exact Hdt|].
    apply Rlt_le, Rinv_0_lt_compat. exact Hw. }
  pose proof (exp_pos (- dt / windowMs)) as Hpos.
  assert (Hle : exp (- dt / windowMs) <= 1).
  { destruct Hneg as [Hlt|Heq].
    - rewrite <- exp_0. apply Rlt_le, exp_increasing. exact Hlt.
    - rewrite Heq, exp_0. apply Rle_refl. }
  lra.
Qed.

(** A step towards [p] by a weight in [0, 1] stays between the two. *)
Lemma blend_between (lo hi ema p a : R) :
  lo <= ema <= hi -> lo <= p <= hi -> 0 <= a <= 1 ->
  lo <= ema + a * (p - ema) <= hi.
Proof.
  intros [He1 He2] [Hp1 Hp2] [Ha1 Ha2].
  replace (ema + a * (p - ema)) with ((1 - a) * ema + a * p) by ring.
  split.
  - replace lo with ((1 - a) * lo + a * lo) by ring.
    apply Rplus_le_compat; apply Rmult_le_compat_l; lra.
  - replace hi with ((1 - a) * hi + a * hi) by ring.
    apply Rplus_le_compat; apply Rmult_le_compat_l; lra.
Qed.

(** Once there is an average inside a band, samples inside the band keep
    it there. *)
Lemma feed_keeps_band (windowMs lo hi : R) (samples : list PriceSample) :
  0 < windowMs ->
  forall st ema,
    emaValue st = Some ema ->
    lo <= ema <= hi ->
    arrivals_from (lastSampleTs st) samples ->
    Forall (fun s => lo <= sample_price s <= hi) samples ->
    exists e,
      emaValue (fold_left (onSample windowMs) samples st) = Some e
      /\ lo <= e <= hi.
Proof.
  intros Hw. induction samples as [|s rest IH]; intros st ema Hema Hband Harr Hall.
  - exists ema. simpl. auto.
  - simpl. destruct Harr as [Hdt Harr].
    inversion Hall as [|s' rest' Hs Hrest]; subst.
    apply (IH (onSample windowMs st s)
              (ema + alpha windowMs (sample_ts s - lastSampleTs st)
                     * (sample_price s - ema))).
    + unfold onSample. rewrite Hema. reflexivity.
    + apply blend_between; auto.
      apply alpha_range; [exact Hw | lra].
    + unfold onSample. rewrite Hema. simpl. exact Harr.
    + exact Hrest.
Qed.

Lemma min_price_lower (rest : list PriceSample) :
  forall m,
    fold_left (fun m s => Rmin m (sample_price s)) rest m <= m
    /\ Forall (fun s => fold_left (fun m s => Rmin m (sample_price s)) rest m
                        <= sample_price s) rest.
Proof.
  induction rest as [|s rest IH]; intros m; simpl.
  - split; [apply Rle_refl | constructor].
  - destruct (IH (Rmin m (sample_price s))) as [Hm Hall].
    split.
    + eapply Rle_trans; [exact Hm | apply Rmin_l].
    + constructor; [|exact Hall].
      eapply Rle_trans; [exact Hm | apply Rmin_r].
Qed.

Lemma max_price_upper (rest : list PriceSample) :
  forall m,
    m <= fold_left (fun m s => Rmax m (sample_price s)) rest m
    /\ Forall (fun s => sample_price s
                        <= fold_left (fun m s => Rmax m (sample_price s)) rest m)
              rest.
Proof.
  induction rest as [|s rest IH]; intros m; simpl.
  - split; [apply Rle_refl | constructor].
  - destruct (IH (Rmax m (sample_price s))) as [Hm Hall].
    split.
    + eapply Rle_trans; [apply Rmax_l | exact Hm].
    + constructor; [|exact Hall].
      eapply Rle_trans; [apply Rmax_r | exact Hm].
Qed.

(** C7: for a positive time constant and a non-empty sequence of samples
    whose timestamps never decrease, the EMA after the sequence lies between
    the least and the greatest price of the sequence. Every prefix of such a
    sequence is such a sequence, so the bound holds after each sample for the
    samples seen so far. *)
Theorem ema_stays_within_sample_range
        (windowMs : R) (first : PriceSample) (rest : list PriceSample) :
  0 < windowMs ->
  arrivals_from (sample_ts first) rest ->
  exists e,
    emaValue (feed windowMs (first :: rest)) = Some e
    /\ min_price first rest <= e <= max_price first rest.
Proof.
  intros Hw Harr. unfold feed. simpl.
  destruct (min_price_lower rest (sample_price first)) as [Hlo Hlos].
  destruct (max_price_upper rest (sample_price first)) as [Hhi Hhis].
  apply (feed_keeps_band windowMs _ _ rest Hw
           (onSample windowMs noSamples first) (sample_price first)).
  - reflexivity.
  - split; [exact Hlo | exact Hhi].
  - exact Harr.
  - unfold min_price, max_price.
    rewrite Forall_forall in *. intros s Hs. split; auto.
Qed.

End FairPriceFacts.

(** ** The Aftermath adapter *)

Module AftermathFacts.

Import Aftermath.

Section Facts.

Context {V : Type} {B : Backend V}.

(** Looking a market up never requests a cancellation and keeps the
    wallet. *)
Lemma getChIdForSymbol_frame (sym : string) (st : AState V) :
  cancel_requests (snd (getChIdForSymbol sym st)) = cancel_requests st
  /\ walletAddress (adapter (snd (getChIdForSymbol sym st)))
     = walletAddress (adapter st).
Proof.
  remember (getChIdForSymbol sym st) as res eqn:E.
  unfold getChIdForSymbol, cancel_requests in *.
  unfold bind at 1 in E. unfold self at 1 in E.
  destruct (map_get sym (symbolToChId (adapter st))) as [cached|];
    [destruct (truthy cached); [subst res; simpl; auto|]|];
    unfold bind, send, update, throw, ret in E;
    destruct (getMarketBySymbol sym (backend st)) as [[[m|]|e] v1];
    subst res; simpl; rewrite ?filter_app; simpl; rewrite ?app_nil_r; auto.
Qed.

(** The open orders of one market, found empty: two look-ups and no
    cancellation request. *)
Lemma cancelOpenOrdersOf_empty (chId : string) (st : AState V)
      (cap : AccountCap) (v2 v3 : V) :
  getAccountCap (walletAddress (adapter st)) (backend st) = (Ok cap, v2) ->
  fetchOpenOrders (accountNumber cap) chId v2 = (Ok [], v3) ->
  cancelOpenOrdersOf chId st =
  (Ok tt, {| adapter := adapter st; backend := v3;
             requests := requests st
                         ++ [GetAccountCapReq; FetchOpenOrdersReq chId] |}).
Proof.
  intros Hcap Hfetch. unfold cancelOpenOrdersOf, bind, self, send, ret.
  simpl. rewrite Hcap. simpl. rewrite Hfetch. simpl.
  rewrite <- app_assoc. reflexivity.
Qed.

(** C8: with a symbol given, when the look-ups succeed and the venue reports
    no open order for the symbol's market, [cancelAllOrders] sends no
    cancellation request and returns normally; the orchestrator's wrapper
    then returns normally too, with an empty tracked list. A second call
    right after a first one that left the set empty therefore adds no
    cancellation to those of the first. *)
Theorem cancel_all_on_empty_set_is_a_noop
        (sym : string) (st st1 : AState V) (chId : string)
        (cap : AccountCap) (v2 v3 : V) :
  truthy sym = true ->
  getChIdForSymbol sym st = (Ok chId, st1) ->
  getAccountCap (walletAddress (adapter st1)) (backend st1) = (Ok cap, v2) ->
  fetchOpenOrders (accountNumber cap) chId v2 = (Ok [], v3) ->
  let st' := {| adapter := adapter st1; backend := v3;
                requests := requests st1
                            ++ [GetAccountCapReq; FetchOpenOrdersReq chId] |} in
  cancelAllOrders (Some sym) st = (Ok tt, st')
  /\ cancel_requests st' = cancel_requests st
  /\ (forall (f : MarketMaker.Fields) (log : list Call),
        symbol (MarketMaker.config f) = sym ->
        MarketMaker.cancelAllOrders
          {| MarketMaker.this := f; MarketMaker.world := st;
             MarketMaker.calls := log |}
        = (Ok tt,
           {| MarketMaker.this := MarketMaker.set_currentOrders [] f;
              MarketMaker.world := st';
              MarketMaker.calls := log ++ [CancelAllOrdersReq (Some sym)] |}))
  /\ (forall st0,
        st = snd (cancelAllOrders (Some sym) st0) ->
        fst (cancelAllOrders (Some sym) (snd (cancelAllOrders (Some sym) st0)))
        = Ok tt
        /\ cancel_requests
             (snd (cancelAllOrders (Some sym)
                                   (snd (cancelAllOrders (Some sym) st0))))
           = cancel_requests (snd (cancelAllOrders (Some sym) st0))).
Proof.
  intros Hsym Hch Hcap Hfetch st'.
  assert (Hrun : cancelAllOrders (Some sym) st = (Ok tt, st')).
  { unfold cancelAllOrders. rewrite Hsym. unfold bind at 1. rewrite Hch.
    exact (cancelOpenOrdersOf_empty chId st1 cap v2 v3 Hcap Hfetch). }
  assert (Hnone : cancel_requests st' = cancel_requests st).
  { destruct (getChIdForSymbol_frame sym st) as [Hreq _].
    rewrite Hch in Hreq. simpl in Hreq. rewrite <- Hreq.
    unfold cancel_requests, st'. simpl.
    rewrite filter_app. simpl. apply app_nil_r. }
  split; [exact Hrun|]. split; [exact Hnone|]. split.
  - intros f log Hf.
    rewrite MarketMakerFacts.cancelAllOrders_run. cbv zeta.
    cbn [MarketMaker.this MarketMaker.world MarketMaker.calls].
    rewrite Hf.
    change (Exchange.cancelAllOrders (Some sym) st)
      with (cancelAllOrders (Some sym) st).
    rewrite Hrun. reflexivity.
  - intros st0 Hst0. rewrite <- Hst0, Hrun. simpl. auto.
Qed.

End Facts.

End AftermathFacts.

(** ** Concrete runs of the orchestrator *)

Module Runs.

Import MarketMaker MarketMakerFacts Sim SimVenue.

(** C1, counterexample: with [maxPositionUsd] = 2000 and a long
    position of 2100 the quote generator would quote the ask, but the tick of
    the running bot returns at the at-max guard: no order is placed and the
    venue holds no ask. *)
Lemma at_max_long_ask_is_not_quoted :
  state (this (boot runningBot atMaxWorld)) = running
  /\ PositionSpec.isAtMax defaultConfig 2100 = true
  /\ askPrice (QuoterSpec.generateQuotes floorToLot defaultConfig btc 50000 2100)
     = Some (500250 # 10)
  /\ filter is_place (calls (snd (mainLoopTick (boot runningBot atMaxWorld)))) = []
  /\ sim_venueOrders (world (snd (mainLoopTick (boot runningBot atMaxWorld)))) = [].
Proof. vm_compute. repeat split. Qed.

Lemma at_max_tick_witness :
  calls (snd (mainLoopTick (boot runningBot atMaxWorld)))
  = calls (boot runningBot atMaxWorld)
  /\ world (snd (mainLoopTick (boot runningBot atMaxWorld)))
     = world (boot runningBot atMaxWorld)
  /\ currentOrders (this (snd (mainLoopTick (boot runningBot atMaxWorld))))
     = currentOrders (this (boot runningBot atMaxWorld)).
Proof.
  apply (at_max_tick_quotes_neither_side (boot runningBot atMaxWorld) 2100).
  - reflexivity.
  - unfold Qle. simpl. lia.
Defined.

(** C2, counterexample: the account is under water, equity -1000 and
    available margin 50, so that available margin over equity is -0.05, below
    [minMarginRatio] = 0.1. The running bot is not paused and requests no
    cancellation; and a bot that the breaker has paused, its stored ratio
    still 1, is taken back to [running] by the margin check. *)
Lemma negative_equity_neither_pauses_nor_holds :
  (Float64.div 50 (-1000) < minMarginRatio defaultConfig)%Q
  /\ state (this (boot botWithOrder underwaterWorld)) = running
  /\ state (this (snd (checkMarginRatio (boot botWithOrder underwaterWorld))))
     = running
  /\ calls (snd (checkMarginRatio (boot botWithOrder underwaterWorld)))
     = [GetAccountReq]
  /\ state (this (snd (mainLoopTick (boot botNineErrors noMarketWorld))))
     = paused
  /\ (Float64.div 50 (-1000)
      < Float64.mul (minMarginRatio defaultConfig) (Float64.literal (12 # 10)))%Q
  /\ state (this (snd (checkMarginRatio
                         (elapse (fun _ => underwaterWorld)
                                 (snd (mainLoopTick
                                         (boot botNineErrors noMarketWorld)))))))
     = running.
Proof. vm_compute. repeat split. Qed.

(** With [minMarginRatio] = 0.1: a ratio of 0.08 pauses the running bot,
    cancels the resting bid on the venue and empties the tracked list; a
    ratio of 0.5 changes nothing but the stored ratio; a ratio of 0.12
    resumes the paused bot. With [minMarginRatio] = 0.17 the product
    0.17 * 1.2 is the double just above 0.204, so that the bot stays paused
    at 204 / 1000; and 0.3 / 3 is the double just below 0.1, so that the
    running bot is paused. *)
Lemma margin_pause_witness :
  (ratioAfter {| equity := 1000; availableMargin := 80 |} botWithOrder
   = Float64.div 80 1000
   /\ ratioAfter {| equity := -1000; availableMargin := 50 |} botWithOrder
      = 1)
  /\ checkMarginRatio (boot botWithOrder lowMarginBidWorld)
     = (Ok tt,
        {| this := set_currentOrders []
                     (set_state paused
                        (set_lastMarginRatio (Float64.div 80 1000) botWithOrder));
           world := lowMarginWorld;
           calls := [GetAccountReq; CancelAllOrdersReq (Some "BTC")] |})
  /\ checkMarginRatio (boot botWithOrder quietWorld)
     = (Ok tt,
        {| this := set_lastMarginRatio (Float64.div 500 1000) botWithOrder;
           world := quietWorld; calls := [GetAccountReq] |})
  /\ (exists account w1,
        Exchange.getAccount recoveredWorld = (Ok account, w1)
        /\ lastMarginRatio
             (this (snd (perform MarginCheckTick (boot pausedBot recoveredWorld))))
           = ratioAfter account pausedBot
        /\ (minMarginRatio defaultConfig <= ratioAfter account pausedBot)%Q
        /\ (Float64.mul (minMarginRatio defaultConfig) (Float64.literal (12 # 10))
            <= ratioAfter account pausedBot)%Q)
  /\ checkMarginRatio (boot pausedBot recoveredWorld)
     = (Ok tt,
        {| this := set_state running
                     (set_lastMarginRatio (Float64.div 120 1000) pausedBot);
           world := recoveredWorld; calls := [GetAccountReq] |})
  /\ checkMarginRatio (boot tightPausedBot justBelowWorld)
     = (Ok tt,
        {| this := set_lastMarginRatio (Float64.div 204 1000) tightPausedBot;
           world := justBelowWorld; calls := [GetAccountReq] |})
  /\ state (this (snd (checkMarginRatio (boot runningBot thirdWorld)))) = paused.
Proof.
  pose proof (margin_pause_and_hysteresis (boot botWithOrder lowMarginBidWorld))
    as (Hread & Hpause & _).
  pose proof (margin_pause_and_hysteresis (boot botWithOrder quietWorld))
    as (_ & _ & Hkeep & _).
  pose proof (margin_pause_and_hysteresis (boot pausedBot recoveredWorld))
    as (_ & _ & _ & Honly & Hresume & _).
  pose proof (margin_pause_and_hysteresis (boot tightPausedBot justBelowWorld))
    as (_ & _ & _ & _ & _ & Hstay).
  pose proof (margin_pause_and_hysteresis (boot runningBot thirdWorld))
    as (_ & Hthird & _).
  repeat match goal with |- _ /\ _ => split end.
  - apply (proj1 (Hread {| equity := 1000; availableMargin := 80 |})).
    vm_compute. reflexivity.
  - apply (proj2 (Hread {| equity := -1000; availableMargin := 50 |})).
    vm_compute. discriminate.
  - apply (Hpause {| equity := 1000; availableMargin := 80 |} lowMarginBidWorld).
    + reflexivity.
    + reflexivity.
    + vm_compute. reflexivity.
  - apply (Hkeep {| equity := 1000; availableMargin := 500 |} quietWorld).
    + reflexivity.
    + reflexivity.
    + vm_compute. discriminate.
  - apply (Honly MarginCheckTick).
    + reflexivity.
    + vm_compute. reflexivity.
  - apply (Hresume {| equity := 1000; availableMargin := 120 |} recoveredWorld).
    + reflexivity.
    + reflexivity.
    + vm_compute. discriminate.
    + vm_compute. discriminate.
  - apply (Hstay {| equity := 1000; availableMargin := 204 |} justBelowWorld).
    + reflexivity.
    + reflexivity.
    + right. vm_compute. reflexivity.
  - rewrite (Hthird {| equity := 3; availableMargin := Float64.literal (3 # 10) |}
                    thirdWorld).
    + reflexivity.
    + reflexivity.
    + reflexivity.
    + vm_compute. reflexivity.
Defined.



(** C4, counterexample: the bot is running and tracks no order,
    yet a tick within the throttle window, and a tick at max, cancel and
    place nothing. *)
Lemma empty_list_tick_without_replace :
  state (this (boot botJustUpdated quietWorld)) = running
  /\ currentOrders (this (boot botJustUpdated quietWorld)) = []
  /\ calls (snd (mainLoopTick (boot botJustUpdated quietWorld))) = []
  /\ state (this (boot runningBot atMaxWorld)) = running
  /\ currentOrders (this (boot runningBot atMaxWorld)) = []
  /\ calls (snd (mainLoopTick (boot runningBot atMaxWorld))) = [].
Proof. vm_compute. repeat split. Qed.

(** A flat bot at fair price 50000: with no tracked order the tick cancels
    and places both sides; with a tracked order that is not stale it does
    nothing. *)
Lemma replace_witness :
  ((currentOrders (this (boot runningBot quietWorld)) = []
    \/ exists o, In o (currentOrders (this (boot runningBot quietWorld)))
                 /\ (fun _ : Order => false) o = true)
   <->
   calls (snd (runMainLoop (boot runningBot quietWorld)))
   = calls (boot runningBot quietWorld)
     ++ CancelAllOrdersReq (Some "BTC")
        :: map PlaceOrderReq
             (QuoterSpec.quoteToOrders defaultConfig
                (QuoterSpec.generateQuotes floorToLot defaultConfig btc 50000 0)))
  /\ (calls (snd (runMainLoop (boot botWithOrder quietWorld)))
      = calls (boot botWithOrder quietWorld)
      /\ calls (snd (mainLoopTick (boot botWithOrder quietWorld)))
         = calls (boot botWithOrder quietWorld)).
Proof.
  split.
  - apply (proj1 (replaces_iff_empty_or_stale (boot runningBot quietWorld))
                 50000%Q 0%Q
                 (QuoterSpec.generateQuotes floorToLot defaultConfig btc 50000 0)
                 (fun _ => false)).
    + unfold quoting. simpl. repeat split; try reflexivity. lia.
    + simpl. intros o [].
    + reflexivity.
  - apply (proj2 (replaces_iff_empty_or_stale (boot botWithOrder quietWorld))).
    + simpl. discriminate.
    + simpl. intros o p _. discriminate.
Defined.

(** C5, counterexample: when the venue rejects the orderbook
    unsubscribe, [stop] never requests the exchange disconnect. *)
Lemma failed_unsubscribe_skips_disconnect :
  fst (Exchange.unsubscribeOrderbook "BTC" noUnsubscribeWorld)
  = Throw "rejected"
  /\ calls (snd (stop (boot runningBot noUnsubscribeWorld)))
     = [CancelAllOrdersReq (Some "BTC"); UnsubscribeOrderbookReq "BTC";
        FeedDisconnectReq]
  /\ ~ In ExchangeDisconnectReq
          (calls (snd (stop (boot runningBot noUnsubscribeWorld)))).
Proof.
  vm_compute. repeat split.
  intros [H|[H|[H|[]]]]; discriminate H.
Qed.

Lemma stop_witness :
  is_ok (fst (Exchange.cancelAllOrders (Some "BTC") quietWorld)) = true
  /\ currentOrders (this (snd (stop (boot botWithOrder quietWorld)))) = []
  /\ state (this (snd (stop (boot botWithOrder quietWorld)))) = stopped.
Proof.
  pose proof (stop_cleans_up_in_three_groups (boot botWithOrder quietWorld))
    as H.
  cbv zeta in H.
  destruct H as (_ & Hstopped & _ & _ & _ & _ & Hempty & _).
  split; [reflexivity|].
  split; [apply Hempty; reflexivity | exact Hstopped].
Defined.

(** The tenth error trips the breaker: paused, nothing requested; the
    margin pause requests the cancel. *)
Lemma breaker_witness :
  handleError (boot botNineErrors quietWorld)
  = (Ok tt,
     {| this := set_state paused (set_errorCount 10 botNineErrors);
        world := quietWorld; calls := [] |})
  /\ state (this (snd (checkMarginRatio (boot runningBot lowMarginWorld))))
     = paused
  /\ calls (snd (checkMarginRatio (boot runningBot lowMarginWorld)))
     = [GetAccountReq; CancelAllOrdersReq (Some "BTC")].
Proof.
  split.
  - apply (breaker_pause_cancels_nothing (boot botNineErrors quietWorld)).
    simpl. lia.
  - apply (proj2 (breaker_pause_cancels_nothing
                    (boot botNineErrors lowMarginWorld)
                    ltac:(simpl; lia))
                 {| equity := 1000; availableMargin := 80 |} lowMarginWorld).
    + reflexivity.
    + reflexivity.
    + vm_compute. reflexivity.
Defined.

(** An account with no equity: the stored ratio, 1, stays and the running
    bot keeps running. *)
Lemma guarded_division_witness :
  lastMarginRatio (this (snd (checkMarginRatio (boot runningBot noEquityWorld))))
  = lastMarginRatio (this (boot runningBot noEquityWorld))
  /\ state (this (snd (checkMarginRatio (boot runningBot noEquityWorld))))
     = marginDecision (lastMarginRatio (this (boot runningBot noEquityWorld)))
                      (this (boot runningBot noEquityWorld)).
Proof.
  assert (Hacc : Exchange.getAccount (world (boot runningBot noEquityWorld))
                 = (Ok {| equity := 0; availableMargin := 50 |}, noEquityWorld))
    by reflexivity.
  apply (proj1 (proj2 (margin_ratio_division_is_guarded
                         (boot runningBot noEquityWorld) _ _ Hacc))).
  unfold Qle. simpl. lia.
Defined.

(** The adapter against a venue holding one bid on BTC: the first call
    cancels it, the second finds the set empty and cancels nothing more. *)
Lemma cancel_twice_witness :
  Aftermath.cancel_requests
    (snd (Aftermath.cancelAllOrders (Some "BTC") (SimVenue.start SimVenue.venueWithBid)))
  = [Aftermath.CancelOrdersReq "0xbtc" ["1"]]
  /\ fst (Aftermath.cancelAllOrders (Some "BTC")
            (snd (Aftermath.cancelAllOrders
                    (Some "BTC") (SimVenue.start SimVenue.venueWithBid))))
     = Ok tt
  /\ Aftermath.cancel_requests
       (snd (Aftermath.cancelAllOrders (Some "BTC")
               (snd (Aftermath.cancelAllOrders
                       (Some "BTC") (SimVenue.start SimVenue.venueWithBid)))))
     = Aftermath.cancel_requests
         (snd (Aftermath.cancelAllOrders
                 (Some "BTC") (SimVenue.start SimVenue.venueWithBid))).
Proof.
  split; [vm_compute; reflexivity|].
  pose (st := snd (Aftermath.cancelAllOrders
                     (Some "BTC") (SimVenue.start SimVenue.venueWithBid))).
  assert (Hsym : Aftermath.truthy "BTC" = true) by reflexivity.
  assert (Hch : Aftermath.getChIdForSymbol "BTC" st = (Ok "0xbtc", st))
    by (vm_compute; reflexivity).
  assert (Hcap : Aftermath.getAccountCap
                   (Aftermath.walletAddress (Aftermath.adapter st))
                   (Aftermath.backend st)
                 = (Ok {| Aftermath.accountNumber := 7 |}, Aftermath.backend st))
    by (vm_compute; reflexivity).
  assert (Hfetch : Aftermath.fetchOpenOrders
                     (Aftermath.accountNumber {| Aftermath.accountNumber := 7 |})
                     "0xbtc" (Aftermath.backend st)
                   = (Ok [], Aftermath.backend st))
    by (vm_compute; reflexivity).
  exact (proj2 (proj2 (proj2
           (AftermathFacts.cancel_all_on_empty_set_is_a_noop
              "BTC" st st "0xbtc" _ _ _ Hsym Hch Hcap Hfetch)))
           (SimVenue.start SimVenue.venueWithBid) eq_refl).
Defined.

(** The scenario of the specification: [closeThresholdUsd] = 500 and a long
    position of 600 gives the ask only, reduce-only, sized from
    min(100, 600); a short one gives the bid only; 100 gives both sides. *)
Lemma close_mode_witness :
  (bidPrice (QuoterSpec.generateQuotes floorToLot defaultConfig btc 50000 600)
   = None
   /\ askSize (QuoterSpec.generateQuotes floorToLot defaultConfig btc 50000 600)
      = Some (floorToLot (lotSize btc)
                (Qmin 100 (Qabs 600)
                 / QuoterSpec.roundUpToTick btc (50000 * (1 + 5 / 10000))))
   /\ askReduceOnly
        (QuoterSpec.generateQuotes floorToLot defaultConfig btc 50000 600)
      = true)
  /\ (askPrice (QuoterSpec.generateQuotes floorToLot defaultConfig btc 50000 (-600))
      = None
      /\ bidReduceOnly
           (QuoterSpec.generateQuotes floorToLot defaultConfig btc 50000 (-600))
         = true)
  /\ (bidPrice (QuoterSpec.generateQuotes floorToLot defaultConfig btc 50000 100)
      <> None
      /\ askPrice (QuoterSpec.generateQuotes floorToLot defaultConfig btc 50000 100)
         <> None).
Proof.
  assert (Hfair : (0 < 50000)%Q) by (unfold Qlt; simpl; lia).
  split; [|split].
  - destruct (proj1 (QuoterFacts.close_mode_quotes_the_reducing_side
                       floorToLot defaultConfig btc 50000 600 Hfair))
      as (Hb & _ & _ & Hsz & Hro).
    + unfold Qle. simpl. lia.
    + unfold Qlt. simpl. lia.
    + repeat split; assumption.
  - destruct (proj1 (proj2 (QuoterFacts.close_mode_quotes_the_reducing_side
                              floorToLot defaultConfig btc 50000 (-600) Hfair)))
      as (Ha & _ & _ & _ & Hro).
    + unfold Qle. simpl. lia.
    + unfold Qlt. simpl. lia.
    + split; assumption.
  - destruct (proj2 (proj2 (QuoterFacts.close_mode_quotes_the_reducing_side
                              floorToLot defaultConfig btc 50000 100 Hfair)))
      as (Hb & _ & Ha & _).
    + unfold Qlt. simpl. lia.
    + unfold Qlt. simpl. lia.
    + split; assumption.
Defined.

(** Two samples one second apart, 100 then 110, with a window of one
    second. *)
Lemma ema_witness :
  exists e : R,
    FairPriceSpec.emaValue
      (FairPriceSpec.feed 1000
         [ {| FairPriceSpec.sample_ts := 0; FairPriceSpec.sample_price := 100 |};
           {| FairPriceSpec.sample_ts := 1000;
              FairPriceSpec.sample_price := 110 |} ])
    = Some e
    /\ (FairPriceSpec.min_price
          {| FairPriceSpec.sample_ts := 0; FairPriceSpec.sample_price := 100 |}
          [ {| FairPriceSpec.sample_ts := 1000;
               FairPriceSpec.sample_price := 110 |} ]
        <= e
        <= FairPriceSpec.max_price
             {| FairPriceSpec.sample_ts := 0; FairPriceSpec.sample_price := 100 |}
             [ {| FairPriceSpec.sample_ts := 1000;
                  FairPriceSpec.sample_price := 110 |} ])%R.
Proof.
  apply (FairPriceFacts.ema_stays_within_sample_range
           1000%R
           {| FairPriceSpec.sample_ts := 0; FairPriceSpec.sample_price := 100 |}
           [ {| FairPriceSpec.sample_ts := 1000;
                FairPriceSpec.sample_price := 110 |} ]).
  - lra.
  - simpl. split; [lra | exact I].
Defined.

End Runs.

(** ** The Aftermath adapter: cache, look-up failures, connect and disconnect *)

Module AftermathRestFacts.

Import Aftermath AftermathRest.

Lemma map_get_set_eq (k v : string) (m : StrMap) :
  map_get k (map_set k v m) = Some v.
Proof.
  induction m as [|[k' v'] rest IH]; simpl.
  - rewrite String.eqb_refl. reflexivity.
  - destruct (String.eqb k k') eqn:E; simpl.
    + rewrite String.eqb_refl. reflexivity.
    + rewrite E. exact IH.
Qed.

Lemma map_get_set_neq (k k' v : string) (m : StrMap) :
  k <> k' -> map_get k (map_set k' v m) = map_get k m.
Proof.
  intros Hne. induction m as [|[k0 v0] rest IH]; simpl.
  - destruct (String.eqb k k') eqn:E; [|reflexivity].
    apply String.eqb_eq in E. contradiction.
  - destruct (String.eqb k' k0) eqn:E0; simpl.
    + apply String.eqb_eq in E0. subst k0.
      destruct (String.eqb k k') eqn:E; [|reflexivity].
      apply String.eqb_eq in E. contradiction.
    + destruct (String.eqb k k0); [reflexivity | exact IH].
Qed.

Section Facts.

Context {V : Type} {B : Backend V} {R : BackendRest V}.

Lemma getChIdForSymbol_hit (sym cached : string) (st : AState V) :
  map_get sym (symbolToChId (adapter st)) = Some cached ->
  truthy cached = true ->
  getChIdForSymbol sym st = (Ok cached, st).
Proof.
  intros Hget Ht. unfold getChIdForSymbol, bind, self.
  rewrite Hget, Ht. reflexivity.
Qed.

Lemma getChIdForSymbol_miss (sym : string) (st : AState V) :
  cache_miss sym st ->
  getChIdForSymbol sym st =
  match fst (getMarketBySymbol sym (backend st)) with
  | Ok (Some m) =>
      (Ok (market_id m),
       {| adapter :=
            set_symbolToChId
              (map_set (market_base m) (market_id m)
                 (map_set sym (market_id m) (symbolToChId (adapter st))))
              (adapter st);
          backend := snd (getMarketBySymbol sym (backend st));
          requests := requests st ++ [GetMarketBySymbolReq sym] |})
  | Ok None => (Throw ("Market not found for symbol: " ++ sym), looked_up sym st)
  | Throw e => (Throw e, looked_up sym st)
  end.
Proof.
  unfold cache_miss, looked_up, getChIdForSymbol. intros Hmiss.
  unfold bind at 1. unfold self at 1.
  destruct (map_get sym (symbolToChId (adapter st))) as [cached|];
    [rewrite Hmiss|];
    unfold bind, send, update, throw, ret;
    destruct (getMarketBySymbol sym (backend st)) as [[[m|]|e] v1];
    reflexivity.
Qed.

(** What a successful look-up leaves in the cache. *)
Lemma resolved_entry (sym chId : string) (st st1 : AState V) :
  getChIdForSymbol sym st = (Ok chId, st1) ->
  map_get sym (symbolToChId (adapter st1)) = Some chId
  /\ (forall m v1,
        cache_miss sym st ->
        getMarketBySymbol sym (backend st) = (Ok (Some m), v1) ->
        map_get (market_base m) (symbolToChId (adapter st1)) = Some chId).
Proof.
  intros Hrun.
  assert (Hcases : (exists cached,
                      map_get sym (symbolToChId (adapter st)) = Some cached
                      /\ truthy cached = true)
                   \/ cache_miss sym st).
  { unfold cache_miss.
    destruct (map_get sym (symbolToChId (adapter st))) as [cached|]; [|auto].
    destruct (truthy cached) eqn:E; eauto. }
  destruct Hcases as [(cached & Hget & Hc)|Hmiss].
  - rewrite (getChIdForSymbol_hit sym cached st Hget Hc) in Hrun.
    injection Hrun as <- <-. split; [exact Hget|].
    intros m v1 Hmiss _. unfold cache_miss in Hmiss.
    rewrite Hget in Hmiss. congruence.
  - rewrite (getChIdForSymbol_miss sym st Hmiss) in Hrun.
    destruct (getMarketBySymbol sym (backend st)) as [[[m|]|e] v1] eqn:Hm;
      simpl in Hrun; try discriminate.
    injection Hrun as <- <-. simpl. split.
    + destruct (string_dec sym (market_base m)) as [->|Hne].
      * apply map_get_set_eq.
      * rewrite map_get_set_neq by exact Hne. apply map_get_set_eq.
    + intros m' v1' _ Hm'. injection Hm' as <- <-. apply map_get_set_eq.
Qed.

(** X1: a look-up that succeeded with a non-empty id is answered from the
    cache from then on: asked again, for the symbol or for the base of the
    market found, the adapter returns the same id, sends nothing and changes
    nothing. *)
Theorem resolved_symbol_is_cached (sym chId : string) (st st1 : AState V) :
  getChIdForSymbol sym st = (Ok chId, st1) ->
  truthy chId = true ->
  getChIdForSymbol sym st1 = (Ok chId, st1)
  /\ (forall m v1,
        cache_miss sym st ->
        getMarketBySymbol sym (backend st) = (Ok (Some m), v1) ->
        getChIdForSymbol (market_base m) st1 = (Ok chId, st1)).
Proof.
  intros Hrun Ht. destruct (resolved_entry sym chId st st1 Hrun) as [Hs Hb].
  split.
  - apply getChIdForSymbol_hit; assumption.
  - intros m v1 Hmiss Hm. apply getChIdForSymbol_hit; [|exact Ht].
    exact (Hb m v1 Hmiss Hm).
Qed.

(** X2: when the cache has no usable entry for a symbol and the venue knows
    no market for it, every method that needs the market throws "Market not
    found for symbol: ..." after that one look-up: no order is placed,
    fetched or cancelled, no callback is registered and the cache stays as it
    was. [unsubscribeOrderbook] alone swallows the error: it returns normally
    and leaves the callback registered. *)
Theorem unknown_market_stops_every_method
        (sym : string) (st : AState V) (v1 : V) :
  truthy sym = true ->
  cache_miss sym st ->
  getMarketBySymbol sym (backend st) = (Ok None, v1) ->
  let msg := ("Market not found for symbol: " ++ sym)%string in
  (forall order, req_symbol order = sym ->
     placeOrder order st = (Throw msg, looked_up sym st))
  /\ getOpenOrders (Some sym) st = (Throw msg, looked_up sym st)
  /\ cancelAllOrders (Some sym) st = (Throw msg, looked_up sym st)
  /\ (forall orderId,
        cancelOrder orderId (Some sym) st = (Throw msg, looked_up sym st))
  /\ subscribeOrderbook sym st = (Throw msg, looked_up sym st)
  /\ unsubscribeOrderbook sym st = (Ok tt, looked_up sym st).
Proof.
  intros Hsym Hmiss Hm. cbv zeta.
  pose proof (getChIdForSymbol_miss sym st Hmiss) as Hrun.
  rewrite Hm in Hrun. simpl in Hrun.
  repeat match goal with |- _ /\ _ => split end.
  - intros order <-. unfold placeOrder, bind. rewrite Hrun. reflexivity.
  - unfold getOpenOrders. unfold bind at 1. unfold self at 1.
    rewrite Hsym. unfold bind at 1. rewrite Hrun. reflexivity.
  - unfold cancelAllOrders. rewrite Hsym. unfold bind at 1.
    rewrite Hrun. reflexivity.
  - intros orderId. unfold cancelOrder. rewrite Hsym. unfold bind at 1.
    rewrite Hrun. reflexivity.
  - unfold subscribeOrderbook, try_catch. unfold bind at 1.
    rewrite Hrun. reflexivity.
  - unfold unsubscribeOrderbook, try_catch. unfold bind at 1.
    rewrite Hrun. reflexivity.
Qed.

Lemma seen_In (x : string) (seen : list string) :
  existsb (String.eqb x) seen = true <-> In x seen.
Proof.
  rewrite existsb_exists. split.
  - intros [y [Hy E]]. apply String.eqb_eq in E. subst. exact Hy.
  - intros H. exists x. split; [exact H | apply String.eqb_refl].
Qed.






(** X4: [disconnect] sends no request and keeps the wallet. If tearing the
    orderbook subscriptions down fails, the error is thrown on and the
    adapter keeps its fields: it still reports connected and still holds its
    caches. If the call returns normally the adapter is disconnected with
    empty caches, so that the next look-up of any symbol asks the venue
    again. *)
Theorem disconnect_clears_or_keeps (st : AState V) :
  requests (snd (disconnect st)) = requests st
  /\ walletAddress (adapter (snd (disconnect st))) = walletAddress (adapter st)
  /\ (forall e v1,
        subscription_disconnect (backend st) = (Throw e, v1) ->
        fst (disconnect st) = Throw e
        /\ adapter (snd (disconnect st)) = adapter st)
  /\ (fst (disconnect st) = Ok tt ->
      connected (snd (disconnect st)) = false
      /\ symbolToChId (adapter (snd (disconnect st))) = []
      /\ orderbookCallbacks (adapter (snd (disconnect st))) = []
      /\ forall sym,
           requests (snd (getChIdForSymbol sym (snd (disconnect st))))
           = requests st ++ [GetMarketBySymbolReq sym]).
Proof.
  unfold disconnect, try_catch, bind, local, update, throw, connected.
  destruct (subscription_disconnect (backend st)) as [[[]|e] v1]; simpl.
  - destruct (clearAccountCache v1) as [[[]|e] v2]; simpl.
    + repeat match goal with |- _ /\ _ => split end; auto.
      * intros e v1' H. discriminate.
      * intros _. repeat split.
        intros sym. rewrite getChIdForSymbol_miss by exact I. simpl.
        destruct (getMarketBySymbol sym v2) as [[[m|]|e] v3]; reflexivity.
    + repeat match goal with |- _ /\ _ => split end; auto.
      * intros e' v1' H. discriminate.
      * discriminate.
  - repeat match goal with |- _ /\ _ => split end; auto.
    + intros e' v1' H. injection H as <- <-. auto.
    + discriminate.
Qed.

Lemma cache_markets_run (markets : list Market) (st : AState V) :
  for_of markets cacheMarket st =
  (Ok tt,
   {| adapter := set_symbolToChId
                   (fold_left cache_both markets (symbolToChId (adapter st)))
                   (adapter st);
      backend := backend st; requests := requests st |}).
Proof.
  revert st. induction markets as [|m rest IH]; intros st.
  - simpl. unfold ret. destruct st as [[w c k b] v r]. reflexivity.
  - simpl. unfold bind at 1. unfold cacheMarket at 1.
    unfold bind, update. rewrite IH. reflexivity.
Qed.

(** After caching a list of markets a name maps to the id of the last
    market of the list that bears it, and a name that no market of the list
    bears maps to what it did. *)
Lemma cache_lookup (markets : list Market) (c : StrMap) (k : string) :
  map_get k (fold_left cache_both markets c)
  = match lastBearing k markets with
    | Some m => Some (market_id m)
    | None => map_get k c
    end.
Proof.
  unfold lastBearing.
  induction markets as [|m rest IH] using rev_ind.
  - reflexivity.
  - rewrite fold_left_app, rev_app_distr. cbn [fold_left rev app find].
    unfold cache_both at 1. unfold bears at 1.
    destruct (String.eqb k (market_base m)) eqn:Eb.
    + apply String.eqb_eq in Eb. subst k.
      rewrite map_get_set_eq, orb_true_r. reflexivity.
    + apply String.eqb_neq in Eb. rewrite map_get_set_neq by exact Eb.
      rewrite orb_false_r.
      destruct (String.eqb k (market_symbol m)) eqn:Es.
      * apply String.eqb_eq in Es. subst k.
        rewrite map_get_set_eq. reflexivity.
      * apply String.eqb_neq in Es. rewrite map_get_set_neq by exact Es.
        exact IH.
Qed.

Lemma lastBearing_some (markets : list Market) (k : string) (m : Market) :
  lastBearing k markets = Some m ->
  In m markets /\ (k = market_symbol m \/ k = market_base m).
Proof.
  unfold lastBearing. intros H. apply find_some in H.
  destruct H as [Hin Hb]. split; [apply in_rev; exact Hin|].
  unfold bears in Hb. apply orb_true_iff in Hb.
  destruct Hb as [Hb|Hb]; apply String.eqb_eq in Hb; auto.
Qed.

Lemma lastBearing_found (markets : list Market) (k : string) (m : Market) :
  In m markets -> k = market_symbol m \/ k = market_base m ->
  exists m', lastBearing k markets = Some m'.
Proof.
  intros Hin Hk. unfold lastBearing.
  destruct (find (bears k) (rev markets)) as [m'|] eqn:E; [eauto|].
  exfalso. apply in_rev in Hin.
  pose proof (find_none _ _ E m Hin) as Hb.
  unfold bears in Hb. apply orb_false_iff in Hb. destruct Hb as [Hs Hb].
  apply String.eqb_neq in Hs. apply String.eqb_neq in Hb.
  destruct Hk; contradiction.
Qed.

Lemma connect_run (st : AState V) :
  connect st =
  match getAccountCap (walletAddress (adapter st)) (backend st) with
  | (Throw e, v1) =>
      (Throw e, {| adapter := adapter st; backend := v1;
                   requests := requests st ++ [GetAccountCapReq] |})
  | (Ok _, v1) =>
      match fetchMarkets v1 with
      | (Throw e, v2) =>
          (Throw e, {| adapter := adapter st; backend := v2;
                       requests := requests st ++ [GetAccountCapReq] |})
      | (Ok markets, v2) =>
          (Ok tt,
           {| adapter :=
                set_connected true
                  (set_symbolToChId
                     (fold_left cache_both markets (symbolToChId (adapter st)))
                     (adapter st));
              backend := v2;
              requests := requests st ++ [GetAccountCapReq] |})
      end
  end.
Proof.
  unfold connect, try_catch. unfold bind at 1. unfold self at 1.
  unfold bind at 1. unfold send at 1.
  destruct (getAccountCap _ (backend st)) as [[cap|e] v1]; [|reflexivity].
  unfold bind at 1. unfold getMarkets, local. cbn [backend].
  destruct (fetchMarkets v1) as [[markets|e] v2]; [|reflexivity].
  unfold bind at 1. rewrite cache_markets_run. reflexivity.
Qed.

(** X5: [connect] throws on what the account check or the market fetch
    throws and then leaves the adapter's fields as they were (in particular
    not connected if it was not). When both succeed the adapter is connected
    and the cache maps every name to the id of the last fetched market that
    bears it as symbol or base, later markets overwriting earlier ones; a
    name that no fetched market bears keeps its entry. So every fetched
    market's symbol and base resolve from the cache, and with a non-empty id
    such a look-up sends nothing. *)
Theorem connect_caches_every_market (st : AState V) :
  (forall e v1,
      getAccountCap (walletAddress (adapter st)) (backend st) = (Throw e, v1) ->
      fst (connect st) = Throw e /\ adapter (snd (connect st)) = adapter st)
  /\ (forall cap v1 e v2,
        getAccountCap (walletAddress (adapter st)) (backend st) = (Ok cap, v1) ->
        fetchMarkets v1 = (Throw e, v2) ->
        fst (connect st) = Throw e /\ adapter (snd (connect st)) = adapter st)
  /\ (forall cap v1 markets v2,
        getAccountCap (walletAddress (adapter st)) (backend st) = (Ok cap, v1) ->
        fetchMarkets v1 = (Ok markets, v2) ->
        fst (connect st) = Ok tt
        /\ connected (snd (connect st)) = true
        /\ (forall k,
              map_get k (symbolToChId (adapter (snd (connect st))))
              = match lastBearing k markets with
                | Some m' => Some (market_id m')
                | None => map_get k (symbolToChId (adapter st))
                end)
        /\ forall m k,
             In m markets ->
             k = market_symbol m \/ k = market_base m ->
             exists m',
               lastBearing k markets = Some m'
               /\ In m' markets
               /\ (k = market_symbol m' \/ k = market_base m')
               /\ map_get k (symbolToChId (adapter (snd (connect st))))
                  = Some (market_id m')
               /\ (truthy (market_id m') = true ->
                   getChIdForSymbol k (snd (connect st))
                   = (Ok (market_id m'), snd (connect st)))).
Proof.
  split; [|split].
  - intros e v1 Hcap. rewrite connect_run, Hcap. auto.
  - intros cap v1 e v2 Hcap Hm. rewrite connect_run, Hcap, Hm. auto.
  - intros cap v1 markets v2 Hcap Hm. rewrite connect_run, Hcap, Hm.
    unfold connected. simpl. split; [reflexivity|]. split; [reflexivity|].
    split; [intros k; apply cache_lookup|].
    intros m k Hin Hk.
    destruct (lastBearing_found markets k m Hin Hk) as [m' Hlast].
    destruct (lastBearing_some markets k m' Hlast) as [Hin' Hk'].
    assert (Hget : map_get k (fold_left cache_both markets
                                        (symbolToChId (adapter st)))
                   = Some (market_id m'))
      by (rewrite cache_lookup, Hlast; reflexivity).
    exists m'. repeat split; auto.
    intros Ht. apply getChIdForSymbol_hit; [exact Hget | exact Ht].
Qed.

Lemma keys_set_In (k : string) (keys : list string) : In k (keys_set k keys).
Proof.
  unfold keys_set. destruct (existsb (String.eqb k) keys) eqn:E.
  - apply seen_In. exact E.
  - apply in_or_app. right. left. reflexivity.
Qed.

(** Once the market is resolved the symbol's callback goes and the others
    stay, whatever the subscription manager answers. *)
Lemma unsubscribe_removes (sym chId : string) (st st1 : AState V) (k : string) :
  getChIdForSymbol sym st = (Ok chId, st1) ->
  In k (orderbookCallbacks (adapter (snd (unsubscribeOrderbook sym st))))
  <-> In k (orderbookCallbacks (adapter st1)) /\ k <> sym.
Proof.
  intros Hrun.
  unfold unsubscribeOrderbook, try_catch. unfold bind at 1. rewrite Hrun.
  unfold bind, update, local, ret. simpl.
  destruct (subscription_unsubscribeOrderbook chId (backend st1))
    as [[[]|e] v2]; simpl; rewrite filter_In, negb_true_iff, String.eqb_neq;
    reflexivity.
Qed.

Lemma subscribe_run (sym chId : string) (st st1 : AState V) :
  getChIdForSymbol sym st = (Ok chId, st1) ->
  subscribeOrderbook sym st =
  (fst (subscription_subscribeOrderbook chId (backend st1)),
   {| adapter := set_orderbookCallbacks
                   (keys_set sym (orderbookCallbacks (adapter st1)))
                   (adapter st1);
      backend := snd (subscription_subscribeOrderbook chId (backend st1));
      requests := requests st1 |}).
Proof.
  intros Hrun.
  unfold subscribeOrderbook, try_catch. unfold bind at 1. rewrite Hrun.
  unfold bind, update, local, throw. simpl.
  destruct (subscription_subscribeOrderbook chId (backend st1))
    as [[[]|e] v2]; reflexivity.
Qed.

Lemma unsubscribe_returns (sym : string) (st : AState V) :
  fst (unsubscribeOrderbook sym st) = Ok tt.
Proof.
  unfold unsubscribeOrderbook, try_catch. unfold bind at 1.
  destruct (getChIdForSymbol sym st) as [[chId|e] st1]; [|reflexivity].
  unfold bind, update, local, ret. simpl.
  destruct (subscription_unsubscribeOrderbook chId _) as [[[]|e] v2];
    reflexivity.
Qed.

(** X6: [unsubscribeOrderbook] never throws. Once the market is resolved it
    removes the symbol's callback and keeps the others, also when the
    subscription manager then fails. A subscription that succeeded has
    registered the symbol, and with a non-empty market id an unsubscribe
    right after it leaves the symbol unregistered. *)
Theorem unsubscribe_never_throws (sym : string) (st : AState V) :
  fst (unsubscribeOrderbook sym st) = Ok tt
  /\ (forall chId st1 k,
        getChIdForSymbol sym st = (Ok chId, st1) ->
        In k (orderbookCallbacks (adapter (snd (unsubscribeOrderbook sym st))))
        <-> In k (orderbookCallbacks (adapter st1)) /\ k <> sym)
  /\ (forall chId st1,
        getChIdForSymbol sym st = (Ok chId, st1) ->
        truthy chId = true ->
        fst (subscribeOrderbook sym st) = Ok tt ->
        In sym (orderbookCallbacks (adapter (snd (subscribeOrderbook sym st))))
        /\ ~ In sym (orderbookCallbacks
                       (adapter (snd (unsubscribeOrderbook
                                        sym (snd (subscribeOrderbook sym st))))))).
Proof.
  split; [|split].
  - apply unsubscribe_returns.
  - intros chId st1 k Hrun. exact (unsubscribe_removes sym chId st st1 k Hrun).
  - intros chId st1 Hrun Ht.
    destruct (resolved_entry sym chId st st1 Hrun) as [Hentry _].
    rewrite (subscribe_run sym chId st st1 Hrun). cbn [fst snd].
    intros _. cbn [adapter orderbookCallbacks set_orderbookCallbacks].
    split; [apply keys_set_In|].
    intros Hin.
    match type of Hin with
    | In _ (orderbookCallbacks (adapter (snd (unsubscribeOrderbook sym ?s)))) =>
        apply (unsubscribe_removes sym chId s s sym) in Hin;
          [|apply getChIdForSymbol_hit; [exact Hentry | exact Ht]]
    end.
    destruct Hin as [_ Hne]. apply Hne. reflexivity.
Qed.

End Facts.

End AftermathRestFacts.

(** ** The Hyperliquid adapter *)

Module HyperliquidFacts.

Import Hyperliquid.

Lemma slash_prefix (c : ascii) (rest : string) :
  String.prefix "/" (String c rest) = Ascii.eqb c "/"%char.
Proof.
  cbn [String.prefix]. destruct (ascii_dec "/"%char c) as [<-|Hne].
  - rewrite Ascii.eqb_refl. destruct rest; reflexivity.
  - symmetry. apply Ascii.eqb_neq. congruence.
Qed.

Lemma no_slash_splitHead (s : string) :
  includes s "/" = false -> splitHead s = s.
Proof.
  induction s as [|c rest IH]; [reflexivity|].
  cbn [includes]. rewrite slash_prefix. intros H.
  apply orb_false_iff in H. destruct H as [Hc Hrest].
  simpl. rewrite Hc. rewrite (IH Hrest). reflexivity.
Qed.

(** The test for a slash is redundant: the base is what stands before the
    first slash, or the whole symbol. *)
Lemma baseOf_splitHead (s : string) : baseOf s = splitHead s.
Proof.
  unfold baseOf. destruct (includes s "/") eqn:E; [reflexivity|].
  symmetry. apply no_slash_splitHead. exact E.
Qed.

Lemma splitHead_no_slash (s : string) : includes (splitHead s) "/" = false.
Proof.
  induction s as [|c rest IH]; [reflexivity|].
  simpl. destruct (Ascii.eqb c "/"%char) eqn:E; [reflexivity|].
  cbn [includes]. rewrite slash_prefix, E, IH. reflexivity.
Qed.

Lemma splitHead_pair (base rest : string) :
  includes base "/" = false ->
  splitHead (base ++ String "/"%char rest) = base.
Proof.
  induction base as [|c b IH].
  - intros _. reflexivity.
  - cbn [includes]. rewrite slash_prefix. intros H.
    apply orb_false_iff in H. destruct H as [Hc Hb].
    simpl. rewrite Hc, (IH Hb). reflexivity.
Qed.

Lemma baseOf_empty (s : string) :
  baseOf s = "" <-> s = "" \/ exists rest, s = String "/"%char rest.
Proof.
  rewrite baseOf_splitHead. destruct s as [|c rest]; simpl.
  - split; auto.
  - destruct (Ascii.eqb c "/"%char) eqn:E.
    + apply Ascii.eqb_eq in E. subst c. split; eauto.
    + split; [discriminate|].
      intros [H|[r H]]; [discriminate|].
      injection H as -> _. rewrite Ascii.eqb_refl in E. discriminate.
Qed.

Section Facts.

Context {V : Type} {B : Backend V}.

Lemma hl_subscribe_run (sym : string) (s : HState V) :
  baseOf sym <> "" ->
  subscribeOrderbook sym s =
  (fst (subscription_subscribeOrderbook (baseOf sym) (backend s)),
   {| adapter :=
        {| orderbookCallbacks :=
             AftermathRest.keys_set (baseOf sym) (orderbookCallbacks (adapter s));
           _connected := _connected (adapter s) |};
      backend := snd (subscription_subscribeOrderbook (baseOf sym) (backend s)) |}).
Proof.
  intros Hne. unfold subscribeOrderbook.
  apply String.eqb_neq in Hne. rewrite Hne.
  unfold bind, update, try_catch, call, throw. simpl.
  destruct (subscription_subscribeOrderbook (baseOf sym) (backend s))
    as [[[]|e] v1]; reflexivity.
Qed.

Lemma hl_unsubscribe_run (sym : string) (s : HState V) :
  baseOf sym <> "" ->
  unsubscribeOrderbook sym s =
  (Ok tt,
   {| adapter :=
        {| orderbookCallbacks :=
             filter (fun k => negb (String.eqb k (baseOf sym)))
                    (orderbookCallbacks (adapter s));
           _connected := _connected (adapter s) |};
      backend := snd (subscription_unsubscribeOrderbook (baseOf sym) (backend s)) |}).
Proof.
  intros Hne. unfold unsubscribeOrderbook.
  apply String.eqb_neq in Hne. rewrite Hne.
  unfold bind, update, try_catch, call, ret. simpl.
  destruct (subscription_unsubscribeOrderbook (baseOf sym) (backend s))
    as [[[]|e] v1]; reflexivity.
Qed.

(** X7: a symbol whose base is empty, that is the empty string or one that
    starts with a slash, makes [subscribeOrderbook] and
    [unsubscribeOrderbook] throw "Invalid symbol: ..." before anything is
    touched: no callback is registered or removed and nothing reaches the
    subscription manager. *)
Theorem empty_base_is_rejected (sym : string) (s : HState V) :
  sym = "" \/ (exists rest, sym = String "/"%char rest) ->
  subscribeOrderbook sym s = (Throw ("Invalid symbol: " ++ sym)%string, s)
  /\ unsubscribeOrderbook sym s = (Throw ("Invalid symbol: " ++ sym)%string, s).
Proof.
  intros H. apply baseOf_empty in H.
  unfold subscribeOrderbook, unsubscribeOrderbook. rewrite H. simpl.
  split; reflexivity.
Qed.

(** X8: the callback is keyed by the base, the part of the symbol before
    the first slash, which holds no slash itself. Subscribing registers the
    key before the subscription manager is asked, so the key is there even
    when the subscription fails and the error is thrown on; unsubscribing
    never throws for a non-empty base and removes the key whatever the
    manager answers. A pair symbol and its bare base share the key:
    subscribing as "BASE/..." and unsubscribing as "BASE" leaves nothing
    registered for it. *)
Theorem callbacks_are_keyed_by_base (sym : string) (s : HState V) :
  baseOf sym <> "" ->
  includes (baseOf sym) "/" = false
  /\ fst (subscribeOrderbook sym s)
     = fst (subscription_subscribeOrderbook (baseOf sym) (backend s))
  /\ In (baseOf sym) (orderbookCallbacks (adapter (snd (subscribeOrderbook sym s))))
  /\ fst (unsubscribeOrderbook sym s) = Ok tt
  /\ (forall k,
        In k (orderbookCallbacks (adapter (snd (unsubscribeOrderbook sym s))))
        <-> In k (orderbookCallbacks (adapter s)) /\ k <> baseOf sym)
  /\ (forall rest,
        ~ In (baseOf sym)
             (orderbookCallbacks
                (adapter (snd (unsubscribeOrderbook
                                 (baseOf sym)
                                 (snd (subscribeOrderbook
                                         (baseOf sym ++ String "/"%char rest) s))))))).
Proof.
  intros Hne.
  assert (Hclean : includes (baseOf sym) "/" = false)
    by (rewrite baseOf_splitHead; apply splitHead_no_slash).
  assert (Hself : baseOf (baseOf sym) = baseOf sym).
  { rewrite (baseOf_splitHead (baseOf sym)).
    apply no_slash_splitHead. exact Hclean. }
  split; [exact Hclean|].
  rewrite (hl_subscribe_run sym s Hne), (hl_unsubscribe_run sym s Hne).
  cbn [fst snd adapter orderbookCallbacks].
  split; [reflexivity|].
  split; [apply AftermathRestFacts.keys_set_In|].
  split; [reflexivity|].
  split.
  - intros k. rewrite filter_In, negb_true_iff, String.eqb_neq. reflexivity.
  - intros rest Hin.
    assert (Hpair : baseOf (baseOf sym ++ String "/"%char rest) = baseOf sym).
    { rewrite baseOf_splitHead. apply splitHead_pair. exact Hclean. }
    rewrite hl_subscribe_run in Hin by (rewrite Hpair; exact Hne).
    rewrite hl_unsubscribe_run in Hin by (rewrite Hself; exact Hne).
    cbn [snd adapter orderbookCallbacks] in Hin.
    rewrite filter_In, negb_true_iff, String.eqb_neq, Hself in Hin.
    destruct Hin as [_ Hk]. apply Hk. reflexivity.
Qed.

(** X9: [connect] probes the account: if the probe throws, the error is
    thrown on and the adapter is left as it was; if not, the adapter's own
    flag is set, yet [connected] answers true only while the subscription
    manager is connected as well. [disconnect] throws on a failure of the
    manager and then keeps both the flag and the callbacks; when it returns
    normally the callbacks are gone and [connected] answers false. *)
Theorem connect_and_disconnect_outcomes (s : HState V) :
  (forall e v1,
      fetchAccount (backend s) = (Throw e, v1) ->
      connect s = (Throw e, {| adapter := adapter s; backend := v1 |}))
  /\ (forall acct v1,
        fetchAccount (backend s) = (Ok acct, v1) ->
        fst (connect s) = Ok tt
        /\ orderbookCallbacks (adapter (snd (connect s)))
           = orderbookCallbacks (adapter s)
        /\ connected (snd (connect s)) = subscription_connected v1)
  /\ (forall e v1,
        subscription_disconnect (backend s) = (Throw e, v1) ->
        disconnect s = (Throw e, {| adapter := adapter s; backend := v1 |}))
  /\ (fst (disconnect s) = Ok tt ->
      orderbookCallbacks (adapter (snd (disconnect s))) = []
      /\ connected (snd (disconnect s)) = false).
Proof.
  unfold connect, disconnect, getAccount, connected,
    try_catch, bind, call, update, throw.
  repeat match goal with |- _ /\ _ => split end.
  - intros e v1 H. rewrite H. reflexivity.
  - intros acct v1 H. rewrite H. simpl. auto.
  - intros e v1 H. rewrite H. reflexivity.
  - destruct (subscription_disconnect (backend s)) as [[[]|e] v1]; simpl.
    + auto.
    + discriminate.
Qed.

End Facts.

End HyperliquidFacts.

(** ** The orchestrator: order sync, guards of the tick, margin check *)

Module MarketMakerMoreFacts.

Import MarketMaker MarketMakerFacts.

Section Facts.

Context {W : Type}.
Context {exchange : Exchange.IExchange W}.
Context {fairPriceCalc : FairPriceCalc.FairPriceCalculator W}.
Context {positionManager : PositionMgr.PositionManager W}.
Context {quoter : QuoterObj.Quoter W}.
Context {clock : Clock W}.

Lemma syncPosition_run (s : Sys W) :
  exists w',
    syncPosition s =
    (Ok tt, {| this := this s; world := w';
               calls := calls s ++ [GetPositionsReq] |}).
Proof.
  unfold syncPosition, try_catch, bind, request, read, query, invoke, ret.
  simpl.
  destruct (Exchange.getPositions (world s)) as [[positions|e] w1]; simpl;
    [|eauto].
  destruct (FairPriceCalc.getFairPrice w1) as [fp|e]; simpl; [|eauto].
  destruct (PositionMgr.updatePosition _ _ w1) as [[[]|e] w2]; simpl; eauto.
Qed.

(** X10: the order sync never throws and only reads: it requests the open
    orders of the symbol and then the positions, never a cancellation or a
    placement. If the venue answers with the open orders, they replace the
    tracked list, also when the position sync after it fails; if the request
    is rejected, the tracked list stays and the positions are not asked for.
    No other field of the orchestrator changes. *)
Theorem order_sync_only_reads (s : Sys W) :
  let sym := Some (symbol (config (this s))) in
  fst (syncOrders s) = Ok tt
  /\ orderSyncTick s = syncOrders s
  /\ (forall orders w1,
        Exchange.getOpenOrders sym (world s) = (Ok orders, w1) ->
        this (snd (syncOrders s)) = set_currentOrders orders (this s)
        /\ calls (snd (syncOrders s))
           = calls s ++ [GetOpenOrdersReq sym; GetPositionsReq])
  /\ (forall e w1,
        Exchange.getOpenOrders sym (world s) = (Throw e, w1) ->
        syncOrders s
        = (Ok tt, {| this := this s; world := w1;
                     calls := calls s ++ [GetOpenOrdersReq sym] |})).
Proof.
  cbv zeta.
  assert (Hrun :
    syncOrders s =
    match Exchange.getOpenOrders (Some (symbol (config (this s)))) (world s) with
    | (Ok orders, w1) =>
        syncPosition
          {| this := set_currentOrders orders (this s); world := w1;
             calls := calls s
                      ++ [GetOpenOrdersReq (Some (symbol (config (this s))))] |}
    | (Throw e, w1) =>
        (Ok tt, {| this := this s; world := w1;
                   calls := calls s
                            ++ [GetOpenOrdersReq
                                  (Some (symbol (config (this s))))] |})
    end).
  { unfold syncOrders. unfold try_catch at 1. unfold bind at 1.
    unfold read at 1. unfold bind at 1. unfold request at 1.
    cbn [this world calls].
    destruct (Exchange.getOpenOrders _ (world s)) as [[orders|e] w1];
      [|reflexivity].
    unfold bind at 1. unfold write at 1. cbn [this world calls].
    match goal with
    | |- context [syncPosition ?x] =>
        destruct (syncPosition_run x) as [w' ->]
    end.
    reflexivity. }
  repeat match goal with |- _ /\ _ => split end.
  - rewrite Hrun.
    destruct (Exchange.getOpenOrders _ (world s)) as [[orders|e] w1];
      [|reflexivity].
    match goal with
    | |- context [syncPosition ?x] =>
        destruct (syncPosition_run x) as [w' ->]
    end.
    reflexivity.
  - unfold orderSyncTick, try_catch. rewrite Hrun.
    destruct (Exchange.getOpenOrders _ (world s)) as [[orders|e] w1];
      [|reflexivity].
    match goal with
    | |- context [syncPosition ?x] =>
        destruct (syncPosition_run x) as [w' ->]
    end.
    reflexivity.
  - intros orders w1 H. rewrite Hrun, H.
    match goal with
    | |- context [syncPosition ?x] =>
        destruct (syncPosition_run x) as [w' ->]
    end.
    simpl. rewrite <- app_assoc. auto.
  - intros e w1 H. rewrite Hrun, H. reflexivity.
Qed.

(** X11: while the state is not [running] the quoting tick is without any
    effect, however often it fires: no request, no field changed, no error
    counted. *)
Theorem idle_ticks_do_nothing (n : nat) (s : Sys W) :
  state (this s) <> running ->
  mainLoopTick s = (Ok tt, s) /\ ticks n s = s.
Proof.
  intros H.
  assert (Hone : mainLoopTick s = (Ok tt, s))
    by (rewrite mainLoopTick_run, runMainLoop_not_running by exact H;
        reflexivity).
  split; [exact Hone|].
  induction n as [|n IH]; [reflexivity|].
  simpl. rewrite IH, Hone. reflexivity.
Qed.

(** A running tick that the throttle lets through goes on from the stamped
    state. *)
Lemma runMainLoop_stamps (s : Sys W) :
  state (this s) = running ->
  (updateThrottleMs (config (this s))
   <= date_now (world s) - lastUpdateTime (this s))%Z ->
  snd (runMainLoop s) = stamped s
  \/ exists q, runMainLoop s = updateOrders q (stamped s).
Proof.
  intros Hst Hth.
  unfold runMainLoop, updateOrders, stamped.
  unfold bind, ret, read, write, query, now. simpl.
  rewrite Hst. simpl. apply Z.ltb_ge in Hth. rewrite Hth. simpl.
  destruct (FairPriceCalc.getFairPrice (world s)) as [[p|]|e]; simpl;
    [|auto|auto].
  destruct (Qeq_bool p 0); simpl; [auto|].
  destruct (PositionMgr.isAtMax (world s)) as [[|]|e]; simpl; [auto| |auto].
  destruct (PositionMgr.getSignedNotional (world s)) as [n|e]; simpl; [|auto].
  destruct (QuoterObj.generateQuotes p n (world s)) as [q|e]; simpl; [|auto].
  right. exists q. reflexivity.
Qed.

(** From the staleness check on, only the tracked list and the error
    counter are written. *)
Lemma updateOrders_fields (q : Quote) (s : Sys W) :
  let f' := this (snd (updateOrders q s)) in
  config f' = config (this s)
  /\ state f' = state (this s)
  /\ lastUpdateTime f' = lastUpdateTime (this s)
  /\ lastMarginRatio f' = lastMarginRatio (this s).
Proof.
  cbv zeta.
  pose proof (updateOrders_outcome q s) as Ho.
  destruct (fst (shouldUpdateOrders q s)) as [[|]|e].
  - destruct Ho as (s1 & Hc & Ho).
    destruct (cancelAllOrders_ok s) as (s1' & Hc' & _ & _ & Ht & _).
    assert (s1' = s1) by congruence. subst s1'.
    destruct (QuoterObj.quoteToOrders q (world s1)) as [intents|e].
    + destruct Ho as [w' ->]. simpl.
      destruct Ht as [-> | ->]; simpl; auto.
    + rewrite Ho. simpl. destruct Ht as [-> | ->]; simpl; auto.
  - rewrite Ho. simpl. auto.
  - rewrite Ho. simpl. auto.
Qed.

(** X12: a running tick that the throttle lets through records the clock
    reading as the time of the last update before anything else, so the
    reading stays recorded when the tick then stops at a later guard, throws
    or updates the orders; and a tick that finds less than
    [updateThrottleMs] elapsed since the recorded time does nothing at
    all. *)
Theorem throttle_collapses_bursts (s : Sys W) :
  state (this s) = running ->
  (updateThrottleMs (config (this s))
   <= date_now (world s) - lastUpdateTime (this s))%Z ->
  lastUpdateTime (this (snd (mainLoopTick s))) = date_now (world s)
  /\ config (this (snd (mainLoopTick s))) = config (this s)
  /\ (forall s2,
        lastUpdateTime (this s2) = date_now (world s) ->
        (date_now (world s2) - date_now (world s)
         < updateThrottleMs (config (this s2)))%Z ->
        mainLoopTick s2 = (Ok tt, s2)).
Proof.
  intros Hst Hth. split; [|split].
  - rewrite mainLoopTick_run.
    destruct (runMainLoop_stamps s Hst Hth) as [Hq|(q & Hrun)].
    + destruct (runMainLoop s) as [[[]|e] s1]; simpl in Hq; subst s1.
      * reflexivity.
      * rewrite handleError_run. cbn -[Nat.leb].
        destruct (_ <=? _)%nat; reflexivity.
    + rewrite Hrun.
      destruct (updateOrders_fields q (stamped s)) as (_ & _ & Hl & _).
      destruct (updateOrders q (stamped s)) as [[[]|e] s1]; simpl in *.
      * exact Hl.
      * rewrite handleError_run. cbn -[Nat.leb].
        destruct (_ <=? _)%nat; simpl; exact Hl.
  - rewrite mainLoopTick_run.
    destruct (runMainLoop_stamps s Hst Hth) as [Hq|(q & Hrun)].
    + destruct (runMainLoop s) as [[[]|e] s1]; simpl in Hq; subst s1.
      * reflexivity.
      * rewrite handleError_run. cbn -[Nat.leb].
        destruct (_ <=? _)%nat; reflexivity.
    + rewrite Hrun.
      destruct (updateOrders_fields q (stamped s)) as (Hc & _).
      destruct (updateOrders q (stamped s)) as [[[]|e] s1]; simpl in *.
      * exact Hc.
      * rewrite handleError_run. cbn -[Nat.leb].
        destruct (_ <=? _)%nat; simpl; exact Hc.
  - intros s2 Hlast Hsoon. rewrite mainLoopTick_run.
    unfold runMainLoop, bind, ret, read, now. simpl.
    destruct (MarketMakerState_eqb (state (this s2)) running); simpl;
      [|reflexivity].
    rewrite Hlast. apply Z.ltb_lt in Hsoon. rewrite Hsoon. reflexivity.
Qed.

(** X13: the margin check never throws. If the account request is rejected
    it changes no field. Outside [running] it never requests a cancellation,
    so that a bot paused for low margin is not made to cancel again, and it
    leaves the tracked list alone; and a bot that is stopped, connecting,
    warming up or in error keeps its state whatever the ratio. *)
Theorem margin_check_outside_running (s : Sys W) :
  fst (checkMarginRatio s) = Ok tt
  /\ (forall e w1,
        Exchange.getAccount (world s) = (Throw e, w1) ->
        this (snd (checkMarginRatio s)) = this s)
  /\ (state (this s) <> running ->
      calls (snd (checkMarginRatio s)) = calls s ++ [GetAccountReq]
      /\ currentOrders (this (snd (checkMarginRatio s)))
         = currentOrders (this s))
  /\ (state (this s) <> running -> state (this s) <> paused ->
      state (this (snd (checkMarginRatio s))) = state (this s)).
Proof.
  split; [|split; [|split]].
  - destruct (checkMarginRatio_ok s) as [s' ->]. reflexivity.
  - intros e w1 H. rewrite checkMarginRatio_run, H. reflexivity.
  - intros Hnr. rewrite checkMarginRatio_run.
    destruct (Exchange.getAccount (world s)) as [[account|e] w1]; [|auto].
    cbv zeta.
    assert (Hr : MarketMakerState_eqb (state (this s)) running = false).
    { destruct (MarketMakerState_eqb (state (this s)) running) eqn:E; auto.
      apply MarketMakerState_eqb_eq in E. contradiction. }
    rewrite Hr.
    destruct (Qltb _ _); [simpl; auto|].
    destruct (_ && _); simpl; auto.
  - intros Hnr Hnp. rewrite checkMarginRatio_run.
    destruct (Exchange.getAccount (world s)) as [[account|e] w1]; [|auto].
    cbv zeta.
    assert (Hr : MarketMakerState_eqb (state (this s)) running = false).
    { destruct (MarketMakerState_eqb (state (this s)) running) eqn:E; auto.
      apply MarketMakerState_eqb_eq in E. contradiction. }
    assert (Hp : MarketMakerState_eqb (state (this s)) paused = false).
    { destruct (MarketMakerState_eqb (state (this s)) paused) eqn:E; auto.
      apply MarketMakerState_eqb_eq in E. contradiction. }
    rewrite Hr, Hp. simpl.
    destruct (Qltb _ _); reflexivity.
Qed.

(** X14: what a quoting tick sends is either nothing or one cancel-all for
    the symbol followed by placements only: it never places an order without
    having requested the cancellation of the resting ones first, and it
    never asks the venue for anything else. [runMainLoop] itself never
    changes the lifecycle state. *)
Theorem tick_cancels_before_it_places (s : Sys W) :
  (calls (snd (mainLoopTick s)) = calls s
   \/ exists intents,
        calls (snd (mainLoopTick s))
        = calls s ++ CancelAllOrdersReq (Some (symbol (config (this s))))
                     :: map PlaceOrderReq intents)
  /\ state (this (snd (runMainLoop s))) = state (this s).
Proof.
  assert (Hshape :
    (calls (snd (runMainLoop s)) = calls s
     \/ exists intents,
          calls (snd (runMainLoop s))
          = calls s ++ CancelAllOrdersReq (Some (symbol (config (this s))))
                       :: map PlaceOrderReq intents)
    /\ state (this (snd (runMainLoop s))) = state (this s)).
  { destruct (runMainLoop_split s) as [Hq|(p & n & q & Hq & Hrun)].
    - apply quiet_frame in Hq. split; [left|]; tauto.
    - rewrite Hrun.
      destruct (updateOrders_fields q (stamped s)) as (_ & Hst & _).
      split; [|exact Hst].
      pose proof (updateOrders_outcome q (stamped s)) as Ho.
      destruct (fst (shouldUpdateOrders q (stamped s))) as [[|]|e].
      + destruct Ho as (s1 & Hc & Ho).
        destruct (cancelAllOrders_ok (stamped s)) as (s1' & Hc' & Hcalls & _).
        assert (s1' = s1) by congruence. subst s1'.
        simpl in Hcalls.
        destruct (QuoterObj.quoteToOrders q (world s1)) as [intents|e].
        * destruct Ho as [w' ->]. right. exists intents. simpl.
          rewrite Hcalls, <- app_assoc. reflexivity.
        * rewrite Ho. right. exists []. simpl. exact Hcalls.
      + rewrite Ho. left. reflexivity.
      + rewrite Ho. left. reflexivity. }
  destruct Hshape as [Hcalls Hstate]. split; [|exact Hstate].
  rewrite mainLoopTick_run.
  destruct (runMainLoop s) as [[[]|e] s1]; simpl in *; [exact Hcalls|].
  rewrite handleError_run. cbn [snd calls]. exact Hcalls.
Qed.

Lemma anyOrderStale_answers (orders : list Order) (p : Q) (s : Sys W) :
  (forall price side fp w,
     exists b, QuoterObj.isOrderStale price side fp w = Ok b) ->
  exists b, fst (anyOrderStale orders p s) = Ok b.
Proof.
  intros H. induction orders as [|o rest IH]; simpl.
  - exists false. reflexivity.
  - unfold bind, query.
    destruct (H (order_price o) (order_side o) p (world s)) as [b ->].
    destruct b; [exists true; reflexivity | exact IH].
Qed.

Lemma updateOrders_returns (q : Quote) (s : Sys W) :
  (forall w, exists v, FairPriceCalc.getFairPrice w = Ok v) ->
  (forall price side fp w,
     exists b, QuoterObj.isOrderStale price side fp w = Ok b) ->
  (forall q w, exists l, QuoterObj.quoteToOrders q w = Ok l) ->
  fst (updateOrders q s) = Ok tt
  /\ (errorCount (this (snd (updateOrders q s))) <= errorCount (this s))%nat.
Proof.
  intros Hfp Hstale Hto.
  pose proof (updateOrders_outcome q s) as Ho.
  assert (Hb : exists b, fst (shouldUpdateOrders q s) = Ok b).
  { unfold shouldUpdateOrders, bind, read, query, ret. simpl.
    destruct (currentOrders (this s)) as [|o rest];
      [exists true; reflexivity|].
    destruct (Hfp (world s)) as [[p'|] Hp]; rewrite Hp; simpl;
      [|exists false; reflexivity].
    destruct (Qeq_bool p' 0); [exists false; reflexivity|].
    exact (anyOrderStale_answers (o :: rest) p' s Hstale). }
  destruct Hb as [b Hb]. rewrite Hb in Ho. destruct b.
  - destruct Ho as (s1 & _ & Ho).
    destruct (Hto q (world s1)) as [l Hl]. rewrite Hl in Ho.
    destruct Ho as [w' ->]. simpl. split; [reflexivity | lia].
  - rewrite Ho. simpl. split; [reflexivity | lia].
Qed.

(** X15: the circuit breaker counts the exceptions of the bot's own
    components only. If the fair-price calculator, the position manager and
    the quoter never throw, then whatever the venue rejects (the cancel-all
    or any placement) the quoting tick returns normally and the error
    counter does not grow. *)
Theorem venue_rejections_are_not_counted (s : Sys W) :
  (forall w, exists v, FairPriceCalc.getFairPrice w = Ok v) ->
  (forall w, exists b, PositionMgr.isAtMax w = Ok b) ->
  (forall w, exists n, PositionMgr.getSignedNotional w = Ok n) ->
  (forall p n w, exists q, QuoterObj.generateQuotes p n w = Ok q) ->
  (forall price side fp w,
     exists b, QuoterObj.isOrderStale price side fp w = Ok b) ->
  (forall q w, exists l, QuoterObj.quoteToOrders q w = Ok l) ->
  fst (runMainLoop s) = Ok tt
  /\ mainLoopTick s = runMainLoop s
  /\ (errorCount (this (snd (mainLoopTick s))) <= errorCount (this s))%nat.
Proof.
  intros Hfp Hmax Hn Hq Hstale Hto.
  assert (Hok : fst (runMainLoop s) = Ok tt
                /\ (errorCount (this (snd (runMainLoop s)))
                    <= errorCount (this s))%nat).
  { destruct (MarketMakerState_eqb (state (this s)) running) eqn:Est.
    2:{ rewrite runMainLoop_not_running; [simpl; auto|].
        intros H. apply MarketMakerState_eqb_eq in H. congruence. }
    apply MarketMakerState_eqb_eq in Est.
    destruct (date_now (world s) - lastUpdateTime (this s)
              <? updateThrottleMs (config (this s)))%Z eqn:Eth.
    { unfold runMainLoop, bind, ret, read, now. simpl.
      rewrite Est. simpl. rewrite Eth. simpl. auto. }
    apply Z.ltb_ge in Eth.
    destruct (runMainLoop_stamps s Est Eth) as [Hstamp|(q & Hrun)].
    - split.
      + unfold runMainLoop, bind, ret, read, write, query, now. simpl.
        rewrite Est. simpl. apply Z.ltb_ge in Eth. rewrite Eth. simpl.
        destruct (Hfp (world s)) as [[p|] Hp]; rewrite Hp; simpl;
          [|reflexivity].
        destruct (Qeq_bool p 0); simpl; [reflexivity|].
        destruct (Hmax (world s)) as [[|] Hm]; rewrite Hm; simpl;
          [reflexivity|].
        destruct (Hn (world s)) as [n Hn']. rewrite Hn'. simpl.
        destruct (Hq p n (world s)) as [q Hq']. rewrite Hq'. simpl.
        exact (proj1 (updateOrders_returns q (stamped s) Hfp Hstale Hto)).
      + rewrite Hstamp. simpl. lia.
    - rewrite Hrun.
      exact (updateOrders_returns q (stamped s) Hfp Hstale Hto). }
  destruct Hok as [Hfst Hcount].
  rewrite mainLoopTick_run.
  destruct (runMainLoop s) as [[[]|e] s1]; simpl in *; try discriminate.
  auto.
Qed.

End Facts.

End MarketMakerMoreFacts.

(** ** [stop] over the two adapters *)

Module AdapterStopFacts.

Import MarketMaker MarketMakerFacts.

Section OverHyperliquid.

Context {V : Type} {B : Hyperliquid.Backend V}.
Context {feed : FairPriceCalc.FairPriceCalculator (Hyperliquid.HState V)}.

#[local] Existing Instance Hyperliquid.HyperliquidExchange.

(** X16: with the Hyperliquid adapter as the exchange, [stop] on a symbol
    with a non-empty base requests all four clean-up steps; on a symbol
    with an empty base the unsubscribe throws, the exchange disconnect is
    never requested, and the feed disconnect is handed an adapter that still
    has its connected flag and its callbacks as before the stop. *)
Theorem stop_over_hyperliquid (s : Sys (Hyperliquid.HState V)) :
  let sym := symbol (config (this s)) in
  (Hyperliquid.baseOf sym <> "" ->
   calls (snd (stop s))
   = calls s ++ [CancelAllOrdersReq (Some sym); UnsubscribeOrderbookReq sym;
                 ExchangeDisconnectReq; FeedDisconnectReq])
  /\ (Hyperliquid.baseOf sym = "" ->
      calls (snd (stop s))
      = calls s ++ [CancelAllOrdersReq (Some sym); UnsubscribeOrderbookReq sym;
                    FeedDisconnectReq]
      /\ world (snd (stop s))
         = snd (FairPriceCalc.disconnect
                  {| Hyperliquid.adapter := Hyperliquid.adapter (world s);
                     Hyperliquid.backend :=
                       snd (Hyperliquid.cancelAllHLOrders
                              (Some sym) (Hyperliquid.backend (world s))) |})).
Proof.
  cbv zeta. pose proof (stop_run s) as Hrun. cbv zeta in Hrun.
  split.
  - intros Hbase. rewrite Hrun. cbn [snd calls].
    change (Exchange.unsubscribeOrderbook (symbol (config (this s))))
      with (@Hyperliquid.unsubscribeOrderbook V B (symbol (config (this s)))).
    rewrite HyperliquidFacts.hl_unsubscribe_run by exact Hbase.
    reflexivity.
  - intros Hbase. rewrite Hrun. cbn [snd calls world].
    change (Exchange.unsubscribeOrderbook (symbol (config (this s))))
      with (@Hyperliquid.unsubscribeOrderbook V B (symbol (config (this s)))).
    change (Exchange.cancelAllOrders (Some (symbol (config (this s)))))
      with (@Hyperliquid.cancelAllOrders V B (Some (symbol (config (this s))))).
    unfold Hyperliquid.unsubscribeOrderbook. rewrite Hbase.
    cbn [String.eqb]. unfold throw. cbn [fst snd is_ok].
    unfold Hyperliquid.cancelAllOrders, Hyperliquid.call.
    destruct (Hyperliquid.cancelAllHLOrders _ _) as [r v1]. split; reflexivity.
Qed.

End OverHyperliquid.

Section OverAftermath.

Context {V : Type} {B : Aftermath.Backend V}.
Context {feed : FairPriceCalc.FairPriceCalculator (Aftermath.AState V)}.

#[local] Existing Instance Aftermath.AftermathExchange.

(** X17: with the Aftermath adapter as the exchange, whose unsubscribe never
    throws, [stop] always requests all four clean-up steps, in order: cancel
    all orders, unsubscribe, exchange disconnect, feed disconnect. *)
Theorem stop_over_aftermath (s : Sys (Aftermath.AState V)) :
  calls (snd (stop s))
  = calls s ++ [CancelAllOrdersReq (Some (symbol (config (this s))));
                UnsubscribeOrderbookReq (symbol (config (this s)));
                ExchangeDisconnectReq; FeedDisconnectReq].
Proof.
  pose proof (stop_run s) as Hrun. cbv zeta in Hrun. rewrite Hrun.
  cbn [snd calls].
  change (Exchange.unsubscribeOrderbook (symbol (config (this s))))
    with (@Aftermath.unsubscribeOrderbook V B (symbol (config (this s)))).
  rewrite AftermathRestFacts.unsubscribe_returns. reflexivity.
Qed.

End OverAftermath.

End AdapterStopFacts.

(** ** Start-up, status and the entry points *)

Module StartupFacts.

Import MarketMaker MarketMakerFacts MarketMakerRest.

Section Facts.

Context {W : Type}.
Context {exchange : Exchange.IExchange W}.
Context {exchangeSetup : ExchangeSetup W}.
Context {fairPriceCalc : FairPriceCalc.FairPriceCalculator W}.
Context {feedSetup : FeedSetup W}.
Context {quoterSetup : QuoterSetup W}.
Context {positionView : PositionView W}.
Context {clock : Clock W}.

Variable toLowerCase : string -> string.
Variable priceSource : string.

(** [find] answers with the first element that passes the test. *)
Lemma find_first {A} (f : A -> bool) (before after : list A) (x : A) :
  (forall y, In y before -> f y = false) ->
  f x = true ->
  find f (before ++ x :: after) = Some x.
Proof.
  intros Hbefore Hx. induction before as [|y rest IH]; simpl.
  - rewrite Hx. reflexivity.
  - rewrite (Hbefore y (or_introl eq_refl)).
    apply IH. intros z Hz. apply Hbefore. right. exact Hz.
Qed.

(** X18: [start] acts only on a stopped bot: in any other state it returns
    at once and changes nothing. From [stopped] it records the clock
    reading as start time and then goes through the exchange connect, the
    market list, the choice of the market, binding the quoter, the orderbook
    subscription and the feed connect. The first of these that throws ends
    the start: its error is thrown on, the state is [error], the later
    steps are not run, and nothing is cleaned up: no cancellation and no
    disconnect is requested. A symbol that matches no market throws "Market
    not found for symbol: ...". If nothing throws, the state is
    [warming_up] and the market is the first of the venue's list whose base
    matches the symbol regardless of case or whose symbol equals it. *)
Theorem start_guards_and_failures (s : Sys W) :
  let sym := symbol (config (this s)) in
  let f0 := set_startTime (date_now (world s))
                          (set_state connecting (this s)) in
  let failed := fun (f : Fields) (w : W) =>
                  {| this := set_state error f; world := w;
                     calls := calls s |} in
  (state (this s) <> stopped ->
   startUntilWarmup toLowerCase s = (Ok tt, s))
  /\ (state (this s) = stopped ->
      calls (snd (startUntilWarmup toLowerCase s)) = calls s
      /\ currentOrders (this (snd (startUntilWarmup toLowerCase s)))
         = currentOrders (this s)
      /\ startTime (this (snd (startUntilWarmup toLowerCase s)))
         = date_now (world s)
      /\ match fst (startUntilWarmup toLowerCase s) with
         | Throw _ =>
             state (this (snd (startUntilWarmup toLowerCase s))) = error
         | Ok _ =>
             state (this (snd (startUntilWarmup toLowerCase s))) = warming_up
             /\ exists markets m,
                  fst (getMarkets (snd (connect (world s)))) = Ok markets
                  /\ findMarket toLowerCase sym markets = Some m
                  /\ market (this (snd (startUntilWarmup toLowerCase s)))
                     = Some m
         end)
  /\ (forall e w1,
        state (this s) = stopped ->
        connect (world s) = (Throw e, w1) ->
        startUntilWarmup toLowerCase s = (Throw e, failed f0 w1))
  /\ (forall w1 e w2,
        state (this s) = stopped ->
        connect (world s) = (Ok tt, w1) ->
        getMarkets w1 = (Throw e, w2) ->
        startUntilWarmup toLowerCase s = (Throw e, failed f0 w2))
  /\ (forall w1 markets w2,
        state (this s) = stopped ->
        connect (world s) = (Ok tt, w1) ->
        getMarkets w1 = (Ok markets, w2) ->
        findMarket toLowerCase sym markets = None ->
        startUntilWarmup toLowerCase s
        = (Throw ("Market not found for symbol: " ++ sym)%string,
           failed (set_market None f0) w2))
  /\ (forall w1 markets w2 m,
        state (this s) = stopped ->
        connect (world s) = (Ok tt, w1) ->
        getMarkets w1 = (Ok markets, w2) ->
        findMarket toLowerCase sym markets = Some m ->
        (forall e w3,
           setMarket m w2 = (Throw e, w3) ->
           startUntilWarmup toLowerCase s
           = (Throw e, failed (set_market (Some m) f0) w3))
        /\ (forall w3 e w4,
              setMarket m w2 = (Ok tt, w3) ->
              subscribeOrderbook sym w3 = (Throw e, w4) ->
              startUntilWarmup toLowerCase s
              = (Throw e, failed (set_market (Some m) f0) w4))
        /\ (forall w3 w4 e w5,
              setMarket m w2 = (Ok tt, w3) ->
              subscribeOrderbook sym w3 = (Ok tt, w4) ->
              feed_connect w4 = (Throw e, w5) ->
              startUntilWarmup toLowerCase s
              = (Throw e, failed (set_market (Some m) f0) w5))
        /\ (forall w3 w4 w5,
              setMarket m w2 = (Ok tt, w3) ->
              subscribeOrderbook sym w3 = (Ok tt, w4) ->
              feed_connect w4 = (Ok tt, w5) ->
              startUntilWarmup toLowerCase s
              = (Ok tt,
                 {| this := set_state warming_up (set_market (Some m) f0);
                    world := w5; calls := calls s |})))
  /\ (forall before m after,
        (forall x, In x before -> matchesSymbol toLowerCase sym x = false) ->
        matchesSymbol toLowerCase sym m = true ->
        findMarket toLowerCase sym (before ++ m :: after) = Some m).
Proof.
  cbv zeta.
  assert (Hgo : state (this s) = stopped ->
    startUntilWarmup toLowerCase s
    = try_catch
        (write (set_state connecting) ;;
         t <- now ;;
         write (set_startTime t) ;;
         invoke connect ;;
         markets <- invoke getMarkets ;;
         write (set_market (findMarket toLowerCase (symbol (config (this s)))
                                       markets)) ;;
         match findMarket toLowerCase (symbol (config (this s))) markets with
         | None =>
             throw ("Market not found for symbol: "
                    ++ symbol (config (this s)))
         | Some m =>
             invoke (setMarket m) ;;
             invoke (subscribeOrderbook (symbol (config (this s)))) ;;
             invoke feed_connect ;;
             write (set_state warming_up)
         end)
        (fun e => write (set_state error) ;; throw e) s).
  { intros Hst. unfold startUntilWarmup. unfold bind at 1. unfold read at 1.
    rewrite Hst. reflexivity. }
  repeat match goal with |- _ /\ _ => split end.
  - intros Hst. unfold startUntilWarmup, bind, read, ret. simpl.
    destruct (MarketMakerState_eqb (state (this s)) stopped) eqn:E.
    + apply MarketMakerState_eqb_eq in E. contradiction.
    + reflexivity.
  - intros Hst. rewrite (Hgo Hst).
    unfold try_catch, bind, read, write, now, invoke, throw, ret.
    simpl.
    destruct (connect (world s)) as [[[]|e] w1]; simpl; [|auto].
    destruct (getMarkets w1) as [[markets|e] w2]; simpl; [|auto].
    destruct (findMarket toLowerCase (symbol (config (this s))) markets)
      as [m|] eqn:Hfind; simpl; [|auto].
    destruct (setMarket m w2) as [[[]|e] w3]; simpl; [|auto].
    destruct (subscribeOrderbook (symbol (config (this s))) w3)
      as [[[]|e] w4]; simpl; [|auto].
    destruct (feed_connect w4) as [[[]|e] w5]; simpl; [|auto].
    repeat split. exists markets, m. auto.
  - intros e w1 Hst Hc. rewrite (Hgo Hst).
    unfold try_catch, bind, read, write, now, invoke, throw, ret.
    simpl. rewrite Hc. reflexivity.
  - intros w1 e w2 Hst Hc Hm. rewrite (Hgo Hst).
    unfold try_catch, bind, read, write, now, invoke, throw, ret.
    simpl. rewrite Hc. simpl. rewrite Hm. reflexivity.
  - intros w1 markets w2 Hst Hc Hm Hfind. rewrite (Hgo Hst).
    unfold try_catch, bind, read, write, now, invoke, throw, ret.
    simpl. rewrite Hc. simpl. rewrite Hm. simpl. rewrite Hfind. reflexivity.
  - intros w1 markets w2 m Hst Hc Hm Hfind. rewrite (Hgo Hst).
    unfold try_catch, bind, read, write, now, invoke, throw, ret.
    simpl. rewrite Hc. simpl. rewrite Hm. simpl. rewrite Hfind. simpl.
    repeat match goal with |- _ /\ _ => split end.
    + intros e w3 H3. rewrite H3. reflexivity.
    + intros w3 e w4 H3 H4. rewrite H3. simpl. rewrite H4. reflexivity.
    + intros w3 w4 e w5 H3 H4 H5. rewrite H3. simpl. rewrite H4. simpl.
      rewrite H5. reflexivity.
    + intros w3 w4 w5 H3 H4 H5. rewrite H3. simpl. rewrite H4. simpl.
      rewrite H5. reflexivity.
  - intros before m after Hbefore Hm. unfold findMarket.
    apply find_first; assumption.
Qed.

(** X19: [getStatus] changes nothing and reports for each side the first
    tracked order of that side: when the tracked list has an order of a
    side with none of that side before it, the reported price and size of
    the side are that order's, each of them null if it is 0. So a reported
    bid is the price of a tracked buy order and is not 0, a reported ask
    that of a tracked sell order; with no tracked order of a side both its
    price and its size are reported null. *)
Theorem status_reports_first_order_per_side (s : Sys W) (st : MarketMakerStatus) :
  fst (getStatus priceSource s) = Ok st ->
  snd (getStatus priceSource s) = s
  /\ st_state st = state (this s)
  /\ st_uptime st = (date_now (world s) - startTime (this s))%Z
  /\ (forall before o after,
        currentOrders (this s) = before ++ o :: after ->
        (forall x, In x before -> order_side x = sell) ->
        order_side o = buy ->
        st_bidPrice st
        = (if Qeq_bool (order_price o) 0 then None else Some (order_price o))
        /\ st_bidSize st
           = (if Qeq_bool (order_size o) 0 then None else Some (order_size o)))
  /\ (forall before o after,
        currentOrders (this s) = before ++ o :: after ->
        (forall x, In x before -> order_side x = buy) ->
        order_side o = sell ->
        st_askPrice st
        = (if Qeq_bool (order_price o) 0 then None else Some (order_price o))
        /\ st_askSize st
           = (if Qeq_bool (order_size o) 0 then None else Some (order_size o)))
  /\ (forall p, st_bidPrice st = Some p ->
        exists o, In o (currentOrders (this s))
                  /\ order_side o = buy /\ order_price o = p
                  /\ Qeq_bool p 0 = false)
  /\ (forall p, st_askPrice st = Some p ->
        exists o, In o (currentOrders (this s))
                  /\ order_side o = sell /\ order_price o = p
                  /\ Qeq_bool p 0 = false)
  /\ ((forall o, In o (currentOrders (this s)) -> order_side o = sell) ->
      st_bidPrice st = None /\ st_bidSize st = None)
  /\ ((forall o, In o (currentOrders (this s)) -> order_side o = buy) ->
      st_askPrice st = None /\ st_askSize st = None).
Proof.
  unfold getStatus, bind, query, read, now, ret. simpl.
  destruct (getPosition (world s)) as [position|e]; simpl; [|discriminate].
  destruct (FairPriceCalc.getFairPrice (world s)) as [fp|e]; simpl;
    [|discriminate].
  destruct (isCloseMode (world s)) as [cm|e]; simpl; [|discriminate].
  intros H. injection H as <-. simpl.
  repeat match goal with |- _ /\ _ => split end; try reflexivity.
  - intros before o after Hlist Hbefore Hside. rewrite Hlist.
    rewrite (find_first is_buy before after o).
    + split; reflexivity.
    + intros x Hx. unfold is_buy. rewrite (Hbefore x Hx). reflexivity.
    + unfold is_buy. rewrite Hside. reflexivity.
  - intros before o after Hlist Hbefore Hside. rewrite Hlist.
    rewrite (find_first is_sell before after o).
    + split; reflexivity.
    + intros x Hx. unfold is_sell. rewrite (Hbefore x Hx). reflexivity.
    + unfold is_sell. rewrite Hside. reflexivity.
  - intros p Hp. unfold field_or_null in Hp.
    destruct (find is_buy (currentOrders (this s))) as [o|] eqn:Hf;
      [|discriminate].
    apply find_some in Hf. destruct Hf as [Hin Hb].
    destruct (Qeq_bool (order_price o) 0) eqn:E; [discriminate|].
    injection Hp as <-. exists o. unfold is_buy in Hb.
    destruct (order_side o); [auto | discriminate].
  - intros p Hp. unfold field_or_null in Hp.
    destruct (find is_sell (currentOrders (this s))) as [o|] eqn:Hf;
      [|discriminate].
    apply find_some in Hf. destruct Hf as [Hin Hb].
    destruct (Qeq_bool (order_price o) 0) eqn:E; [discriminate|].
    injection Hp as <-. exists o. unfold is_sell in Hb.
    destruct (order_side o); [discriminate | auto].
  - intros Hall. unfold field_or_null.
    destruct (find is_buy (currentOrders (this s))) as [o|] eqn:Hf;
      [|split; reflexivity].
    apply find_some in Hf. destruct Hf as [Hin Hb].
    exfalso. unfold is_buy in Hb. rewrite (Hall o Hin) in Hb. discriminate.
  - intros Hall. unfold field_or_null.
    destruct (find is_sell (currentOrders (this s))) as [o|] eqn:Hf;
      [|split; reflexivity].
    apply find_some in Hf. destruct Hf as [Hin Hb].
    exfalso. unfold is_sell in Hb. rewrite (Hall o Hin) in Hb. discriminate.
Qed.

End Facts.

End StartupFacts.

Module CliFacts.

Import MarketMaker MarketMakerFacts Cli.

Section Facts.

Context {W : Type}.
Context {exchange : Exchange.IExchange W}.
Context {fairPriceCalc : FairPriceCalc.FairPriceCalculator W}.

(** X20: the bot's [shutdown] stops the market maker once: with the flag
    clear it sets the flag, leaves the bot [stopped] and exits with code 0,
    never 1, since [stop] does not throw; with the flag set, as on a second
    signal, it does nothing. *)
Theorem shutdown_exits_zero_once (p : Process W) :
  (isShuttingDown p = false ->
   isShuttingDown (shutdown p) = true
   /\ exited (shutdown p) = Some 0%Z
   /\ mm (shutdown p) = snd (stop (mm p))
   /\ state (this (mm (shutdown p))) = stopped)
  /\ shutdown (shutdown p) = shutdown p
  /\ (isShuttingDown p = true -> shutdown p = p).
Proof.
  assert (Hflag : isShuttingDown (shutdown p) = true).
  { unfold shutdown. destruct (isShuttingDown p) eqn:E; [exact E|].
    destruct (stop (mm p)) as [[u|e] s']; reflexivity. }
  split; [|split].
  - intros Hclear. split; [exact Hflag|].
    unfold shutdown. rewrite Hclear.
    destruct (stop_post (mm p)) as (Hok & Hst & _).
    destruct (stop (mm p)) as [[u|e] s']; simpl in *; [auto | discriminate].
  - unfold shutdown at 1. rewrite Hflag. reflexivity.
  - intros Hset. unfold shutdown. rewrite Hset. reflexivity.
Qed.

(** X21: the monitor's [shutdown] always exits with code 0, but its three
    clean-up calls share one [try]: the first that throws ends the clean-up,
    so a rejected unsubscribe leaves both the exchange and the price feed
    connected, and a failed exchange disconnect leaves the feed
    connected. *)
Theorem monitor_shutdown_stops_at_first_failure (sym : string) (s : Sys W) :
  let u := Exchange.unsubscribeOrderbook sym (world s) in
  let d := Exchange.disconnect (snd u) in
  fst (monitorShutdown sym s) = Ok 0%Z
  /\ this (snd (monitorShutdown sym s)) = this s
  /\ calls (snd (monitorShutdown sym s))
     = calls s
       ++ UnsubscribeOrderbookReq sym
          :: (if is_ok (fst u)
              then ExchangeDisconnectReq
                   :: (if is_ok (fst d) then [FeedDisconnectReq] else [])
              else []).
Proof.
  cbv zeta. unfold monitorShutdown, try_catch, bind, request, ret. simpl.
  destruct (Exchange.unsubscribeOrderbook sym (world s)) as [[[]|e] w1];
    simpl; [|auto].
  destruct (Exchange.disconnect w1) as [[[]|e] w2]; simpl.
  - destruct (FairPriceCalc.disconnect w2) as [[[]|e] w3]; simpl;
      rewrite <- !app_assoc; auto.
  - rewrite <- !app_assoc. auto.
Qed.

End Facts.

End CliFacts.

(** ** Concrete runs of the adapters and of the remaining methods *)

Module MoreRuns.

Import Sim SimVenue SimRest.

(** The adapter asked for the pair symbol of BTC, then again, then for the
    base: one market request in all. *)
Lemma cached_lookup_witness :
  let st1 := snd (Aftermath.getChIdForSymbol "BTC/USD:USDC" (start venueWithBid)) in
  Aftermath.getChIdForSymbol "BTC/USD:USDC" st1 = (Ok "0xbtc", st1)
  /\ Aftermath.getChIdForSymbol (market_base btc) st1 = (Ok "0xbtc", st1).
Proof.
  cbv zeta.
  assert (Hrun : Aftermath.getChIdForSymbol "BTC/USD:USDC" (start venueWithBid)
                 = (Ok "0xbtc",
                    snd (Aftermath.getChIdForSymbol "BTC/USD:USDC"
                           (start venueWithBid))))
    by (vm_compute; reflexivity).
  assert (Ht : Aftermath.truthy "0xbtc" = true) by reflexivity.
  destruct (AftermathRestFacts.resolved_symbol_is_cached
              "BTC/USD:USDC" "0xbtc" _ _ Hrun Ht) as [Hagain Hbase].
  split; [exact Hagain|].
  apply (Hbase btc venueWithBid).
  - exact I.
  - reflexivity.
Defined.

(** A symbol that the venue does not list. *)
Lemma unknown_market_witness :
  Aftermath.placeOrder
    {| req_symbol := "DOGE"; req_side := buy; req_price := 1; req_size := 1;
       req_reduceOnly := false |} (start venueWithBid)
  = (Throw "Market not found for symbol: DOGE",
     AftermathRest.looked_up "DOGE" (start venueWithBid))
  /\ Aftermath.unsubscribeOrderbook "DOGE" (start venueWithBid)
     = (Ok tt, AftermathRest.looked_up "DOGE" (start venueWithBid)).
Proof.
  assert (Hsym : Aftermath.truthy "DOGE" = true) by reflexivity.
  assert (Hmiss : AftermathRest.cache_miss "DOGE" (start venueWithBid))
    by exact I.
  assert (Hm : Aftermath.getMarketBySymbol
                 "DOGE" (Aftermath.backend (start venueWithBid))
               = (Ok None, venueWithBid)) by reflexivity.
  destruct (AftermathRestFacts.unknown_market_stops_every_method
              "DOGE" (start venueWithBid) venueWithBid Hsym Hmiss Hm)
    as (Hplace & _ & _ & _ & _ & Hunsub).
  split; [|exact Hunsub].
  apply Hplace. reflexivity.
Defined.


(** A teardown that fails keeps the adapter; a disconnect that returns has
    cleared it. *)
Lemma disconnect_witness :
  (fst (@Aftermath.disconnect Venue (downBackend "disconnect")
          (snd (AftermathRest.connect (start venueWithBid))))
   = Throw "down"
   /\ Aftermath.adapter
        (snd (@Aftermath.disconnect Venue (downBackend "disconnect")
                (snd (AftermathRest.connect (start venueWithBid)))))
      = Aftermath.adapter (snd (AftermathRest.connect (start venueWithBid))))
  /\ AftermathRest.connected
       (snd (Aftermath.disconnect
               (snd (AftermathRest.connect (start venueWithBid)))))
     = false.
Proof.
  split.
  - destruct (AftermathRestFacts.disconnect_clears_or_keeps
                (B := downBackend "disconnect")
                (snd (AftermathRest.connect (start venueWithBid))))
      as (_ & _ & Hfail & _).
    apply (Hfail "down" venueWithBid). reflexivity.
  - destruct (AftermathRestFacts.disconnect_clears_or_keeps
                (snd (AftermathRest.connect (start venueWithBid))))
      as (_ & _ & _ & Hok).
    destruct Hok as (Hc & _); [reflexivity | exact Hc].
Defined.

(** [connect] against a venue whose account check is down, whose market
    list is down, and against a venue that lists two markets with the base
    BTC: the base resolves to the second. *)
Lemma connect_witness :
  (fst (@AftermathRest.connect Venue (downBackend "getAccountCap") _
          (start venueWithBid)) = Throw "down")
  /\ (fst (@AftermathRest.connect Venue _ (downBackendRest "fetchMarkets")
             (start venueWithBid)) = Throw "down")
  /\ (fst (AftermathRest.connect (start twinVenue)) = Ok tt
      /\ AftermathRest.connected (snd (AftermathRest.connect (start twinVenue)))
         = true
      /\ Aftermath.map_get "BTC"
           (Aftermath.symbolToChId
              (Aftermath.adapter (snd (AftermathRest.connect (start twinVenue)))))
         = Some "0xbtc2"
      /\ Aftermath.getChIdForSymbol "BTC/USD:USDC"
           (snd (AftermathRest.connect (start twinVenue)))
         = (Ok "0xbtc", snd (AftermathRest.connect (start twinVenue)))).
Proof.
  split; [|split].
  - destruct (AftermathRestFacts.connect_caches_every_market
                (B := downBackend "getAccountCap") (start venueWithBid))
      as (Hfail & _).
    destruct (Hfail "down" venueWithBid) as [H _]; [reflexivity | exact H].
  - destruct (AftermathRestFacts.connect_caches_every_market
                (R := downBackendRest "fetchMarkets") (start venueWithBid))
      as (_ & Hfail & _).
    destruct (Hfail {| Aftermath.accountNumber := 7 |} venueWithBid
                    "down" venueWithBid) as [H _];
      [reflexivity | reflexivity | exact H].
  - destruct (AftermathRestFacts.connect_caches_every_market
                (start twinVenue)) as (_ & _ & Hok).
    destruct (Hok {| Aftermath.accountNumber := 7 |} twinVenue
                  [btc; btcTwin] twinVenue) as (H1 & H2 & Hmap & Hall);
      [reflexivity | reflexivity |].
    split; [exact H1|]. split; [exact H2|]. split; [exact (Hmap "BTC")|].
    destruct (Hall btc "BTC/USD:USDC") as (m' & Hlast & _ & _ & _ & Hhit).
    + left. reflexivity.
    + left. reflexivity.
    + injection Hlast as <-. apply Hhit. reflexivity.
Defined.

(** Subscribe to BTC, then unsubscribe. *)
Lemma unsubscribe_witness :
  In "BTC" (Aftermath.orderbookCallbacks
              (Aftermath.adapter
                 (snd (AftermathRest.subscribeOrderbook "BTC" (start venueWithBid)))))
  /\ ~ In "BTC" (Aftermath.orderbookCallbacks
                   (Aftermath.adapter
                      (snd (Aftermath.unsubscribeOrderbook
                              "BTC"
                              (snd (AftermathRest.subscribeOrderbook
                                      "BTC" (start venueWithBid))))))).
Proof.
  destruct (AftermathRestFacts.unsubscribe_never_throws
              "BTC" (start venueWithBid)) as (_ & _ & Hround).
  apply (Hround "0xbtc"
                (snd (Aftermath.getChIdForSymbol "BTC" (start venueWithBid)))).
  - vm_compute. reflexivity.
  - reflexivity.
  - vm_compute. reflexivity.
Defined.

(** The Hyperliquid adapter and the symbol "/USD". *)
Lemma empty_base_witness :
  Hyperliquid.subscribeOrderbook "/USD" (hlStart venueWithBid)
  = (Throw "Invalid symbol: /USD", hlStart venueWithBid)
  /\ Hyperliquid.unsubscribeOrderbook "/USD" (hlStart venueWithBid)
     = (Throw "Invalid symbol: /USD", hlStart venueWithBid).
Proof.
  apply (HyperliquidFacts.empty_base_is_rejected "/USD" (hlStart venueWithBid)).
  right. exists "USD". reflexivity.
Defined.

(** Subscribing as "BTC/USD:USD" registers "BTC"; unsubscribing as "BTC"
    removes it. *)
Lemma base_key_witness :
  In "BTC" (Hyperliquid.orderbookCallbacks
              (Hyperliquid.adapter
                 (snd (Hyperliquid.subscribeOrderbook
                         "BTC/USD:USD" (hlStart venueWithBid)))))
  /\ ~ In (Hyperliquid.baseOf "BTC/USD:USD")
          (Hyperliquid.orderbookCallbacks
             (Hyperliquid.adapter
                (snd (Hyperliquid.unsubscribeOrderbook
                        (Hyperliquid.baseOf "BTC/USD:USD")
                        (snd (Hyperliquid.subscribeOrderbook
                                (Hyperliquid.baseOf "BTC/USD:USD"
                                 ++ String "/"%char "USD:USD")
                                (hlStart venueWithBid))))))).
Proof.
  destruct (HyperliquidFacts.callbacks_are_keyed_by_base
              "BTC/USD:USD" (hlStart venueWithBid))
    as (_ & _ & Hin & _ & _ & Hround).
  - vm_compute. discriminate.
  - split; [exact Hin | exact (Hround "USD:USD")].
Defined.

(** The probe of [connect] down, the teardown of [disconnect] down, and
    both working. *)
Lemma hyperliquid_connect_witness :
  @Hyperliquid.connect Venue (downHyperliquid "fetchAccount") (hlStart venueWithBid)
  = (Throw "down", hlStart venueWithBid)
  /\ Hyperliquid.connected (snd (Hyperliquid.connect (hlStart venueWithBid)))
     = true
  /\ @Hyperliquid.disconnect Venue (downHyperliquid "disconnect")
       (hlStart venueWithBid)
     = (Throw "down", hlStart venueWithBid)
  /\ Hyperliquid.connected (snd (Hyperliquid.disconnect (hlStart venueWithBid)))
     = false.
Proof.
  repeat match goal with |- _ /\ _ => split end.
  - apply (proj1 (HyperliquidFacts.connect_and_disconnect_outcomes
                    (B := downHyperliquid "fetchAccount")
                    (hlStart venueWithBid)) "down" venueWithBid).
    reflexivity.
  - destruct (proj1 (proj2 (HyperliquidFacts.connect_and_disconnect_outcomes
                              (hlStart venueWithBid)))
                    (v_account venueWithBid) venueWithBid)
      as (_ & _ & H); [reflexivity | exact H].
  - apply (proj1 (proj2 (proj2 (HyperliquidFacts.connect_and_disconnect_outcomes
                                  (B := downHyperliquid "disconnect")
                                  (hlStart venueWithBid)))) "down" venueWithBid).
    reflexivity.
  - apply (proj2 (proj2 (proj2 (HyperliquidFacts.connect_and_disconnect_outcomes
                                  (hlStart venueWithBid))))).
    reflexivity.
Defined.

#[local] Existing Instance Hyperliquid.HyperliquidExchange.

(** [stop] over the Hyperliquid adapter, for "BTC" and for "/USD". *)
Lemma stop_over_hyperliquid_witness :
  MarketMaker.calls
    (snd (MarketMaker.stop
            {| MarketMaker.this := runningBot;
               MarketMaker.world := hlStart venueWithBid;
               MarketMaker.calls := [] |}))
  = [CancelAllOrdersReq (Some "BTC"); UnsubscribeOrderbookReq "BTC";
     ExchangeDisconnectReq; FeedDisconnectReq]
  /\ MarketMaker.calls
       (snd (MarketMaker.stop
               {| MarketMaker.this := MarketMaker.initial slashConfig;
                  MarketMaker.world := hlStart venueWithBid;
                  MarketMaker.calls := [] |}))
     = [CancelAllOrdersReq (Some "/USD"); UnsubscribeOrderbookReq "/USD";
        FeedDisconnectReq].
Proof.
  split.
  - apply (proj1 (AdapterStopFacts.stop_over_hyperliquid
                    {| MarketMaker.this := runningBot;
                       MarketMaker.world := hlStart venueWithBid;
                       MarketMaker.calls := [] |})).
    vm_compute. discriminate.
  - apply (proj2 (AdapterStopFacts.stop_over_hyperliquid
                    {| MarketMaker.this := MarketMaker.initial slashConfig;
                       MarketMaker.world := hlStart venueWithBid;
                       MarketMaker.calls := [] |})).
    reflexivity.
Defined.

(** The order sync against a venue that holds the resting bid, and against
    one that rejects the open-orders request. *)
Lemma order_sync_witness :
  (MarketMaker.this (snd (MarketMaker.syncOrders (boot runningBot bidOnVenueWorld)))
   = MarketMaker.set_currentOrders [restingBid] runningBot
   /\ MarketMaker.calls
        (snd (MarketMaker.syncOrders (boot runningBot bidOnVenueWorld)))
      = [GetOpenOrdersReq (Some "BTC"); GetPositionsReq])
  /\ MarketMaker.syncOrders (boot botWithOrder noOrdersAnswerWorld)
     = (Ok tt, {| MarketMaker.this := botWithOrder;
                  MarketMaker.world := noOrdersAnswerWorld;
                  MarketMaker.calls := [GetOpenOrdersReq (Some "BTC")] |}).
Proof.
  split.
  - destruct (MarketMakerMoreFacts.order_sync_only_reads
                (boot runningBot bidOnVenueWorld)) as (_ & _ & Hok & _).
    apply (Hok [restingBid] bidOnVenueWorld). reflexivity.
  - destruct (MarketMakerMoreFacts.order_sync_only_reads
                (boot botWithOrder noOrdersAnswerWorld)) as (_ & _ & _ & Hrej).
    apply (Hrej "rejected" noOrdersAnswerWorld). reflexivity.
Defined.

(** Five ticks of a paused bot. *)
Lemma idle_ticks_witness :
  MarketMaker.mainLoopTick (boot pausedBot quietWorld)
  = (Ok tt, boot pausedBot quietWorld)
  /\ MarketMaker.ticks 5 (boot pausedBot quietWorld) = boot pausedBot quietWorld.
Proof.
  apply (MarketMakerMoreFacts.idle_ticks_do_nothing 5 (boot pausedBot quietWorld)).
  simpl. discriminate.
Defined.

(** A tick at clock reading 100000 and a second tick at the same reading. *)
Lemma throttle_witness :
  MarketMaker.lastUpdateTime
    (MarketMaker.this (snd (MarketMaker.mainLoopTick (boot runningBot quietWorld))))
  = 100000%Z
  /\ MarketMaker.mainLoopTick
       (snd (MarketMaker.mainLoopTick (boot runningBot quietWorld)))
     = (Ok tt, snd (MarketMaker.mainLoopTick (boot runningBot quietWorld))).
Proof.
  assert (Hst : MarketMaker.state (MarketMaker.this (boot runningBot quietWorld))
                = running) by reflexivity.
  assert (Hth : (updateThrottleMs
                   (MarketMaker.config
                      (MarketMaker.this (boot runningBot quietWorld)))
                 <= date_now (MarketMaker.world (boot runningBot quietWorld))
                    - MarketMaker.lastUpdateTime
                        (MarketMaker.this (boot runningBot quietWorld)))%Z)
    by (vm_compute; discriminate).
  destruct (MarketMakerMoreFacts.throttle_collapses_bursts
              (boot runningBot quietWorld) Hst Hth) as (Hlast & _ & Hnext).
  split; [exact Hlast|].
  apply Hnext.
  - vm_compute. reflexivity.
  - vm_compute. reflexivity.
Defined.

(** The margin check with the account request rejected, on a paused bot
    with the ratio at 0.08, and on a stopped bot. *)
Lemma margin_check_witness :
  MarketMaker.this (snd (MarketMaker.checkMarginRatio (boot botWithOrder noAccountWorld)))
  = botWithOrder
  /\ (MarketMaker.calls
        (snd (MarketMaker.checkMarginRatio (boot pausedBot lowMarginWorld)))
      = [GetAccountReq]
      /\ MarketMaker.currentOrders
           (MarketMaker.this
              (snd (MarketMaker.checkMarginRatio (boot pausedBot lowMarginWorld))))
         = [])
  /\ MarketMaker.state
       (MarketMaker.this
          (snd (MarketMaker.checkMarginRatio (boot stoppedBot lowMarginWorld))))
     = stopped.
Proof.
  split; [|split].
  - destruct (MarketMakerMoreFacts.margin_check_outside_running
                (boot botWithOrder noAccountWorld)) as (_ & Hrej & _).
    apply (Hrej "rejected" noAccountWorld). reflexivity.
  - destruct (MarketMakerMoreFacts.margin_check_outside_running
                (boot pausedBot lowMarginWorld)) as (_ & _ & Hidle & _).
    apply Hidle. simpl. discriminate.
  - destruct (MarketMakerMoreFacts.margin_check_outside_running
                (boot stoppedBot lowMarginWorld)) as (_ & _ & _ & Hkeep).
    apply Hkeep; simpl; discriminate.
Defined.

(** A tick against a venue that rejects the cancel-all and every
    placement. *)
Lemma venue_rejections_witness :
  fst (MarketMaker.runMainLoop (quoter := steadyQuoter)
         (boot runningBot rejectingWorld)) = Ok tt
  /\ MarketMaker.mainLoopTick (quoter := steadyQuoter)
       (boot runningBot rejectingWorld)
     = MarketMaker.runMainLoop (quoter := steadyQuoter)
         (boot runningBot rejectingWorld)
  /\ (MarketMaker.errorCount
        (MarketMaker.this
           (snd (MarketMaker.mainLoopTick (quoter := steadyQuoter)
                   (boot runningBot rejectingWorld))))
      <= MarketMaker.errorCount
           (MarketMaker.this (boot runningBot rejectingWorld)))%nat.
Proof.
  apply (MarketMakerMoreFacts.venue_rejections_are_not_counted
           (quoter := steadyQuoter) (boot runningBot rejectingWorld)).
  - intros w. eexists. reflexivity.
  - intros w. eexists. reflexivity.
  - intros w. eexists. reflexivity.
  - intros p n w. eexists. reflexivity.
  - intros price side fp w. eexists. reflexivity.
  - intros q w. eexists. reflexivity.
Defined.

(** [start] on a running bot; on a stopped bot for BTC; with each step of
    the start down in turn; and for a symbol that the venue does not
    list. *)
Lemma start_witness :
  let begun := fun f =>
    MarketMakerRest.set_startTime 100000
      (MarketMaker.set_state connecting f) in
  let failed := fun f =>
    {| MarketMaker.this := MarketMaker.set_state error f;
       MarketMaker.world := quietWorld; MarketMaker.calls := [] |} in
  MarketMakerRest.startUntilWarmup lowerCase (boot runningBot quietWorld)
  = (Ok tt, boot runningBot quietWorld)
  /\ MarketMaker.state
       (MarketMaker.this
          (snd (MarketMakerRest.startUntilWarmup lowerCase
                  (boot stoppedBot quietWorld))))
     = warming_up
  /\ MarketMakerRest.startUntilWarmup
       (exchangeSetup := downExchangeSetup "connect")
       lowerCase (boot stoppedBot quietWorld)
     = (Throw "down", failed (begun stoppedBot))
  /\ MarketMakerRest.startUntilWarmup
       (exchangeSetup := downExchangeSetup "getMarkets")
       lowerCase (boot stoppedBot quietWorld)
     = (Throw "down", failed (begun stoppedBot))
  /\ MarketMakerRest.startUntilWarmup lowerCase (boot dogeBot quietWorld)
     = (Throw "Market not found for symbol: DOGE",
        failed (MarketMakerRest.set_market None (begun dogeBot)))
  /\ MarketMakerRest.startUntilWarmup (quoterSetup := downQuoterSetup)
       lowerCase (boot stoppedBot quietWorld)
     = (Throw "down",
        failed (MarketMakerRest.set_market (Some btc) (begun stoppedBot)))
  /\ MarketMakerRest.startUntilWarmup
       (exchangeSetup := downExchangeSetup "subscribeOrderbook")
       lowerCase (boot stoppedBot quietWorld)
     = (Throw "down",
        failed (MarketMakerRest.set_market (Some btc) (begun stoppedBot)))
  /\ MarketMakerRest.startUntilWarmup (feedSetup := downFeedSetup)
       lowerCase (boot stoppedBot quietWorld)
     = (Throw "down",
        failed (MarketMakerRest.set_market (Some btc) (begun stoppedBot)))
  /\ MarketMakerRest.startUntilWarmup lowerCase (boot stoppedBot quietWorld)
     = (Ok tt,
        {| MarketMaker.this :=
             MarketMaker.set_state warming_up
               (MarketMakerRest.set_market (Some btc) (begun stoppedBot));
           MarketMaker.world := quietWorld; MarketMaker.calls := [] |})
  /\ MarketMakerRest.findMarket lowerCase "btc" ([eth] ++ btc :: [btcTwin])
     = Some btc.
Proof.
  cbv zeta. repeat match goal with |- _ /\ _ => split end.
  - apply (proj1 (StartupFacts.start_guards_and_failures
                    lowerCase (boot runningBot quietWorld))).
    simpl. discriminate.
  - assert (Hfst : fst (MarketMakerRest.startUntilWarmup lowerCase
                          (boot stoppedBot quietWorld)) = Ok tt)
      by (vm_compute; reflexivity).
    destruct (proj1 (proj2 (StartupFacts.start_guards_and_failures
                              lowerCase (boot stoppedBot quietWorld))))
      as (_ & _ & _ & Hm); [reflexivity|].
    rewrite Hfst in Hm. exact (proj1 Hm).
  - destruct (StartupFacts.start_guards_and_failures
                (exchangeSetup := downExchangeSetup "connect")
                lowerCase (boot stoppedBot quietWorld))
      as (_ & _ & Hconnect & _).
    apply (Hconnect "down" quietWorld); reflexivity.
  - destruct (StartupFacts.start_guards_and_failures
                (exchangeSetup := downExchangeSetup "getMarkets")
                lowerCase (boot stoppedBot quietWorld))
      as (_ & _ & _ & Hmarkets & _).
    apply (Hmarkets quietWorld "down" quietWorld); reflexivity.
  - destruct (StartupFacts.start_guards_and_failures
                lowerCase (boot dogeBot quietWorld))
      as (_ & _ & _ & _ & Hnone & _).
    apply (Hnone quietWorld [btc] quietWorld); reflexivity.
  - destruct (StartupFacts.start_guards_and_failures
                (quoterSetup := downQuoterSetup)
                lowerCase (boot stoppedBot quietWorld))
      as (_ & _ & _ & _ & _ & Hsome & _).
    destruct (Hsome quietWorld [btc] quietWorld btc) as (Hbind & _);
      [reflexivity | reflexivity | reflexivity | reflexivity |].
    apply (Hbind "down" quietWorld). reflexivity.
  - destruct (StartupFacts.start_guards_and_failures
                (exchangeSetup := downExchangeSetup "subscribeOrderbook")
                lowerCase (boot stoppedBot quietWorld))
      as (_ & _ & _ & _ & _ & Hsome & _).
    destruct (Hsome quietWorld [btc] quietWorld btc) as (_ & Hsub & _);
      [reflexivity | reflexivity | reflexivity | reflexivity |].
    apply (Hsub quietWorld "down" quietWorld); reflexivity.
  - destruct (StartupFacts.start_guards_and_failures
                (feedSetup := downFeedSetup)
                lowerCase (boot stoppedBot quietWorld))
      as (_ & _ & _ & _ & _ & Hsome & _).
    destruct (Hsome quietWorld [btc] quietWorld btc) as (_ & _ & Hfeed & _);
      [reflexivity | reflexivity | reflexivity | reflexivity |].
    apply (Hfeed quietWorld quietWorld "down" quietWorld); reflexivity.
  - destruct (StartupFacts.start_guards_and_failures
                lowerCase (boot stoppedBot quietWorld))
      as (_ & _ & _ & _ & _ & Hsome & _).
    destruct (Hsome quietWorld [btc] quietWorld btc) as (_ & _ & _ & Hall);
      [reflexivity | reflexivity | reflexivity | reflexivity |].
    apply (Hall quietWorld quietWorld quietWorld); reflexivity.
  - destruct (StartupFacts.start_guards_and_failures
                lowerCase
                (boot lowerCaseBot quietWorld))
      as (_ & _ & _ & _ & _ & _ & Hfirst).
    apply (Hfirst [eth] btc [btcTwin]).
    + intros x [<-|[]]. reflexivity.
    + reflexivity.
Defined.

(** The status of a bot that tracks an ask, a bid and a second bid: the
    bid reported is the first; and of a bot that tracks the bid only. *)
Lemma status_witness :
  (exists st,
      fst (MarketMakerRest.getStatus "binance" (boot botThreeOrders quietWorld))
      = Ok st
      /\ MarketMakerRest.st_bidPrice st = Some 49950
      /\ MarketMakerRest.st_bidSize st = Some (2 # 1000)
      /\ MarketMakerRest.st_askPrice st = Some 3010
      /\ MarketMakerRest.st_askSize st = Some (1 # 100))
  /\ (exists st,
        fst (MarketMakerRest.getStatus "binance" (boot botWithOrder quietWorld))
        = Ok st
        /\ (exists o, In o [restingBid] /\ order_side o = buy
                      /\ order_price o = 49950 /\ Qeq_bool 49950 0 = false)
        /\ MarketMakerRest.st_askPrice st = None
        /\ MarketMakerRest.st_askSize st = None).
Proof.
  split.
  - destruct (fst (MarketMakerRest.getStatus
                     "binance" (boot botThreeOrders quietWorld)))
      as [st|e] eqn:E; [|vm_compute in E; discriminate].
    exists st. split; [reflexivity|].
    destruct (StartupFacts.status_reports_first_order_per_side
                "binance" (boot botThreeOrders quietWorld) st E)
      as (_ & _ & _ & Hbid & Hask & _).
    destruct (Hbid [restingAsk] restingBid [secondBid]) as [Hp Hs].
    + reflexivity.
    + intros x [<-|[]]. reflexivity.
    + reflexivity.
    + destruct (Hask [] restingAsk [restingBid; secondBid]) as [Hp' Hs'].
      * reflexivity.
      * intros x [].
      * reflexivity.
      * repeat split; assumption.
  - destruct (fst (MarketMakerRest.getStatus
                     "binance" (boot botWithOrder quietWorld)))
      as [st|e] eqn:E; [|vm_compute in E; discriminate].
    exists st. split; [reflexivity|].
    assert (Hbid : MarketMakerRest.st_bidPrice st = Some 49950)
      by (vm_compute in E; injection E as <-; reflexivity).
    destruct (StartupFacts.status_reports_first_order_per_side
                "binance" (boot botWithOrder quietWorld) st E)
      as (_ & _ & _ & _ & _ & Hb & _ & _ & Hnoask).
    split; [exact (Hb 49950 Hbid)|].
    apply Hnoask. intros o [<-|[]]. reflexivity.
Defined.

(** The first signal and a signal that finds the flag set. *)
Lemma shutdown_witness :
  (Cli.isShuttingDown (Cli.shutdown freshProcess) = true
   /\ Cli.exited (Cli.shutdown freshProcess) = Some 0%Z
   /\ Cli.mm (Cli.shutdown freshProcess)
      = snd (MarketMaker.stop (Cli.mm freshProcess))
   /\ MarketMaker.state (MarketMaker.this (Cli.mm (Cli.shutdown freshProcess)))
      = stopped)
  /\ Cli.shutdown flaggedProcess = flaggedProcess.
Proof.
  split.
  - apply (proj1 (CliFacts.shutdown_exits_zero_once freshProcess)).
    reflexivity.
  - apply (proj2 (proj2 (CliFacts.shutdown_exits_zero_once flaggedProcess))).
    reflexivity.
Defined.

End MoreRuns.
